(** * Hand Breath: signal conditioning and mode-blended animation

    A shallow embedding of the numeric core of the hand-controlled
    Saturn-ring visualisation:

    - [HandTracker] (modules/HandTracker.js): [calculateDistance],
      [calculateRotation], [drawHandSkeleton], [onResults];
    - [ParticleSystem] (modules/ParticleSystemHand.js): the constructor and
      [init], [createParticleLayer], [updateFromHand], [animateParticles];
    - [App] (app-hand.js): the wiring of the [handUpdate] event and of the
      render loop.

    JavaScript numbers are read as real numbers: [+], [-], [*], [/],
    [Math.sqrt], [Math.sin], [Math.cos], [Math.max], [Math.min] are the
    operations of [R].  Rounding to binary64 and the special values (NaN,
    infinities, signed zero) are outside that reading; module [Binary64] at
    the end of the definitions evaluates the distance pipeline on primitive
    binary64 floats where those special values matter. *)

From Stdlib Require Import Reals Lra Lia List String Bool ZArith.
From Stdlib Require Floats.
Import ListNotations.
Open Scope R_scope.

(** ** JavaScript operators on numbers *)

Module JS.

(** Truncation toward zero, the integer quotient used by [%]. *)
Definition trunc (r : R) : Z :=
  if Rle_dec 0 r then Int_part r else (- Int_part (- r))%Z.

(** [a % b]: the remainder has the sign of the dividend. *)
Definition rem (a b : R) : R := a - b * IZR (trunc (a / b)).

(** [Math.atan2(y, x)] on real arguments, with values in (-PI, PI]. *)
Definition atan2 (y x : R) : R :=
  if Rlt_dec 0 x then atan (y / x)
  else if Rlt_dec x 0 then
    if Rle_dec 0 y then atan (y / x) + PI else atan (y / x) - PI
  else
    if Rlt_dec 0 y then PI / 2
    else if Rlt_dec y 0 then - (PI / 2)
    else 0.

(** [a > b] and [a < b] as conditions of an [if]. *)
Definition gt (a b : R) : bool := if Rlt_dec b a then true else false.
Definition lt (a b : R) : bool := if Rlt_dec a b then true else false.

End JS.

(** ** Completions: a method either returns or throws, on a mutable [this] *)

Inductive Exn : Type := TypeError.

Inductive Completion (A : Type) : Type :=
| Normal (a : A)
| Throw (e : Exn).
Arguments Normal {A} a.
Arguments Throw {A} e.

(** A method body: from the object before the call to its completion and the
    object after it.  Mutations made before a throw stay. *)
Definition M (S A : Type) : Type := S -> Completion A * S.

Definition ret {S A} (a : A) : M S A := fun s => (Normal a, s).
Definition throw {S A} (e : Exn) : M S A := fun s => (Throw e, s).
Definition bind {S A B} (c : M S A) (k : A -> M S B) : M S B :=
  fun s => match c s with
           | (Normal a, s') => k a s'
           | (Throw e, s') => (Throw e, s')
           end.
Definition get {S} : M S S := fun s => (Normal s, s).
Definition modify {S} (f : S -> S) : M S unit := fun s => (Normal tt, f s).

Declare Scope js_scope.
Delimit Scope js_scope with js.
Notation "x <- c ;; k" := (bind c (fun x => k))
  (at level 61, c at next level, right associativity) : js_scope.
Notation "c ;; k" := (bind c (fun _ => k))
  (at level 61, right associativity) : js_scope.

(** ** HandTracker *)

Module Landmark.
(** One normalised landmark; only [x] and [y] are read. *)
Record t : Type := mk { x : R; y : R }.
End Landmark.

Definition Landmarks : Type := list Landmark.t.

(** The detection result: [multiHandLandmarks] is absent or an array with
    one landmark array per hand. *)
Record Results : Type := { multiHandLandmarks : option (list Landmarks) }.

Module HandState.
Record t : Type := mk {
  detected : bool;
  distance : R;
  rotation : R;
  rawLandmarks : option Landmarks
}.
Definition set_detected (v : bool) (h : t) : t :=
  mk v (distance h) (rotation h) (rawLandmarks h).
Definition set_distance (v : R) (h : t) : t :=
  mk (detected h) v (rotation h) (rawLandmarks h).
Definition set_rotation (v : R) (h : t) : t :=
  mk (detected h) (distance h) v (rawLandmarks h).
Definition set_rawLandmarks (v : option Landmarks) (h : t) : t :=
  mk (detected h) (distance h) (rotation h) v.
End HandState.

Module HandData.
(** The payload of the [handUpdate] event. *)
Record t : Type := mk { detected : bool; distance : R; rotation : R }.
End HandData.

Module HandTracker.

Record t : Type := mk {
  handState : HandState.t;
  smoothedDistance : R;
  smoothedRotation : R;
  smoothingFactor : R;
  showSkeleton : bool
}.

Definition set_handState (v : HandState.t) (this : t) : t :=
  mk v (smoothedDistance this) (smoothedRotation this)
     (smoothingFactor this) (showSkeleton this).
Definition set_smoothedDistance (v : R) (this : t) : t :=
  mk (handState this) v (smoothedRotation this)
     (smoothingFactor this) (showSkeleton this).
Definition set_smoothedRotation (v : R) (this : t) : t :=
  mk (handState this) (smoothedDistance this) v
     (smoothingFactor this) (showSkeleton this).
Definition set_showSkeleton (v : bool) (this : t) : t :=
  mk (handState this) (smoothedDistance this) (smoothedRotation this)
     (smoothingFactor this) v.

(** [constructor()]: the fields the callbacks below read or write.  The
    video, canvas and listener registry are not part of the model. *)
Definition constructor : t :=
  {| handState := {| HandState.detected := false;
                     HandState.distance := 0.5;
                     HandState.rotation := 0;
                     HandState.rawLandmarks := None |};
     smoothedDistance := 0.5;
     smoothedRotation := 0;
     smoothingFactor := 0.3;
     showSkeleton := false |}.

Local Open Scope js_scope.

(** [p.x] and [p.y] where [p] is an array element: reading a property of
    [undefined] throws a TypeError. *)
Definition prop_x (p : option Landmark.t) : M t R :=
  match p with Some l => ret (Landmark.x l) | None => throw TypeError end.
Definition prop_y (p : option Landmark.t) : M t R :=
  match p with Some l => ret (Landmark.y l) | None => throw TypeError end.

(** Line 191: [Math.sqrt(dx * dx + dy * dy)]. *)
Definition handSize (dx dy : R) : R := sqrt (dx * dx + dy * dy).

(** Lines 195-196: the calibration [0.15, 0.35] -> [1, 0] and the clamp. *)
Definition normalizeDistance (handSize : R) : R :=
  let distance := 1 - ((handSize - 0.15) / (0.35 - 0.15)) in
  Rmax 0 (Rmin 1 distance).

Definition calculateDistance (landmarks : Landmarks) : M t unit :=
  let wrist := nth_error landmarks 0 in
  let middleTip := nth_error landmarks 12 in
  tx <- prop_x middleTip ;; wx <- prop_x wrist ;;
  let dx := tx - wx in
  ty <- prop_y middleTip ;; wy <- prop_y wrist ;;
  let dy := ty - wy in
  let distance := normalizeDistance (handSize dx dy) in
  modify (fun this =>
    set_smoothedDistance
      (smoothedDistance this
       + (distance - smoothedDistance this) * smoothingFactor this) this) ;;
  modify (fun this =>
    set_handState
      (HandState.set_distance (smoothedDistance this) (handState this)) this).

(** Line 215: [Math.atan2(dy, dx) * (180 / Math.PI)]. *)
Definition rawAngle (dx dy : R) : R := JS.atan2 dy dx * (180 / PI).

(** Line 218: [((angle + 180) % 360) - 180]. *)
Definition normalizeAngle (angle : R) : R := JS.rem (angle + 180) 360 - 180.

(** Lines 221-225: the difference to the smoothed state, with one
    correction by a full turn in each direction. *)
Definition wrapDelta (angle smoothed : R) : R :=
  let rotationDelta := angle - smoothed in
  let rotationDelta :=
    if JS.gt rotationDelta 180 then rotationDelta - 360 else rotationDelta in
  let rotationDelta :=
    if JS.lt rotationDelta (-180) then rotationDelta + 360 else rotationDelta in
  rotationDelta.

Definition calculateRotation (landmarks : Landmarks) : M t unit :=
  let wrist := nth_error landmarks 0 in
  let middleBase := nth_error landmarks 9 in
  bx <- prop_x middleBase ;; wx <- prop_x wrist ;;
  let dx := bx - wx in
  by_ <- prop_y middleBase ;; wy <- prop_y wrist ;;
  let dy := by_ - wy in
  let angle := normalizeAngle (rawAngle dx dy) in
  modify (fun this =>
    let rotationDelta := wrapDelta angle (smoothedRotation this) in
    set_smoothedRotation
      (smoothedRotation this + rotationDelta * smoothingFactor this) this) ;;
  modify (fun this =>
    set_handState
      (HandState.set_rotation (smoothedRotation this) (handState this)) this).

(** The index pairs joined by [drawHandSkeleton]. *)
Definition connections : list (nat * nat) :=
  [ (0, 1); (1, 2); (2, 3); (3, 4);
    (0, 5); (5, 6); (6, 7); (7, 8);
    (0, 9); (9, 10); (10, 11); (11, 12);
    (0, 13); (13, 14); (14, 15); (15, 16);
    (0, 17); (17, 18); (18, 19); (19, 20);
    (5, 9); (9, 13); (13, 17) ]%nat.

(** [drawHandSkeleton]: the canvas is only written, so what is kept of the
    drawing is which landmarks it reads, in order.  [landmarks.forEach]
    visits existing elements only and cannot throw. *)
Fixpoint drawConnections (landmarks : Landmarks) (cs : list (nat * nat))
  : M t unit :=
  match cs with
  | [] => ret tt
  | (start, end_) :: cs' =>
      let startPoint := nth_error landmarks start in
      let endPoint := nth_error landmarks end_ in
      prop_x startPoint ;; prop_y startPoint ;;
      prop_x endPoint ;; prop_y endPoint ;;
      drawConnections landmarks cs'
  end.

Definition drawHandSkeleton (landmarks : Landmarks) : M t unit :=
  drawConnections landmarks connections.

Definition toggleSkeleton (show : bool) : M t unit :=
  modify (set_showSkeleton show).

Definition getHandState (this : t) : HandData.t :=
  {| HandData.detected := HandState.detected (handState this);
     HandData.distance := smoothedDistance this;
     HandData.rotation := smoothedRotation this |}.

(** [onResults(results)].  The value returned is the payload passed to
    [emit('handUpdate', ...)]; a throw leaves the callback before the
    event is emitted. *)
Definition onResults (results : Results) : M t HandData.t :=
  match multiHandLandmarks results with
  | Some (landmarks :: _) =>
      calculateDistance landmarks ;;
      calculateRotation landmarks ;;
      modify (fun this =>
        set_handState (HandState.set_detected true (handState this)) this) ;;
      modify (fun this =>
        set_handState
          (HandState.set_rawLandmarks (Some landmarks) (handState this))
          this) ;;
      this <- get ;;
      (if showSkeleton this then drawHandSkeleton landmarks else ret tt) ;;
      this <- get ;;
      ret {| HandData.detected := true;
             HandData.distance := smoothedDistance this;
             HandData.rotation := smoothedRotation this |}
  | _ =>
      modify (fun this =>
        set_handState (HandState.set_detected false (handState this)) this) ;;
      this <- get ;;
      ret {| HandData.detected := false;
             HandData.distance := smoothedDistance this;
             HandData.rotation := smoothedRotation this |}
  end.

End HandTracker.

(** ** Scene objects (the part of three.js the animation touches) *)

Module Vec3.
(** A [Vector3] (position, scale) or the angles of an [Euler] (rotation). *)
Record t : Type := mk { x : R; y : R; z : R }.
Definition set_x (v : R) (p : t) : t := mk v (y p) (z p).
Definition set_y (v : R) (p : t) : t := mk (x p) v (z p).
Definition set_z (v : R) (p : t) : t := mk (x p) (y p) v.
Definition zero : t := mk 0 0 0.
Definition one : t := mk 1 1 1.
End Vec3.

Module Material.
(** A [PointsMaterial]. *)
Record t : Type := mk { size : R; opacity : R }.
Definition set_size (v : R) (m : t) : t := mk v (opacity m).
Definition set_opacity (v : R) (m : t) : t := mk (size m) v.
End Material.

Module Points.
(** A [Points] object: one particle layer.  The geometry is drawn at random
    once and never read by the animation. *)
Record t : Type := mk { rotation : Vec3.t; material : Material.t }.
Definition set_rotation (v : Vec3.t) (p : t) : t := mk v (material p).
Definition set_material (v : Material.t) (p : t) : t := mk (rotation p) v.
End Points.

Module Camera.
(** A [PerspectiveCamera].  Its orientation is kept as the arguments of the
    last [lookAt]: the position it was aimed from and the target. *)
Record t : Type := mk { position : Vec3.t; aim : Vec3.t * Vec3.t }.
Definition set_position (v : Vec3.t) (c : t) : t := mk v (aim c).
Definition lookAt (target : Vec3.t) (c : t) : t :=
  mk (position c) (position c, target).
End Camera.

Module Group.
(** The [Group] holding the layers; children are references into the
    object store of the particle system. *)
Record t : Type := mk { scale : Vec3.t; rotation : Vec3.t; children : list nat }.
Definition set_scale (v : Vec3.t) (g : t) : t := mk v (rotation g) (children g).
Definition set_rotation (v : Vec3.t) (g : t) : t := mk (scale g) v (children g).
Definition add (ref : nat) (g : t) : t :=
  mk (scale g) (rotation g) (children g ++ [ref]).
End Group.

Module LayerConfig.
Record t : Type := mk {
  count : nat;
  color : Z;
  size : R;
  opacity : R;
  radius : R
}.
End LayerConfig.

Module Layers.
Record t : Type := mk {
  outer : LayerConfig.t;
  middle : LayerConfig.t;
  inner : LayerConfig.t
}.
(** [this.layers[layerName]] for the three layers, and the [undefined] of
    a name that is no property at all.  A name that [this.layers] inherits
    from [Object.prototype] ("constructor", "toString", ...) finds a
    function in the code; that case is outside the model. *)
Definition lookup (layerName : string) (l : t) : option LayerConfig.t :=
  if String.eqb layerName "outer" then Some (outer l)
  else if String.eqb layerName "middle" then Some (middle l)
  else if String.eqb layerName "inner" then Some (inner l)
  else None.
End Layers.

(** ** ParticleSystem *)

Module ParticleSystem.

(** The fields of [this].  [objects] is the store of the [Points] objects
    created so far; [refs] maps a property name of [this] that holds a
    layer ([outerShell], [middleRing], [innerCore] and whatever
    [createParticleLayer] assigns) to an index in that store, [None] being
    [null] or [undefined].  [camera] and [particleGroup] are [null] until
    [init]. *)
Record t : Type := mk {
  camera : option Camera.t;
  particleGroup : option Group.t;
  objects : list Points.t;
  refs : string -> option nat;
  layers : Layers.t;
  cameraDistance : R;
  targetCameraDistance : R;
  minCameraDistance : R;
  maxCameraDistance : R;
  sphereRotation : R;
  targetRotation : R;
  autoBreathTime : R;
  isHandControlled : bool;
  time : R
}.

Definition set_camera v (s : t) : t :=
  mk v (particleGroup s) (objects s) (refs s) (layers s) (cameraDistance s)
     (targetCameraDistance s) (minCameraDistance s) (maxCameraDistance s)
     (sphereRotation s) (targetRotation s) (autoBreathTime s)
     (isHandControlled s) (time s).
Definition set_particleGroup v (s : t) : t :=
  mk (camera s) v (objects s) (refs s) (layers s) (cameraDistance s)
     (targetCameraDistance s) (minCameraDistance s) (maxCameraDistance s)
     (sphereRotation s) (targetRotation s) (autoBreathTime s)
     (isHandControlled s) (time s).
Definition set_objects v (s : t) : t :=
  mk (camera s) (particleGroup s) v (refs s) (layers s) (cameraDistance s)
     (targetCameraDistance s) (minCameraDistance s) (maxCameraDistance s)
     (sphereRotation s) (targetRotation s) (autoBreathTime s)
     (isHandControlled s) (time s).
Definition set_refs v (s : t) : t :=
  mk (camera s) (particleGroup s) (objects s) v (layers s) (cameraDistance s)
     (targetCameraDistance s) (minCameraDistance s) (maxCameraDistance s)
     (sphereRotation s) (targetRotation s) (autoBreathTime s)
     (isHandControlled s) (time s).
Definition set_cameraDistance v (s : t) : t :=
  mk (camera s) (particleGroup s) (objects s) (refs s) (layers s) v
     (targetCameraDistance s) (minCameraDistance s) (maxCameraDistance s)
     (sphereRotation s) (targetRotation s) (autoBreathTime s)
     (isHandControlled s) (time s).
Definition set_targetCameraDistance v (s : t) : t :=
  mk (camera s) (particleGroup s) (objects s) (refs s) (layers s)
     (cameraDistance s) v (minCameraDistance s) (maxCameraDistance s)
     (sphereRotation s) (targetRotation s) (autoBreathTime s)
     (isHandControlled s) (time s).
Definition set_sphereRotation v (s : t) : t :=
  mk (camera s) (particleGroup s) (objects s) (refs s) (layers s)
     (cameraDistance s) (targetCameraDistance s) (minCameraDistance s)
     (maxCameraDistance s) v (targetRotation s) (autoBreathTime s)
     (isHandControlled s) (time s).
Definition set_targetRotation v (s : t) : t :=
  mk (camera s) (particleGroup s) (objects s) (refs s) (layers s)
     (cameraDistance s) (targetCameraDistance s) (minCameraDistance s)
     (maxCameraDistance s) (sphereRotation s) v (autoBreathTime s)
     (isHandControlled s) (time s).
Definition set_autoBreathTime v (s : t) : t :=
  mk (camera s) (particleGroup s) (objects s) (refs s) (layers s)
     (cameraDistance s) (targetCameraDistance s) (minCameraDistance s)
     (maxCameraDistance s) (sphereRotation s) (targetRotation s) v
     (isHandControlled s) (time s).
Definition set_isHandControlled v (s : t) : t :=
  mk (camera s) (particleGroup s) (objects s) (refs s) (layers s)
     (cameraDistance s) (targetCameraDistance s) (minCameraDistance s)
     (maxCameraDistance s) (sphereRotation s) (targetRotation s)
     (autoBreathTime s) v (time s).
Definition set_time v (s : t) : t :=
  mk (camera s) (particleGroup s) (objects s) (refs s) (layers s)
     (cameraDistance s) (targetCameraDistance s) (minCameraDistance s)
     (maxCameraDistance s) (sphereRotation s) (targetRotation s)
     (autoBreathTime s) (isHandControlled s) v.

Definition constructor : t :=
  {| camera := None;
     particleGroup := None;
     objects := [];
     refs := fun _ => None;
     layers :=
       {| Layers.outer :=
            {| LayerConfig.count := 5000; LayerConfig.color := 0x1a1f3a;
               LayerConfig.size := 0.03; LayerConfig.opacity := 0.6;
               LayerConfig.radius := 4.0 |};
          Layers.middle :=
            {| LayerConfig.count := 3000; LayerConfig.color := 0xff9f40;
               LayerConfig.size := 0.05; LayerConfig.opacity := 0.9;
               LayerConfig.radius := 2.5 |};
          Layers.inner :=
            {| LayerConfig.count := 2000; LayerConfig.color := 0xfff5e1;
               LayerConfig.size := 0.08; LayerConfig.opacity := 1.0;
               LayerConfig.radius := 1.5 |} |};
     cameraDistance := 10;
     targetCameraDistance := 10;
     minCameraDistance := 3;
     maxCameraDistance := 15;
     sphereRotation := 0;
     targetRotation := 0;
     autoBreathTime := 0;
     isHandControlled := false;
     time := 0 |}.

Local Open Scope js_scope.

(** Writes through [this.camera], [this.particleGroup] and through a layer
    reference; a write through [null] throws. *)
Definition onCamera (f : Camera.t -> Camera.t) : M t unit :=
  fun this =>
    match camera this with
    | Some c => (Normal tt, set_camera (Some (f c)) this)
    | None => (Throw TypeError, this)
    end.

Definition onGroup (f : Group.t -> Group.t) : M t unit :=
  fun this =>
    match particleGroup this with
    | Some g => (Normal tt, set_particleGroup (Some (f g)) this)
    | None => (Throw TypeError, this)
    end.

Fixpoint update_nth {A} (i : nat) (f : A -> A) (l : list A) : list A :=
  match l, i with
  | [], _ => []
  | a :: l', O => f a :: l'
  | a :: l', S i' => a :: update_nth i' f l'
  end.

Definition onObject (ref : nat) (f : Points.t -> Points.t) : M t unit :=
  modify (fun this => set_objects (update_nth ref f (objects this)) this).

(** [createParticleLayer(layerName)].  The new object is stored under the
    property named [layerName + "Shell"] and added to the group. *)
Definition createParticleLayer (layerName : string) : M t unit :=
  this <- get ;;
  match Layers.lookup layerName (layers this) with
  | None => throw TypeError
  | Some config =>
      let material :=
        {| Material.size := LayerConfig.size config;
           Material.opacity := LayerConfig.opacity config |} in
      let particles :=
        {| Points.rotation := Vec3.zero; Points.material := material |} in
      let ref := List.length (objects this) in
      modify (fun this => set_objects (objects this ++ [particles]) this) ;;
      modify (fun this =>
        set_refs (fun name =>
          if String.eqb name (layerName ++ "Shell") then Some ref
          else refs this name) this) ;;
      onGroup (Group.add ref)
  end.

(** [init()]: camera, group and the three layers (scene, renderer, lights
    and the resize listener are not part of the model). *)
Definition init : M t unit :=
  modify (fun this =>
    set_camera
      (Some (Camera.lookAt Vec3.zero
               {| Camera.position := Vec3.mk 0 2 (cameraDistance this);
                  Camera.aim := (Vec3.zero, Vec3.zero) |})) this) ;;
  modify (set_particleGroup
            (Some {| Group.scale := Vec3.one; Group.rotation := Vec3.zero;
                     Group.children := [] |})) ;;
  createParticleLayer "outer" ;;
  createParticleLayer "middle" ;;
  createParticleLayer "inner".

Definition updateFromHand (handData : HandData.t) : M t unit :=
  if HandData.detected handData then
    modify (set_isHandControlled true) ;;
    modify (fun this =>
      set_targetCameraDistance
        (minCameraDistance this
         + HandData.distance handData
           * (maxCameraDistance this - minCameraDistance this)) this) ;;
    modify (set_targetRotation ((HandData.rotation handData * PI) / 180))
  else
    modify (set_isHandControlled false) ;;
    modify (set_targetCameraDistance 10) ;;
    modify (set_targetRotation 0).

(** The three blocks of "individual layer animations", each guarded by the
    property it reads. *)
Definition animateOuterShell : M t unit :=
  this <- get ;;
  match refs this "outerShell" with
  | Some outerShell =>
      onObject outerShell (fun p =>
        Points.set_rotation
          (Vec3.set_z (Vec3.z (Points.rotation p) + 0.0003)
             (Points.rotation p)) p)
  | None => ret tt
  end.

Definition animateMiddleRing : M t unit :=
  this <- get ;;
  match refs this "middleRing" with
  | Some middleRing =>
      onObject middleRing (fun p =>
        Points.set_rotation
          (Vec3.set_y (Vec3.y (Points.rotation p) + 0.001)
             (Points.rotation p)) p) ;;
      this <- get ;;
      let pulse := 1 + sin (time this * 3) * 0.05 in
      onObject middleRing (fun p =>
        Points.set_material
          (Material.set_opacity
             (LayerConfig.opacity (Layers.middle (layers this)) * pulse)
             (Points.material p)) p)
  | None => ret tt
  end.

Definition animateInnerCore : M t unit :=
  this <- get ;;
  match refs this "innerCore" with
  | Some innerCore =>
      onObject innerCore (fun p =>
        Points.set_rotation
          (Vec3.set_x (Vec3.x (Points.rotation p) + 0.002)
             (Points.rotation p)) p) ;;
      this <- get ;;
      let glow := 1 + sin (time this * 4) * 0.1 in
      onObject innerCore (fun p =>
        Points.set_material
          (Material.set_size
             (LayerConfig.size (Layers.inner (layers this)) * glow)
             (Points.material p)) p)
  | None => ret tt
  end.

Definition animateParticles : M t unit :=
  modify (fun this => set_time (time this + 0.01) this) ;;
  this <- get ;;
  (if isHandControlled this then
     modify (fun this =>
       set_cameraDistance
         (cameraDistance this
          + (targetCameraDistance this - cameraDistance this) * 0.08) this) ;;
     this <- get ;;
     onCamera (fun c =>
       Camera.set_position
         (Vec3.set_z (cameraDistance this) (Camera.position c)) c) ;;
     modify (fun this =>
       set_sphereRotation
         (sphereRotation this
          + (targetRotation this - sphereRotation this) * 0.08) this) ;;
     this <- get ;;
     onGroup (fun g =>
       Group.set_rotation
         (Vec3.set_y (sphereRotation this) (Group.rotation g)) g)
   else
     modify (fun this =>
       set_autoBreathTime (autoBreathTime this + 0.01) this) ;;
     this <- get ;;
     let breathScale := 1 + sin (autoBreathTime this * 2) * 0.05 in
     onGroup (Group.set_scale (Vec3.mk breathScale breathScale breathScale)) ;;
     onGroup (fun g =>
       Group.set_rotation
         (Vec3.set_y (Vec3.y (Group.rotation g) + 0.002)
            (Group.rotation g)) g) ;;
     onGroup (fun g =>
       Group.set_rotation
         (Vec3.set_x (sin (autoBreathTime this * 0.5) * 0.1)
            (Group.rotation g)) g) ;;
     onCamera (fun c =>
       Camera.set_position
         (Vec3.set_x (sin (autoBreathTime this * 0.3) * 1)
            (Camera.position c)) c) ;;
     onCamera (fun c =>
       Camera.set_position
         (Vec3.set_y (2 + cos (autoBreathTime this * 0.2) * 0.5)
            (Camera.position c)) c) ;;
     onCamera (Camera.lookAt Vec3.zero)) ;;
  animateOuterShell ;;
  animateMiddleRing ;;
  animateInnerCore.

(** [render()]: the draw call reads the scene and changes nothing. *)
Definition render : M t unit := animateParticles.

End ParticleSystem.

(** ** App: the two callbacks of the event loop *)

Module App.

Record t : Type := mk {
  handTracker : HandTracker.t;
  particleSystem : ParticleSystem.t
}.

(** What the host calls: a detection result, an animation frame, or the
    skeleton toggle of the user interface. *)
Inductive Event : Type :=
| Detection (results : Results)
| AnimationFrame
| SkeletonToggle (show : bool).

(** [onHandUpdate(handData)] on a page whose status text exists, where
    [updateHandStatus] completes and touches the document only: what is
    left is the call of [updateFromHand] (the throttled log changes
    nothing).  The listener in full, with the TypeError of a page without
    status text that keeps [updateFromHand] from being called, is
    [Emitter.onHandUpdate]; [Site.detection] runs it. *)
Definition onHandUpdate (handData : HandData.t) (app : t) : t :=
  mk (handTracker app)
     (snd (ParticleSystem.updateFromHand handData (particleSystem app))).

(** One callback, run to completion, on a page whose status text exists.
    An exception ends the callback and leaves the mutations made so far;
    the event loop goes on ([requestAnimationFrame] is called before
    [render]). *)
Definition step (app : t) (e : Event) : t :=
  match e with
  | Detection results =>
      match HandTracker.onResults results (handTracker app) with
      | (Normal handData, tracker) =>
          onHandUpdate handData (mk tracker (particleSystem app))
      | (Throw _, tracker) => mk tracker (particleSystem app)
      end
  | AnimationFrame =>
      mk (handTracker app) (snd (ParticleSystem.render (particleSystem app)))
  | SkeletonToggle show =>
      mk (snd (HandTracker.toggleSkeleton show (handTracker app)))
         (particleSystem app)
  end.

Definition run (app : t) (es : list Event) : t := fold_left step es app.

(** [new App()] followed by [init()]: the scene is initialised and the
    first frame is rendered before any detection result can arrive. *)
Definition init : t :=
  step (mk HandTracker.constructor
           (snd (ParticleSystem.init ParticleSystem.constructor)))
       AnimationFrame.

End App.

(** ** The distance pipeline on binary64 numbers

    The same lines of [calculateDistance], evaluated with the primitive
    binary64 operations, for inputs the real-number reading cannot express
    (NaN coordinates) and for the effect of rounding. *)

Module Binary64.

Import Floats.
#[local] Set Warnings "-inexact-float".
Local Open Scope float_scope.

(** [Math.min] and [Math.max] of two numbers: NaN if either is NaN, and
    [-0] is smaller than [+0]. *)
Definition min (a b : float) : float :=
  if is_nan a || is_nan b then nan
  else if a <? b then a
  else if b <? a then b
  else if 1 / a <? 0 then a else b.

Definition max (a b : float) : float :=
  if is_nan a || is_nan b then nan
  else if a <? b then b
  else if b <? a then a
  else if 0 <? 1 / a then a else b.

Record Landmark : Type := { x : float; y : float }.

Definition handSize (dx dy : float) : float := sqrt (dx * dx + dy * dy).

Definition normalizeDistance (handSize : float) : float :=
  let distance := 1 - ((handSize - 0.15) / (0.35 - 0.15)) in
  max 0 (min 1 distance).

(** [calculateDistance(landmarks)] as a function of the smoothed distance
    before the call (the smoothing factor is the constant 0.3 set by the
    constructor): the smoothed distance after it, or the TypeError of a
    missing landmark. *)
Definition calculateDistance (landmarks : list Landmark)
    (smoothedDistance : float) : Completion float :=
  let wrist := nth_error landmarks 0 in
  let middleTip := nth_error landmarks 12 in
  match middleTip, wrist with
  | Some middleTip, Some wrist =>
      let dx := x middleTip - x wrist in
      let dy := y middleTip - y wrist in
      let distance := normalizeDistance (handSize dx dy) in
      Normal (smoothedDistance + (distance - smoothedDistance) * 0.3)
  | _, _ => Throw TypeError
  end.

(** The smoothed distance after a sequence of detected frames; a throwing
    frame leaves it as it was. *)
Definition track (smoothedDistance : float) (frames : list (list Landmark))
    : float :=
  fold_left
    (fun s landmarks =>
       match calculateDistance landmarks s with
       | Normal s' => s'
       | Throw _ => s
       end)
    frames smoothedDistance.

(** A 21-point frame given by its wrist and its middle-finger tip. *)
Definition frame (wrist middleTip : Landmark) : list Landmark :=
  wrist :: repeat wrist 11 ++ middleTip :: repeat wrist 8.

End Binary64.

(** ** Detection results used in the statements *)

Module Frames.

(** A frame of 21 landmarks given by its wrist (0), middle-finger base (9)
    and middle-finger tip (12); the other points sit on the wrist. *)
Definition hand (wrist middleBase middleTip : Landmark.t) : Landmarks :=
  wrist :: repeat wrist 8 ++ middleBase :: repeat wrist 2
        ++ middleTip :: repeat wrist 8.

Definition detection (landmarks : Landmarks) : Results :=
  {| multiHandLandmarks := Some [landmarks] |}.

(** The two shapes of a result without a hand. *)
Definition absent : Results := {| multiHandLandmarks := None |}.
Definition empty : Results := {| multiHandLandmarks := Some [] |}.

Definition noHand (results : Results) : Prop :=
  multiHandLandmarks results = None \/ multiHandLandmarks results = Some [].

(** A hand of size 0.25 around the centre of the image, the middle finger
    pointing along +y, -x, -y and +x: raw angles 90, 180, -90 and 0. *)
Definition centre : Landmark.t := Landmark.mk 0.5 0.5.
Definition up : Landmarks :=
  hand centre (Landmark.mk 0.5 0.6) (Landmark.mk 0.5 0.75).
Definition left : Landmarks :=
  hand centre (Landmark.mk 0.4 0.5) (Landmark.mk 0.25 0.5).
Definition down : Landmarks :=
  hand centre (Landmark.mk 0.5 0.4) (Landmark.mk 0.5 0.25).
Definition right : Landmarks :=
  hand centre (Landmark.mk 0.6 0.5) (Landmark.mk 0.75 0.5).

(** A large hand: the tip 0.45 away from the wrist. *)
Definition near : Landmarks :=
  hand centre (Landmark.mk 0.5 0.6) (Landmark.mk 0.5 0.95).

(** A hand partly outside the image: the tip at x = 1.2. *)
Definition outside : Landmarks :=
  hand centre (Landmark.mk 0.6 0.5) (Landmark.mk 1.2 0.5).

(** The first 13 and the first 12 landmarks of [near]. *)
Definition short13 : Landmarks := firstn 13 near.
Definition short12 : Landmarks := firstn 12 near.

End Frames.

(** The handoff of the smoothed signal: the tracker after a list of
    detection results, starting from the constructor. *)
Definition conditioned (frames : list Landmarks) : HandTracker.t :=
  App.handTracker
    (App.run App.init (map (fun l => App.Detection (Frames.detection l)) frames)).

(** What every callback keeps true of the tracker: the smoothing factor of
    the constructor and a smoothed distance within [0, 1]. *)
Definition TrackerInv (t : HandTracker.t) : Prop :=
  HandTracker.smoothingFactor t = 0.3
  /\ 0 <= HandTracker.smoothedDistance t <= 1
  /\ 0 <= HandState.distance (HandTracker.handState t) <= 1.

(** The part of the pose that only the idle animation writes: the camera's
    x and y and its aim, the group's scale, its rotation about x (and z,
    which nothing writes) and its children. *)
Definition idlePose (ps : ParticleSystem.t)
  : option (R * R * (Vec3.t * Vec3.t)) * option (Vec3.t * R * R * list nat) :=
  (option_map
     (fun c => (Vec3.x (Camera.position c), Vec3.y (Camera.position c),
                Camera.aim c))
     (ParticleSystem.camera ps),
   option_map
     (fun g => (Group.scale g, Vec3.x (Group.rotation g),
                Vec3.z (Group.rotation g), Group.children g))
     (ParticleSystem.particleGroup ps)).

(** Events that leave hand control on: anything but a result without a
    hand. *)
Definition keepsHand (e : App.Event) : Prop :=
  match e with
  | App.Detection results => ~ Frames.noHand results
  | _ => True
  end.

(** Events of a stretch without a hand: results without a hand and
    animation frames. *)
Definition quiet (e : App.Event) : Prop :=
  match e with
  | App.Detection results => Frames.noHand results
  | App.AnimationFrame => True
  | App.SkeletonToggle _ => False
  end.

(** What the scene keeps from [init] on: the camera and the group exist,
    only [outerShell] among the three properties read by the layer
    animations holds an object, the ranges and layer settings are those of
    the constructor, and the middle and inner layers are as created. *)
Definition SceneInv (ps : ParticleSystem.t) : Prop :=
  (exists c, ParticleSystem.camera ps = Some c)
  /\ (exists g, ParticleSystem.particleGroup ps = Some g)
  /\ ParticleSystem.refs ps "outerShell"%string = Some 0%nat
  /\ ParticleSystem.refs ps "middleRing"%string = None
  /\ ParticleSystem.refs ps "innerCore"%string = None
  /\ ParticleSystem.refs ps "middleShell"%string = Some 1%nat
  /\ ParticleSystem.refs ps "innerShell"%string = Some 2%nat
  /\ ParticleSystem.minCameraDistance ps = 3
  /\ ParticleSystem.maxCameraDistance ps = 15
  /\ ParticleSystem.layers ps = ParticleSystem.layers ParticleSystem.constructor
  /\ exists outer,
       ParticleSystem.objects ps =
       [ outer;
         {| Points.rotation := Vec3.zero;
            Points.material := {| Material.size := 0.05;
                                  Material.opacity := 0.9 |} |};
         {| Points.rotation := Vec3.zero;
            Points.material := {| Material.size := 0.08;
                                  Material.opacity := 1.0 |} |} ].

(** A hand, one frame, the hand lost, then [n] more frames. *)
Definition handThenLoss (n : nat) : list App.Event :=
  [ App.Detection (Frames.detection Frames.near);
    App.AnimationFrame;
    App.Detection Frames.absent ]
  ++ repeat App.AnimationFrame n.

(** A hand turning steadily in one direction, by a quarter turn every second
    frame. *)
Definition turning5 : list Landmarks :=
  [ Frames.up; Frames.left; Frames.left; Frames.down; Frames.down ].
Definition turning9 : list Landmarks :=
  turning5 ++ [ Frames.right; Frames.right; Frames.up; Frames.up ].

(** The smoothing of lines 221-227 fed with raw angles alternating between
    179 and -179 degrees, from the initial state 0. *)
Fixpoint oscillation (n : nat) : R :=
  match n with
  | O => 0
  | S k =>
      let angle := if Nat.even k then 179 else -179 in
      oscillation k + HandTracker.wrapDelta angle (oscillation k) * 0.3
  end.

(** The property names every object literal inherits from
    [Object.prototype]: a lookup under such a name finds a function (or,
    for __proto__, the prototype itself) instead of [undefined]. *)
Module ObjectPrototype.

Definition inherited (name : string) : bool :=
  existsb (String.eqb name)
    [ "constructor"; "__defineGetter__"; "__defineSetter__";
      "hasOwnProperty"; "__lookupGetter__"; "__lookupSetter__";
      "isPrototypeOf"; "propertyIsEnumerable"; "toString"; "valueOf";
      "__proto__"; "toLocaleString" ]%string.

End ObjectPrototype.

(** The number of animation frames among the events of a run. *)
Definition isAnimationFrame (e : App.Event) : bool :=
  match e with
  | App.AnimationFrame => true
  | _ => false
  end.

Definition frameCount (es : list App.Event) : nat :=
  List.length (filter isAnimationFrame es).


(** ** The particle positions of a layer

    The loop of [createParticleLayer] (lines 129-147, source lines of
    ParticleSystemHand.js) that fills the position buffer.  [random n] is
    the value returned by the n-th call of [Math.random] made by the loop,
    counted from 0; the rounding of the buffer to single precision is not
    modelled. *)

Module Geometry.

Definition verticalFlatten (layerName : string) : R :=
  if String.eqb layerName "middle" then 0.3 else 0.5.

(** The radius drawn for one particle (line 142). *)
Definition particleRadius (config : LayerConfig.t) (u : R) : R :=
  LayerConfig.radius config * (0.8 + u * 0.4).

(** One pass of the loop, given the three random values in the order in
    which they are drawn: for [theta], for [phi] and for [radius]. *)
Definition particle (layerName : string) (config : LayerConfig.t)
    (u1 u2 u3 : R) : list R :=
  let theta := u1 * PI * 2 in
  let phi := acos (2 * u2 - 1) in
  let verticalFlatten := verticalFlatten layerName in
  let radius := particleRadius config u3 in
  [ radius * sin phi * cos theta;
    radius * sin phi * sin theta * verticalFlatten;
    radius * cos phi ].

(** The buffer after the loop: three entries per particle, particle [i]
    using the calls 3i, 3i+1 and 3i+2. *)
Definition positions (layerName : string) (config : LayerConfig.t)
    (random : nat -> R) : list R :=
  flat_map
    (fun i => particle layerName config
                (random (3 * i)%nat) (random (3 * i + 1)%nat)
                (random (3 * i + 2)%nat))
    (seq 0 (LayerConfig.count config)).

End Geometry.

(** ** The page: user interface, listeners and start-up

    [UIController] (modules/UIControllerHand.js), the event emitter and
    [destroy] of [HandTracker], and [init] of [HandTracker] and [App], over
    a model of the elements of the page.  What the page does not own is
    taken from an [Environment]: whether the three.js set-up, the MediaPipe
    set-up and the camera succeed, and the message of an engine TypeError.
    The tracker's [canvasElement] and [videoElement] are the elements the
    controller knows as [skeletonCanvas] and [cameraFeed]: both modules
    look them up by the same ids, and the tracker does so before the page
    can receive a click. *)

Module DOM.

(** A [classList]: an ordered set of tokens. *)
Definition contains (token : string) (classList : list string) : bool :=
  existsb (String.eqb token) classList.

Definition add (token : string) (classList : list string) : list string :=
  if contains token classList then classList else classList ++ [token].

Definition remove (token : string) (classList : list string) : list string :=
  filter (fun t => negb (String.eqb token t)) classList.

(** [toggle(token)]: the new list and the returned flag, true when the token
    is present afterwards. *)
Definition toggle (token : string) (classList : list string)
  : bool * list string :=
  if contains token classList then (false, remove token classList)
  else (true, add token classList).

(** [toggle(token, force)]. *)
Definition toggleForce (token : string) (force : bool)
    (classList : list string) : list string :=
  if force then add token classList else remove token classList.

Record Element : Type := mk { classList : list string; textContent : string }.

Definition setText (text : string) (e : Element) : Element :=
  mk (classList e) text.
Definition onClasses (f : list string -> list string) (e : Element) : Element :=
  mk (f (classList e)) (textContent e).

End DOM.

Module Button.
(** A button and the element its [querySelector('.btn-text')] finds. *)
Record t : Type := mk { element : DOM.Element; btnText : option DOM.Element }.
Definition set_element (v : DOM.Element) (b : t) : t := mk v (btnText b).
Definition set_btnText (v : option DOM.Element) (b : t) : t := mk (element b) v.
End Button.

Module Elements.
(** What [cacheElements] looks up; [None] is the [null] of a missing
    element.  The elements are taken to be distinct nodes. *)
Record t : Type := mk {
  instructions : option DOM.Element;
  handStatus : option DOM.Element;
  statusDot : option DOM.Element;
  statusText : option DOM.Element;
  cameraFeed : option DOM.Element;
  toggleCameraBtn : option Button.t;
  skeletonCanvas : option DOM.Element;
  toggleSkeletonBtn : option Button.t;
  loadingScreen : option DOM.Element;
  container : option DOM.Element
}.
Definition set_instructions v (e : t) : t :=
  mk v (handStatus e) (statusDot e) (statusText e) (cameraFeed e)
     (toggleCameraBtn e) (skeletonCanvas e) (toggleSkeletonBtn e)
     (loadingScreen e) (container e).
Definition set_statusDot v (e : t) : t :=
  mk (instructions e) (handStatus e) v (statusText e) (cameraFeed e)
     (toggleCameraBtn e) (skeletonCanvas e) (toggleSkeletonBtn e)
     (loadingScreen e) (container e).
Definition set_statusText v (e : t) : t :=
  mk (instructions e) (handStatus e) (statusDot e) v (cameraFeed e)
     (toggleCameraBtn e) (skeletonCanvas e) (toggleSkeletonBtn e)
     (loadingScreen e) (container e).
Definition set_cameraFeed v (e : t) : t :=
  mk (instructions e) (handStatus e) (statusDot e) (statusText e) v
     (toggleCameraBtn e) (skeletonCanvas e) (toggleSkeletonBtn e)
     (loadingScreen e) (container e).
Definition set_toggleCameraBtn v (e : t) : t :=
  mk (instructions e) (handStatus e) (statusDot e) (statusText e)
     (cameraFeed e) v (skeletonCanvas e) (toggleSkeletonBtn e)
     (loadingScreen e) (container e).
Definition set_skeletonCanvas v (e : t) : t :=
  mk (instructions e) (handStatus e) (statusDot e) (statusText e)
     (cameraFeed e) (toggleCameraBtn e) v (toggleSkeletonBtn e)
     (loadingScreen e) (container e).
Definition set_toggleSkeletonBtn v (e : t) : t :=
  mk (instructions e) (handStatus e) (statusDot e) (statusText e)
     (cameraFeed e) (toggleCameraBtn e) (skeletonCanvas e) v
     (loadingScreen e) (container e).
Definition set_loadingScreen v (e : t) : t :=
  mk (instructions e) (handStatus e) (statusDot e) (statusText e)
     (cameraFeed e) (toggleCameraBtn e) (skeletonCanvas e)
     (toggleSkeletonBtn e) v (container e).
Definition set_container v (e : t) : t :=
  mk (instructions e) (handStatus e) (statusDot e) (statusText e)
     (cameraFeed e) (toggleCameraBtn e) (skeletonCanvas e)
     (toggleSkeletonBtn e) (loadingScreen e) v.
End Elements.

(** The three closures [App.init] registers with the tracker, and what an
    event carries. *)
Inductive Listener : Type := OnCameraReady | OnCameraError | OnHandUpdate.

Inductive Payload : Type :=
| Ready (flag : bool)
| Failure (message : string)
| Hand (handData : HandData.t).

Inductive Outcome : Type := Succeeds | Fails (message : string).

(** [scene]: the three.js calls of [ParticleSystem.init]; [hands]: the
    MediaPipe [Hands] set-up; [userMedia]: [getUserMedia]; [cameraUtils]:
    the MediaPipe [Camera] and its start; [waiting]: the number of
    animation frames the browser renders while [initCamera] waits for the
    stream and for the metadata of the video. *)
Record Environment : Type := {
  scene : Outcome;
  hands : Outcome;
  userMedia : Outcome;
  cameraUtils : Outcome;
  typeErrorMessage : string;
  waiting : nat
}.

Module Page.

(** The whole program: the tracker and the particle system ([app]), the
    elements of the document, whether [cacheElements] has run ([elements]
    of the controller is empty before), whether the controller was given
    an [onSkeletonToggle] callback, the listeners of the tracker, the
    alerts shown so far, the pending [hideLoading] timeouts, and the two
    flags of [App]: [isInitialized] and whether the animation loop runs. *)
Record t : Type := mk {
  app : App.t;
  document : Elements.t;
  cached : bool;
  onSkeletonToggle : bool;
  listeners : string -> option (list Listener);
  alerts : list string;
  timers : nat;
  isInitialized : bool;
  looping : bool
}.

Definition set_app v (p : t) : t :=
  mk v (document p) (cached p) (onSkeletonToggle p) (listeners p) (alerts p)
     (timers p) (isInitialized p) (looping p).
Definition set_document v (p : t) : t :=
  mk (app p) v (cached p) (onSkeletonToggle p) (listeners p) (alerts p)
     (timers p) (isInitialized p) (looping p).
Definition set_cached v (p : t) : t :=
  mk (app p) (document p) v (onSkeletonToggle p) (listeners p) (alerts p)
     (timers p) (isInitialized p) (looping p).
Definition set_onSkeletonToggle v (p : t) : t :=
  mk (app p) (document p) (cached p) v (listeners p) (alerts p)
     (timers p) (isInitialized p) (looping p).
Definition set_listeners v (p : t) : t :=
  mk (app p) (document p) (cached p) (onSkeletonToggle p) v (alerts p)
     (timers p) (isInitialized p) (looping p).
Definition set_alerts v (p : t) : t :=
  mk (app p) (document p) (cached p) (onSkeletonToggle p) (listeners p) v
     (timers p) (isInitialized p) (looping p).
Definition set_timers v (p : t) : t :=
  mk (app p) (document p) (cached p) (onSkeletonToggle p) (listeners p)
     (alerts p) v (isInitialized p) (looping p).
Definition set_isInitialized v (p : t) : t :=
  mk (app p) (document p) (cached p) (onSkeletonToggle p) (listeners p)
     (alerts p) (timers p) v (looping p).
Definition set_looping v (p : t) : t :=
  mk (app p) (document p) (cached p) (onSkeletonToggle p) (listeners p)
     (alerts p) (timers p) (isInitialized p) v.

(** [new App()] on a page with the given elements. *)
Definition load (document : Elements.t) : t :=
  {| app := App.mk HandTracker.constructor ParticleSystem.constructor;
     document := document;
     cached := false;
     onSkeletonToggle := false;
     listeners := fun _ => None;
     alerts := [];
     timers := 0;
     isInitialized := false;
     looping := false |}.

(** [this.elements.x] of the controller: the element of the document once
    cached, [undefined] before. *)
Definition element {A} (field : Elements.t -> option A) (p : t) : option A :=
  if cached p then field (document p) else None.

Definition onDocument (f : Elements.t -> Elements.t) : M t unit :=
  modify (fun p => set_document (f (document p)) p).

End Page.

(** *** UIController *)

Module UIController.

Local Open Scope js_scope.
Import Page.

(** [element?.classList.f(...)] on one of the cached elements. *)
Definition classes (field : Elements.t -> option DOM.Element)
    (set : option DOM.Element -> Elements.t -> Elements.t)
    (f : list string -> list string) : M t unit :=
  this <- get ;;
  match element field this with
  | Some e => onDocument (set (Some (DOM.onClasses f e)))
  | None => ret tt
  end.

(** [init(callbacks)] as [App] calls it, with [onSkeletonToggle] given. *)
Definition init : M t unit :=
  modify (set_onSkeletonToggle true) ;;
  modify (set_cached true).

Definition updateHandStatus (detected : bool) : M t unit :=
  this <- get ;;
  match element Elements.statusText this with
  | None => throw TypeError
  | Some statusText =>
      if detected then
        onDocument (Elements.set_statusText
                      (Some (DOM.setText "Hand Detected" statusText))) ;;
        classes Elements.statusDot Elements.set_statusDot (DOM.add "active") ;;
        classes Elements.instructions Elements.set_instructions
          (DOM.add "hidden") ;;
        classes Elements.container Elements.set_container
          (DOM.add "hand-detected")
      else
        onDocument (Elements.set_statusText
                      (Some (DOM.setText "Show Your Hand" statusText))) ;;
        classes Elements.statusDot Elements.set_statusDot
          (DOM.remove "active") ;;
        classes Elements.instructions Elements.set_instructions
          (DOM.remove "hidden") ;;
        classes Elements.container Elements.set_container
          (DOM.remove "hand-detected")
  end.

Definition updateStatus (text : string) : M t unit :=
  this <- get ;;
  match element Elements.statusText this with
  | Some statusText =>
      onDocument (Elements.set_statusText (Some (DOM.setText text statusText)))
  | None => ret tt
  end.

(** The text of a button, when the button and its text element exist. *)
Definition buttonText (field : Elements.t -> option Button.t)
    (set : option Button.t -> Elements.t -> Elements.t) (text : string)
  : M t unit :=
  this <- get ;;
  match element field this with
  | Some button =>
      match Button.btnText button with
      | Some btnText =>
          onDocument
            (set (Some (Button.set_btnText
                          (Some (DOM.setText text btnText)) button)))
      | None => ret tt
      end
  | None => ret tt
  end.

Definition toggleCameraFeed : M t unit :=
  this <- get ;;
  let isHidden :=
    match element Elements.cameraFeed this with
    | Some cameraFeed =>
        fst (DOM.toggle "hidden" (DOM.classList cameraFeed))
    | None => false
    end in
  classes Elements.cameraFeed Elements.set_cameraFeed
    (fun l => snd (DOM.toggle "hidden" l)) ;;
  buttonText Elements.toggleCameraBtn Elements.set_toggleCameraBtn
    (if isHidden then "Show Camera" else "Hide Camera").

(** [HandTracker.toggleSkeleton(show)] in full: the flag, then the class of
    the canvas, which is the element the controller knows as
    [skeletonCanvas] (both are looked up by the id skeleton-canvas). *)
Definition trackerToggleSkeleton (show : bool) : M t unit :=
  modify (fun p =>
    set_app (App.step (app p) (App.SkeletonToggle show)) p) ;;
  this <- get ;;
  match Elements.skeletonCanvas (document this) with
  | Some canvas =>
      onDocument (Elements.set_skeletonCanvas
                    (Some (DOM.onClasses (DOM.toggleForce "visible" show)
                             canvas)))
  | None => throw TypeError
  end.

Definition toggleSkeleton : M t unit :=
  this <- get ;;
  let isVisible :=
    match element Elements.skeletonCanvas this with
    | Some canvas => negb (DOM.contains "visible" (DOM.classList canvas))
    | None => true
    end in
  (if onSkeletonToggle this then trackerToggleSkeleton isVisible
   else ret tt) ;;
  buttonText Elements.toggleSkeletonBtn Elements.set_toggleSkeletonBtn
    (if isVisible then "Hide Skeleton" else "Show Skeleton") ;;
  this <- get ;;
  match element Elements.toggleSkeletonBtn this with
  | Some button =>
      onDocument
        (Elements.set_toggleSkeletonBtn
           (Some (Button.set_element
                    (DOM.onClasses (DOM.toggleForce "active" isVisible)
                       (Button.element button)) button)))
  | None => ret tt
  end.

(** [hideLoading()] only starts a timeout; [loadingTimeout] is the timeout
    firing. *)
Definition hideLoading : M t unit :=
  modify (fun p => set_timers (S (timers p)) p).

Definition loadingTimeout : M t unit :=
  modify (fun p => set_timers (pred (timers p)) p) ;;
  classes Elements.loadingScreen Elements.set_loadingScreen (DOM.add "hidden").

Definition newline : string := String (Ascii.ascii_of_nat 10) EmptyString.

Definition alertText (message : string) : string :=
  ("Error: " ++ message ++ newline ++ newline ++ "Please ensure:" ++ newline
   ++ "- Camera permission is granted" ++ newline
   ++ "- You're using HTTPS or localhost" ++ newline
   ++ "- Your browser supports WebRTC")%string.

Definition showError (message : string) : M t unit :=
  updateStatus ("Error: " ++ message) ;;
  modify (fun p => set_alerts (alerts p ++ [alertText message]) p).

End UIController.

(** *** The listeners of the tracker *)

Module Emitter.

Local Open Scope js_scope.
Import Page.

(** [this.listeners] is an object literal: under a name inherited from
    [Object.prototype], [this.listeners[event]] is never falsy and never an
    array. *)
Definition inherited (event : string) : bool := ObjectPrototype.inherited event.

Definition on (event : string) (callback : Listener) : M t unit :=
  if inherited event then throw TypeError
  else
    modify (fun p =>
      let registered :=
        match listeners p event with
        | Some callbacks => callbacks
        | None => []
        end in
      set_listeners
        (fun name =>
           if String.eqb name event then Some (registered ++ [callback])
           else listeners p name) p).

(** [App.onHandUpdate(handData)]: the status display first, then the
    particle system.  A payload that is not hand data has no [detected]
    property and counts as not detected. *)
Definition onHandUpdate (payload : Payload) : M t unit :=
  let handData :=
    match payload with
    | Hand handData => handData
    | _ => {| HandData.detected := false;
              HandData.distance := 0; HandData.rotation := 0 |}
    end in
  UIController.updateHandStatus (HandData.detected handData) ;;
  modify (fun p => set_app (App.onHandUpdate handData (app p)) p).

Definition call (callback : Listener) (payload : Payload) : M t unit :=
  match callback with
  | OnCameraReady =>
      UIController.updateStatus "Show your hand" ;;
      UIController.hideLoading
  | OnCameraError =>
      UIController.showError "Camera access denied or unavailable" ;;
      UIController.hideLoading
  | OnHandUpdate => onHandUpdate payload
  end.

Fixpoint forEach (callbacks : list Listener) (payload : Payload) : M t unit :=
  match callbacks with
  | [] => ret tt
  | callback :: rest => call callback payload ;; forEach rest payload
  end.

Definition emit (event : string) (payload : Payload) : M t unit :=
  if inherited event then throw TypeError
  else
    this <- get ;;
    match listeners this event with
    | Some callbacks => forEach callbacks payload
    | None => ret tt
    end.

(** The part of [HandTracker.destroy()] that concerns the listeners. *)
Definition destroy : M t unit := modify (set_listeners (fun _ => None)).

End Emitter.

(** *** Callbacks of the host and start-up *)

Module Site.

Local Open Scope js_scope.
Import Page.

(** The detection callback with its listeners: [onResults] and then, when
    it returns, the [handUpdate] event it emits. *)
Definition detection (results : Results) : M t unit :=
  this <- get ;;
  match HandTracker.onResults results (App.handTracker (app this)) with
  | (Normal handData, tracker) =>
      modify (set_app (App.mk tracker (App.particleSystem (app this)))) ;;
      Emitter.emit "handUpdate" (Hand handData)
  | (Throw e, tracker) =>
      modify (set_app (App.mk tracker (App.particleSystem (app this)))) ;;
      throw e
  end.

(** [App.update()]: the next frame is requested before this one is
    rendered. *)
Definition update : M t unit :=
  modify (set_looping true) ;;
  this <- get ;;
  let (c, particles) := ParticleSystem.render (App.particleSystem (app this)) in
  modify (set_app (App.mk (App.handTracker (app this)) particles)) ;;
  match c with
  | Normal _ => ret tt
  | Throw e => throw e
  end.

(** An asynchronous function either resolves or rejects with an error, of
    which only the message is used. *)
Definition rejects (env : Environment) {A} (c : Completion A) : option string :=
  match c with
  | Normal _ => None
  | Throw _ => Some (typeErrorMessage env)
  end.

(** [HandTracker.initCamera()]: the stream, the video element that takes
    it, the camera, then [cameraReady]; any failure is announced as
    [cameraError] and thrown again.  The animation loop started by [App]
    goes on while the function waits; its frames touch the particle system
    only, so they are all run at the first wait.  A click during the wait
    is not modelled. *)
Definition initCamera (env : Environment) (p : t) : option string * t :=
  let p :=
    set_app (App.run (app p) (repeat App.AnimationFrame (waiting env))) p in
  let attempt :=
    match userMedia env with
    | Fails message => (Some message, p)
    | Succeeds =>
        match Elements.cameraFeed (document p) with
        | None => (Some (typeErrorMessage env), p)
        | Some _ =>
            match cameraUtils env with
            | Fails message => (Some message, p)
            | Succeeds =>
                let (c, p') := Emitter.emit "cameraReady" (Ready true) p in
                (rejects env c, p')
            end
        end
    end in
  match attempt with
  | (None, p') => (None, p')
  | (Some message, p') =>
      let (c, p'') := Emitter.emit "cameraError" (Failure message) p' in
      match rejects env c with
      | None => (Some message, p'')
      | Some other => (Some other, p'')
      end
  end.

(** [HandTracker.init()]: the 2d context of the skeleton canvas, MediaPipe,
    then the camera; a failure is logged and thrown again. *)
Definition trackerInit (env : Environment) (p : t) : option string * t :=
  match Elements.skeletonCanvas (document p) with
  | None => (Some (typeErrorMessage env), p)
  | Some _ =>
      match hands env with
      | Fails message => (Some message, p)
      | Succeeds => initCamera env p
      end
  end.

(** The body of the [try] of [App.init()].  When the three.js set-up
    fails, what [ParticleSystem.init] had built before the failure is not
    modelled: the particle system is left as it was. *)
Definition start (env : Environment) (p : t) : option string * t :=
  match scene env with
  | Fails message => (Some message, p)
  | Succeeds =>
      let (c, particles) :=
        ParticleSystem.init (App.particleSystem (app p)) in
      let p := set_app (App.mk (App.handTracker (app p)) particles) p in
      match rejects env c with
      | Some message => (Some message, p)
      | None =>
          let p := snd (UIController.init p) in
          let (c, p) := update p in
          match rejects env c with
          | Some message => (Some message, p)
          | None =>
              let registration :=
                (Emitter.on "cameraReady" OnCameraReady ;;
                 Emitter.on "cameraError" OnCameraError ;;
                 Emitter.on "handUpdate" OnHandUpdate) p in
              match rejects env (fst registration) with
              | Some message => (Some message, snd registration)
              | None =>
                  match trackerInit env (snd registration) with
                  | (Some message, p) => (Some message, p)
                  | (None, p) => (None, set_isInitialized true p)
                  end
              end
          end
      end
  end.

(** [App.init()]: the [try] and its [catch]. *)
Definition init (env : Environment) (p : t) : t :=
  match start env p with
  | (None, p') => p'
  | (Some message, p') =>
      snd ((UIController.showError message ;; UIController.hideLoading) p')
  end.

(** What the host calls on the page after start-up: a detection result, an
    animation frame, a click on one of the two buttons, the timeout of
    [hideLoading]. *)
Inductive Callback : Type :=
| OnResults (results : Results)
| Frame
| SkeletonClick
| CameraClick
| LoadingTimeout.

(** One callback, run to completion; an exception ends it and leaves the
    mutations made so far.  A frame is rendered only while the loop runs, a
    click reaches only a button that [attachEventListeners] found, and a
    timeout fires only if one is pending. *)
Definition step (p : t) (c : Callback) : t :=
  match c with
  | OnResults results => snd (detection results p)
  | Frame => if looping p then snd (update p) else p
  | SkeletonClick =>
      match element Elements.toggleSkeletonBtn p with
      | Some _ => snd (UIController.toggleSkeleton p)
      | None => p
      end
  | CameraClick =>
      match element Elements.toggleCameraBtn p with
      | Some _ => snd (UIController.toggleCameraFeed p)
      | None => p
      end
  | LoadingTimeout =>
      match timers p with
      | O => p
      | S _ => snd (UIController.loadingTimeout p)
      end
  end.

Definition run (p : t) (cs : list Callback) : t := fold_left step cs p.


End Site.


(** * Properties *)

(** ** Arithmetic of the JavaScript operators *)

Section JSFacts.

Lemma gt_true (a b : R) : b < a -> JS.gt a b = true.
Proof. intros H; unfold JS.gt; destruct (Rlt_dec b a); [reflexivity | lra]. Qed.

Lemma gt_false (a b : R) : a <= b -> JS.gt a b = false.
Proof. intros H; unfold JS.gt; destruct (Rlt_dec b a); [lra | reflexivity]. Qed.

Lemma lt_true (a b : R) : a < b -> JS.lt a b = true.
Proof. intros H; unfold JS.lt; destruct (Rlt_dec a b); [reflexivity | lra]. Qed.

Lemma lt_false (a b : R) : b <= a -> JS.lt a b = false.
Proof. intros H; unfold JS.lt; destruct (Rlt_dec a b); [lra | reflexivity]. Qed.

Lemma trunc_unit (r : R) : 0 <= r < 1 -> JS.trunc r = 0%Z.
Proof.
  intros [H0 H1]; unfold JS.trunc.
  destruct (Rle_dec 0 r) as [_ | n]; [| lra].
  symmetry; apply Int_part_spec; simpl; lra.
Qed.

Lemma trunc_one : JS.trunc 1 = 1%Z.
Proof.
  unfold JS.trunc.
  destruct (Rle_dec 0 1) as [_ | n]; [| lra].
  symmetry; apply Int_part_spec; simpl; lra.
Qed.

(** [a % b] is [a] itself for [0 <= a < b]. *)
Lemma rem_small (a b : R) : 0 <= a < b -> JS.rem a b = a.
Proof.
  intros [H0 H1]; unfold JS.rem.
  assert (Hb : 0 < b) by lra.
  rewrite trunc_unit; [simpl; lra |].
  split.
  - apply Rmult_le_pos; [lra | left; apply Rinv_0_lt_compat; exact Hb].
  - apply Rmult_lt_reg_r with b; [exact Hb |].
    unfold Rdiv; rewrite Rmult_assoc, Rinv_l; lra.
Qed.

Lemma rem_self (b : R) : 0 < b -> JS.rem b b = 0.
Proof.
  intros Hb; unfold JS.rem.
  replace (b / b) with 1 by (field; lra).
  rewrite trunc_one; simpl; lra.
Qed.

(** [Math.atan2] returns an angle in (-PI, PI]. *)
Lemma atan2_range (y x : R) : - PI < JS.atan2 y x <= PI.
Proof.
  pose proof PI_RGT_0 as Hpi.
  unfold JS.atan2.
  destruct (Rlt_dec 0 x) as [Hx | Hx].
  - pose proof (atan_bound (y / x)); lra.
  - destruct (Rlt_dec x 0) as [Hx' | Hx'].
    + pose proof (atan_bound (y / x)) as Hb.
      assert (Hix : / x < 0) by (apply Rinv_lt_0_compat; exact Hx').
      destruct (Rle_dec 0 y) as [Hy | Hy].
      * assert (Hq : y / x <= 0) by (unfold Rdiv; nra).
        assert (atan (y / x) <= 0).
        { destruct Hq as [Hq | Hq].
          - left; rewrite <- atan_0; apply atan_increasing; exact Hq.
          - rewrite Hq, atan_0; lra. }
        lra.
      * assert (Hq : 0 < y / x) by (unfold Rdiv; nra).
        assert (0 < atan (y / x))
          by (rewrite <- atan_0; apply atan_increasing; exact Hq).
        lra.
    + destruct (Rlt_dec 0 y); [lra |].
      destruct (Rlt_dec y 0); lra.
Qed.

Lemma atan2_up (y x : R) : x = 0 -> 0 < y -> JS.atan2 y x = PI / 2.
Proof.
  intros -> Hy; unfold JS.atan2.
  destruct (Rlt_dec 0 0); [lra |].
  destruct (Rlt_dec 0 y); [reflexivity | lra].
Qed.

Lemma atan2_down (y x : R) : x = 0 -> y < 0 -> JS.atan2 y x = - (PI / 2).
Proof.
  intros -> Hy; unfold JS.atan2.
  destruct (Rlt_dec 0 0); [lra |].
  destruct (Rlt_dec 0 y); [lra |].
  destruct (Rlt_dec y 0); [reflexivity | lra].
Qed.

Lemma atan2_left (y x : R) : x < 0 -> y = 0 -> JS.atan2 y x = PI.
Proof.
  intros Hx ->; unfold JS.atan2.
  destruct (Rlt_dec 0 x); [lra |].
  destruct (Rlt_dec x 0); [| lra].
  destruct (Rle_dec 0 0); [| lra].
  unfold Rdiv; rewrite Rmult_0_l, atan_0; lra.
Qed.

Lemma atan2_right (y x : R) : 0 < x -> y = 0 -> JS.atan2 y x = 0.
Proof.
  intros Hx ->; unfold JS.atan2.
  destruct (Rlt_dec 0 x); [| lra].
  unfold Rdiv; rewrite Rmult_0_l; apply atan_0.
Qed.

End JSFacts.


(** ** Method bodies as state transformers *)

Definition preserves {S A : Type} (P : S -> Prop) (c : M S A) : Prop :=
  forall s, P s -> P (snd (c s)).

Section Preserves.

Context {S : Type} (P : S -> Prop).

Lemma preserves_ret {A} (a : A) : preserves P (ret a).
Proof. intros s H; exact H. Qed.

Lemma preserves_throw {A} (e : Exn) : preserves P (@throw S A e).
Proof. intros s H; exact H. Qed.

Lemma preserves_get : preserves P get.
Proof. intros s H; exact H. Qed.

Lemma preserves_modify (f : S -> S) :
  (forall s, P s -> P (f s)) -> preserves P (modify f).
Proof. intros Hf s H; apply Hf; exact H. Qed.

Lemma preserves_bind {A B} (c : M S A) (k : A -> M S B) :
  preserves P c -> (forall a, preserves P (k a)) -> preserves P (bind c k).
Proof.
  intros Hc Hk s H; unfold bind.
  specialize (Hc s H).
  destruct (c s) as [[a | e] s']; simpl in *.
  - apply Hk; exact Hc.
  - exact Hc.
Qed.

End Preserves.

Create HintDb preserves.
#[local] Hint Resolve preserves_ret preserves_throw preserves_get
  preserves_bind : preserves.

Section TrackerFacts.

Import HandTracker.

Lemma preserves_prop_x (P : t -> Prop) p : preserves P (prop_x p).
Proof. destruct p; simpl; auto with preserves. Qed.

Lemma preserves_prop_y (P : t -> Prop) p : preserves P (prop_y p).
Proof. destruct p; simpl; auto with preserves. Qed.

Lemma preserves_drawConnections (P : t -> Prop) l cs :
  preserves P (drawConnections l cs).
Proof.
  induction cs as [| [a b] cs IH]; simpl.
  - apply preserves_ret.
  - repeat (apply preserves_bind; [| intros ?]);
      auto using preserves_prop_x, preserves_prop_y.
Qed.

(** The clamp of line 196 lands in [0, 1] whatever the hand size. *)
Lemma normalizeDistance_range (h : R) : 0 <= normalizeDistance h <= 1.
Proof.
  unfold normalizeDistance; split.
  - apply Rmax_l.
  - apply Rmax_lub; [lra | apply Rmin_l].
Qed.

(** The calibration in closed form. *)
Lemma normalizeDistance_far (h : R) : h <= 0.15 -> normalizeDistance h = 1.
Proof.
  intros H; unfold normalizeDistance.
  rewrite Rmin_left by lra. rewrite Rmax_right by lra. reflexivity.
Qed.

Lemma normalizeDistance_close (h : R) : 0.35 <= h -> normalizeDistance h = 0.
Proof.
  intros H; unfold normalizeDistance.
  rewrite Rmin_right by lra. rewrite Rmax_left by lra. reflexivity.
Qed.

Lemma normalizeDistance_linear (h : R) :
  0.15 <= h <= 0.35 -> normalizeDistance h = (0.35 - h) / 0.2.
Proof.
  intros H; unfold normalizeDistance.
  rewrite Rmin_right by lra. rewrite Rmax_right by lra. lra.
Qed.

Lemma handSize_nonneg (dx dy : R) : 0 <= handSize dx dy.
Proof. apply sqrt_pos. Qed.

Lemma handSize_vertical (dx dy : R) : dx = 0 -> 0 <= dy -> handSize dx dy = dy.
Proof.
  intros -> H; unfold handSize.
  replace (0 * 0 + dy * dy) with (dy * dy) by lra.
  apply sqrt_square; exact H.
Qed.

Lemma handSize_horizontal (dx dy : R) : dy = 0 -> 0 <= dx -> handSize dx dy = dx.
Proof.
  intros -> H; unfold handSize.
  replace (dx * dx + 0 * 0) with (dx * dx) by lra.
  apply sqrt_square; exact H.
Qed.

Lemma handSize_swap_sign (dx dy : R) : handSize (- dx) (- dy) = handSize dx dy.
Proof. unfold handSize; f_equal; lra. Qed.

(** Raw angles: the range of line 215 and its value along the axes. *)
Lemma rawAngle_range (dx dy : R) : -180 < rawAngle dx dy <= 180.
Proof.
  unfold rawAngle.
  pose proof PI_RGT_0 as Hpi.
  pose proof (atan2_range dy dx) as [Hl Hu].
  assert (Hk : 0 < 180 / PI) by (apply Rdiv_lt_0_compat; lra).
  pose proof (Rmult_lt_compat_r _ _ _ Hk Hl) as H1.
  pose proof (Rmult_le_compat_r _ _ _ (Rlt_le _ _ Hk) Hu) as H2.
  assert (E : PI * (180 / PI) = 180) by (field; lra).
  lra.
Qed.

Lemma rawAngle_up (dx dy : R) : dx = 0 -> 0 < dy -> rawAngle dx dy = 90.
Proof.
  intros Hx Hy; unfold rawAngle; rewrite atan2_up by assumption.
  pose proof PI_RGT_0; field; lra.
Qed.

Lemma rawAngle_down (dx dy : R) : dx = 0 -> dy < 0 -> rawAngle dx dy = -90.
Proof.
  intros Hx Hy; unfold rawAngle; rewrite atan2_down by assumption.
  pose proof PI_RGT_0; field; lra.
Qed.

Lemma rawAngle_left (dx dy : R) : dx < 0 -> dy = 0 -> rawAngle dx dy = 180.
Proof.
  intros Hx Hy; unfold rawAngle; rewrite atan2_left by assumption.
  pose proof PI_RGT_0; field; lra.
Qed.

Lemma rawAngle_right (dx dy : R) : 0 < dx -> dy = 0 -> rawAngle dx dy = 0.
Proof.
  intros Hx Hy; unfold rawAngle; rewrite atan2_right by assumption; lra.
Qed.

(** Line 218 is the identity on [-180, 180) and sends 180 to -180. *)
Lemma normalizeAngle_id (a : R) : -180 <= a < 180 -> normalizeAngle a = a.
Proof. intros H; unfold normalizeAngle; rewrite rem_small; lra. Qed.

Lemma normalizeAngle_180 : normalizeAngle 180 = -180.
Proof.
  unfold normalizeAngle.
  replace (180 + 180) with 360 by lra.
  rewrite rem_self; lra.
Qed.

Lemma normalizeAngle_range (a : R) :
  -180 < a <= 180 -> -180 <= normalizeAngle a < 180.
Proof.
  intros [Hl [Hu | Hu]].
  - rewrite normalizeAngle_id; lra.
  - subst a; rewrite normalizeAngle_180; lra.
Qed.

(** Lines 224-225 by cases on the raw difference. *)
Lemma wrapDelta_id (a s : R) : -180 <= a - s <= 180 -> wrapDelta a s = a - s.
Proof.
  intros H; unfold wrapDelta.
  rewrite gt_false by lra. rewrite lt_false by lra. reflexivity.
Qed.

Lemma wrapDelta_minus (a s : R) : 180 < a - s -> wrapDelta a s = a - s - 360.
Proof.
  intros H; unfold wrapDelta.
  rewrite gt_true by lra. rewrite lt_false by lra. reflexivity.
Qed.

Lemma wrapDelta_plus (a s : R) : a - s < -180 -> wrapDelta a s = a - s + 360.
Proof.
  intros H; unfold wrapDelta.
  rewrite gt_false by lra. rewrite lt_true by lra. reflexivity.
Qed.

(** One correction by a full turn is enough exactly when the raw difference
    is within a turn and a half. *)
Lemma wrapDelta_bound (a s : R) :
  -540 <= a - s <= 540 -> -180 <= wrapDelta a s <= 180.
Proof.
  intros H.
  destruct (Rlt_dec 180 (a - s)) as [Hg | Hg].
  - rewrite wrapDelta_minus by exact Hg; lra.
  - destruct (Rlt_dec (a - s) (-180)) as [Hl | Hl].
    + rewrite wrapDelta_plus by exact Hl; lra.
    + rewrite wrapDelta_id by lra; lra.
Qed.

End TrackerFacts.

(** ** What one detection callback does to the tracker *)

Section OnResults.

Import HandTracker.

Lemma calculateDistance_ok (l : Landmarks) (w m : Landmark.t) (this : t) :
  nth_error l 0 = Some w -> nth_error l 12 = Some m ->
  calculateDistance l this =
  (Normal tt,
   let d := smoothedDistance this
            + (normalizeDistance
                 (handSize (Landmark.x m - Landmark.x w)
                           (Landmark.y m - Landmark.y w))
               - smoothedDistance this) * smoothingFactor this in
   mk (HandState.set_distance d (handState this)) d (smoothedRotation this)
      (smoothingFactor this) (showSkeleton this)).
Proof.
  intros H0 H12; unfold calculateDistance; rewrite H0, H12; reflexivity.
Qed.

Lemma calculateDistance_throw (l : Landmarks) (this : t) :
  (List.length l < 13)%nat -> calculateDistance l this = (Throw TypeError, this).
Proof.
  intros H; unfold calculateDistance.
  replace (nth_error l 12) with (@None Landmark.t)
    by (symmetry; apply nth_error_None; lia).
  reflexivity.
Qed.

Lemma calculateRotation_ok (l : Landmarks) (w b : Landmark.t) (this : t) :
  nth_error l 0 = Some w -> nth_error l 9 = Some b ->
  calculateRotation l this =
  (Normal tt,
   let angle := normalizeAngle (rawAngle (Landmark.x b - Landmark.x w)
                                         (Landmark.y b - Landmark.y w)) in
   let r := smoothedRotation this
            + wrapDelta angle (smoothedRotation this) * smoothingFactor this in
   mk (HandState.set_rotation r (handState this)) (smoothedDistance this) r
      (smoothingFactor this) (showSkeleton this)).
Proof.
  intros H0 H9; unfold calculateRotation; rewrite H0, H9; reflexivity.
Qed.

Lemma drawConnections_state (l : Landmarks) cs (this : t) :
  snd (drawConnections l cs this) = this.
Proof.
  apply (preserves_drawConnections (fun s => s = this)); reflexivity.
Qed.

Lemma drawHandSkeleton_ok (l : Landmarks) (this : t) :
  (21 <= List.length l)%nat -> drawHandSkeleton l this = (Normal tt, this).
Proof.
  intros H.
  do 21 (destruct l as [| ? l]; [simpl in H; lia |]).
  reflexivity.
Qed.

Lemma drawHandSkeleton_throw (l : Landmarks) (this : t) :
  (List.length l < 21)%nat -> drawHandSkeleton l this = (Throw TypeError, this).
Proof.
  intros H.
  do 21 (destruct l as [| ? l]; [reflexivity |]).
  simpl in H; lia.
Qed.

(** The tracker after the metrics of a frame have been taken: smoothed
    distance and rotation moved, [detected] set, the landmarks kept. *)
Lemma onResults_no_hand (results : Results) (this : t) :
  Frames.noHand results ->
  onResults results this =
  (Normal {| HandData.detected := false;
             HandData.distance := smoothedDistance this;
             HandData.rotation := smoothedRotation this |},
   set_handState (HandState.set_detected false (handState this)) this).
Proof.
  intros [H | H]; unfold onResults; rewrite H; reflexivity.
Qed.

Lemma onResults_short (l : Landmarks) (rest : list Landmarks) (this : t) :
  (List.length l < 13)%nat ->
  onResults {| multiHandLandmarks := Some (l :: rest) |} this
  = (Throw TypeError, this).
Proof.
  intros H; unfold onResults; simpl.
  unfold bind at 1; rewrite (calculateDistance_throw _ _ H); reflexivity.
Qed.

Lemma onResults_hand (l : Landmarks) (rest : list Landmarks)
    (w b m : Landmark.t) (this : t) :
  nth_error l 0 = Some w -> nth_error l 9 = Some b -> nth_error l 12 = Some m ->
  let d := smoothedDistance this
           + (normalizeDistance
                (handSize (Landmark.x m - Landmark.x w)
                          (Landmark.y m - Landmark.y w))
              - smoothedDistance this) * smoothingFactor this in
  let angle := normalizeAngle (rawAngle (Landmark.x b - Landmark.x w)
                                        (Landmark.y b - Landmark.y w)) in
  let r := smoothedRotation this
           + wrapDelta angle (smoothedRotation this) * smoothingFactor this in
  let this' :=
    mk (HandState.mk true d r (Some l)) d r
       (smoothingFactor this) (showSkeleton this) in
  onResults {| multiHandLandmarks := Some (l :: rest) |} this =
  if showSkeleton this && (List.length l <? 21)%nat
  then (Throw TypeError, this')
  else (Normal {| HandData.detected := true;
                  HandData.distance := d;
                  HandData.rotation := r |}, this').
Proof.
  intros H0 H9 H12 d angle r this'.
  unfold onResults; simpl.
  unfold bind at 1; rewrite (calculateDistance_ok _ _ _ _ H0 H12).
  unfold bind at 1; rewrite (calculateRotation_ok _ _ _ _ H0 H9).
  cbn -[normalizeDistance handSize normalizeAngle rawAngle wrapDelta
        drawHandSkeleton Nat.ltb].
  fold d angle r.
  destruct (showSkeleton this) eqn:Hs; simpl andb.
  - destruct (Nat.ltb_spec (List.length l) 21) as [Hlt | Hge].
    + unfold bind at 1; rewrite drawHandSkeleton_throw by exact Hlt.
      subst this'; try rewrite Hs; reflexivity.
    + unfold bind at 1; rewrite drawHandSkeleton_ok by exact Hge.
      subst this'; try rewrite Hs; reflexivity.
  - subst this'; try rewrite Hs; reflexivity.
Qed.

(** The callbacks keep to their own object. *)
Lemma step_tracker (app : App.t) (results : Results) :
  App.handTracker (App.step app (App.Detection results))
  = snd (onResults results (App.handTracker app)).
Proof.
  simpl. destruct (onResults results (App.handTracker app)) as [[d | e] tr];
    reflexivity.
Qed.


Lemma run_snoc (app : App.t) (es : list App.Event) (e : App.Event) :
  App.run app (es ++ [e]) = App.step (App.run app es) e.
Proof. unfold App.run; rewrite fold_left_app; reflexivity. Qed.

End OnResults.

(** ** Invariants of the tracker and the smoothed signal after given frames *)

Section Conditioned.

Import HandTracker.

(** The three outcomes of a detection callback. *)
Lemma onResults_cases (results : Results) (this : t) :
  (Frames.noHand results
   /\ onResults results this =
      (Normal {| HandData.detected := false;
                 HandData.distance := smoothedDistance this;
                 HandData.rotation := smoothedRotation this |},
       set_handState (HandState.set_detected false (handState this)) this))
  \/ (exists l rest,
        multiHandLandmarks results = Some (l :: rest)
        /\ (List.length l < 13)%nat
        /\ onResults results this = (Throw TypeError, this))
  \/ (exists l rest d r,
        multiHandLandmarks results = Some (l :: rest)
        /\ (13 <= List.length l)%nat
        /\ 0 <= d <= 1
        /\ snd (onResults results this)
           = mk (HandState.mk true
                   (smoothedDistance this
                    + (d - smoothedDistance this) * smoothingFactor this)
                   r (Some l))
                (smoothedDistance this
                 + (d - smoothedDistance this) * smoothingFactor this)
                r (smoothingFactor this) (showSkeleton this)
        /\ match fst (onResults results this) with
           | Normal data =>
               data = {| HandData.detected := true;
                         HandData.distance :=
                           smoothedDistance this
                           + (d - smoothedDistance this) * smoothingFactor this;
                         HandData.rotation := r |}
           | Throw _ => showSkeleton this = true /\ (List.length l < 21)%nat
           end).
Proof.
  destruct results as [[[| l rest] |]].
  - left; split; [right; reflexivity | apply onResults_no_hand; right; reflexivity].
  - destruct (Nat.ltb_spec (List.length l) 13) as [Hlt | Hge].
    + right; left; exists l, rest; repeat split; try assumption.
      apply onResults_short; exact Hlt.
    + right; right.
      destruct (nth_error l 0) as [w |] eqn:H0;
        [| apply nth_error_None in H0; lia].
      destruct (nth_error l 9) as [b |] eqn:H9;
        [| apply nth_error_None in H9; lia].
      destruct (nth_error l 12) as [m |] eqn:H12;
        [| apply nth_error_None in H12; lia].
      pose proof (onResults_hand l rest w b m this H0 H9 H12) as E.
      cbv zeta in E.
      eexists l, rest, _, _; split; [reflexivity |].
      split; [exact Hge |].
      split; [apply normalizeDistance_range |].
      rewrite E.
      destruct (showSkeleton this) eqn:Hs; simpl andb.
      * destruct (Nat.ltb_spec (List.length l) 21) as [H21 | H21]; simpl;
          split; try reflexivity; split; [reflexivity | assumption].
      * simpl; split; reflexivity.
  - left; split; [left; reflexivity | apply onResults_no_hand; left; reflexivity].
Qed.

Lemma onResults_TrackerInv (results : Results) :
  preserves TrackerInv (onResults results).
Proof.
  intros this (Hf & Hd & Hh).
  destruct (onResults_cases results this)
    as [[_ E] | [(l & rest & _ & _ & E) | (l & rest & d & r & _ & _ & Hr & E & _)]];
    rewrite E; unfold TrackerInv; simpl.
  - repeat split; assumption || apply Hd || apply Hh.
  - repeat split; assumption || apply Hd || apply Hh.
  - rewrite Hf; repeat split; lra.
Qed.

Lemma step_TrackerInv (app : App.t) (e : App.Event) :
  TrackerInv (App.handTracker app) ->
  TrackerInv (App.handTracker (App.step app e)).
Proof.
  intros H; destruct e as [results | | show].
  - rewrite step_tracker; apply onResults_TrackerInv; exact H.
  - exact H.
  - exact H.
Qed.

Lemma run_TrackerInv (es : list App.Event) :
  TrackerInv (App.handTracker (App.run App.init es)).
Proof.
  induction es as [| e es IH] using rev_ind.
  - unfold TrackerInv; simpl; lra.
  - rewrite run_snoc; apply step_TrackerInv; exact IH.
Qed.

(** Without a skeleton toggle the overlay stays off. *)
Lemma conditioned_snoc (frames : list Landmarks) (l : Landmarks) :
  conditioned (frames ++ [l])
  = snd (onResults (Frames.detection l) (conditioned frames)).
Proof.
  unfold conditioned; rewrite map_app; simpl map.
  rewrite run_snoc, step_tracker; reflexivity.
Qed.

Lemma conditioned_nil : conditioned [] = constructor.
Proof. reflexivity. Qed.

Lemma conditioned_settings (frames : list Landmarks) :
  showSkeleton (conditioned frames) = false
  /\ smoothingFactor (conditioned frames) = 0.3.
Proof.
  induction frames as [| l frames [IHs IHf]] using rev_ind.
  - split; reflexivity.
  - rewrite conditioned_snoc.
    destruct (onResults_cases (Frames.detection l) (conditioned frames))
      as [[_ E] | [(? & ? & _ & _ & E) | (? & ? & ? & ? & _ & _ & _ & E & _)]];
      rewrite E; simpl; split; assumption.
Qed.

(** The smoothed signal after one more frame in which landmarks 0, 9 and 12
    exist, whatever their number and coordinates. *)
Lemma conditioned_landmarks (frames : list Landmarks) (l : Landmarks)
    (w b m : Landmark.t) :
  nth_error l 0 = Some w -> nth_error l 9 = Some b -> nth_error l 12 = Some m ->
  let this := conditioned frames in
  let d := smoothedDistance this
           + (normalizeDistance (handSize (Landmark.x m - Landmark.x w)
                                          (Landmark.y m - Landmark.y w))
              - smoothedDistance this) * 0.3 in
  let r := smoothedRotation this
           + wrapDelta (normalizeAngle (rawAngle (Landmark.x b - Landmark.x w)
                                                 (Landmark.y b - Landmark.y w)))
                       (smoothedRotation this) * 0.3 in
  conditioned (frames ++ [l])
  = mk (HandState.mk true d r (Some l)) d r 0.3 false.
Proof.
  intros H0 H9 H12 this d r.
  rewrite conditioned_snoc; fold this.
  destruct (conditioned_settings frames) as [Hs Hf]; fold this in Hs, Hf.
  unfold Frames.detection.
  pose proof (onResults_hand l [] w b m this H0 H9 H12) as E.
  cbv zeta in E; rewrite E, Hs, Hf; reflexivity.
Qed.

Lemma conditioned_hand (frames : list Landmarks) (w b m : Landmark.t) :
  let this := conditioned frames in
  let this' := conditioned (frames ++ [Frames.hand w b m]) in
  smoothedDistance this'
  = smoothedDistance this
    + (normalizeDistance (handSize (Landmark.x m - Landmark.x w)
                                   (Landmark.y m - Landmark.y w))
       - smoothedDistance this) * 0.3
  /\ smoothedRotation this'
     = smoothedRotation this
       + wrapDelta (normalizeAngle (rawAngle (Landmark.x b - Landmark.x w)
                                             (Landmark.y b - Landmark.y w)))
                   (smoothedRotation this) * 0.3
  /\ HandState.distance (handState this') = smoothedDistance this'
  /\ HandState.rotation (handState this') = smoothedRotation this'.
Proof.
  intros this this'; subst this'.
  rewrite (conditioned_landmarks frames (Frames.hand w b m) w b m
             eq_refl eq_refl eq_refl).
  repeat split; reflexivity.
Qed.

(** The four hands of [Frames] all have size 0.25, hence raw distance 0.5,
    and raw angles 90, -180 (from 180), -90 and 0. *)
Lemma conditioned_up (frames : list Landmarks) :
  smoothedRotation (conditioned (frames ++ [Frames.up]))
  = smoothedRotation (conditioned frames)
    + wrapDelta 90 (smoothedRotation (conditioned frames)) * 0.3.
Proof.
  destruct (conditioned_hand frames Frames.centre (Landmark.mk 0.5 0.6)
              (Landmark.mk 0.5 0.75)) as (_ & E & _).
  unfold Frames.up; rewrite E; simpl.
  rewrite rawAngle_up by lra. rewrite normalizeAngle_id by lra. reflexivity.
Qed.

Lemma conditioned_left (frames : list Landmarks) :
  smoothedRotation (conditioned (frames ++ [Frames.left]))
  = smoothedRotation (conditioned frames)
    + wrapDelta (-180) (smoothedRotation (conditioned frames)) * 0.3.
Proof.
  destruct (conditioned_hand frames Frames.centre (Landmark.mk 0.4 0.5)
              (Landmark.mk 0.25 0.5)) as (_ & E & _).
  unfold Frames.left; rewrite E; simpl.
  rewrite rawAngle_left by lra. rewrite normalizeAngle_180. reflexivity.
Qed.

Lemma conditioned_down (frames : list Landmarks) :
  smoothedRotation (conditioned (frames ++ [Frames.down]))
  = smoothedRotation (conditioned frames)
    + wrapDelta (-90) (smoothedRotation (conditioned frames)) * 0.3.
Proof.
  destruct (conditioned_hand frames Frames.centre (Landmark.mk 0.5 0.4)
              (Landmark.mk 0.5 0.25)) as (_ & E & _).
  unfold Frames.down; rewrite E; simpl.
  rewrite rawAngle_down by lra. rewrite normalizeAngle_id by lra. reflexivity.
Qed.

Lemma conditioned_right (frames : list Landmarks) :
  smoothedRotation (conditioned (frames ++ [Frames.right]))
  = smoothedRotation (conditioned frames)
    + wrapDelta 0 (smoothedRotation (conditioned frames)) * 0.3.
Proof.
  destruct (conditioned_hand frames Frames.centre (Landmark.mk 0.6 0.5)
              (Landmark.mk 0.75 0.5)) as (_ & E & _).
  unfold Frames.right; rewrite E; simpl.
  rewrite rawAngle_right by lra. rewrite normalizeAngle_id by lra. reflexivity.
Qed.

End Conditioned.

(** ** What one callback does to the particle system *)

Section SceneFacts.

Import ParticleSystem.

Ltac ps_red :=
  cbv beta iota zeta delta
    [bind modify get ret throw fst snd onCamera onGroup onObject
     animateParticles animateOuterShell animateMiddleRing animateInnerCore
     render updateFromHand idlePose option_map
     camera particleGroup objects refs layers cameraDistance
     targetCameraDistance minCameraDistance maxCameraDistance sphereRotation
     targetRotation autoBreathTime isHandControlled time
     set_camera set_particleGroup set_objects set_refs set_cameraDistance
     set_targetCameraDistance set_sphereRotation set_targetRotation
     set_autoBreathTime set_isHandControlled set_time
     Camera.set_position Camera.lookAt Camera.position Camera.aim
     Group.set_scale Group.set_rotation Group.add Group.scale Group.rotation
     Group.children
     Vec3.set_x Vec3.set_y Vec3.set_z Vec3.x Vec3.y Vec3.z].

(** Split a state into its fields and the layer lookups into their cases. *)
Ltac ps_cases ps :=
  destruct ps as [cam grp objs rf lay ? ? ? ? ? ? ? hc ?];
  cbn [camera particleGroup objects refs isHandControlled] in *;
  destruct (rf "outerShell"%string) as [? |] eqn:Eouter;
  destruct (rf "middleRing"%string) as [? |] eqn:Emiddle;
  destruct (rf "innerCore"%string) as [? |] eqn:Einner;
  destruct hc; destruct cam as [? |]; destruct grp as [? |];
  ps_red; rewrite ?Eouter, ?Emiddle, ?Einner; ps_red.

(** A frame never touches the targets, the authority flag, the ranges, the
    layer settings or the layer properties. *)
Lemma tick_keeps (ps : t) :
  let ps' := snd (animateParticles ps) in
  refs ps' = refs ps /\ layers ps' = layers ps
  /\ minCameraDistance ps' = minCameraDistance ps
  /\ maxCameraDistance ps' = maxCameraDistance ps
  /\ targetCameraDistance ps' = targetCameraDistance ps
  /\ targetRotation ps' = targetRotation ps
  /\ isHandControlled ps' = isHandControlled ps.
Proof. ps_cases ps; repeat split; reflexivity. Qed.

(** The hand-driven branch: the two eased values and where they are
    written. *)
Lemma tick_hand (ps : t) (c : Camera.t) (g : Group.t) :
  camera ps = Some c -> particleGroup ps = Some g ->
  isHandControlled ps = true ->
  let ps' := snd (animateParticles ps) in
  cameraDistance ps'
  = cameraDistance ps + (targetCameraDistance ps - cameraDistance ps) * 0.08
  /\ sphereRotation ps'
     = sphereRotation ps + (targetRotation ps - sphereRotation ps) * 0.08
  /\ camera ps'
     = Some {| Camera.position :=
                 Vec3.set_z (cameraDistance ps') (Camera.position c);
               Camera.aim := Camera.aim c |}
  /\ particleGroup ps'
     = Some {| Group.scale := Group.scale g;
               Group.rotation :=
                 Vec3.set_y (sphereRotation ps') (Group.rotation g);
               Group.children := Group.children g |}
  /\ autoBreathTime ps' = autoBreathTime ps
  /\ time ps' = time ps + 0.01.
Proof.
  intros Hc Hg Hh.
  ps_cases ps; try discriminate;
    injection Hc as <-; injection Hg as <-; repeat split; reflexivity.
Qed.

Lemma tick_hand_pose (ps : t) :
  isHandControlled ps = true ->
  idlePose (snd (animateParticles ps)) = idlePose ps.
Proof.
  intros Hh; ps_cases ps; try discriminate; reflexivity.
Qed.

(** The idle branch: the eased values and the camera's z are not written;
    the group turns on by 0.002. *)
Lemma tick_idle (ps : t) :
  isHandControlled ps = false ->
  let ps' := snd (animateParticles ps) in
  cameraDistance ps' = cameraDistance ps
  /\ sphereRotation ps' = sphereRotation ps
  /\ option_map (fun c => Vec3.z (Camera.position c)) (camera ps')
     = option_map (fun c => Vec3.z (Camera.position c)) (camera ps)
  /\ option_map (fun g => Vec3.y (Group.rotation g)) (particleGroup ps')
     = option_map (fun g => Vec3.y (Group.rotation g) + 0.002)
         (particleGroup ps).
Proof.
  intros Hh; ps_cases ps; try discriminate; repeat split; reflexivity.
Qed.

(** The idle branch in full: the pose is a function of the idle clock. *)
Lemma tick_idle_pose (ps : t) (c : Camera.t) (g : Group.t) :
  camera ps = Some c -> particleGroup ps = Some g ->
  isHandControlled ps = false ->
  let ps' := snd (animateParticles ps) in
  let clock := autoBreathTime ps + 0.01 in
  let eye := {| Vec3.x := sin (clock * 0.3) * 1;
                Vec3.y := 2 + cos (clock * 0.2) * 0.5;
                Vec3.z := Vec3.z (Camera.position c) |} in
  let breathScale := 1 + sin (clock * 2) * 0.05 in
  camera ps' = Some {| Camera.position := eye; Camera.aim := (eye, Vec3.zero) |}
  /\ particleGroup ps'
     = Some {| Group.scale := Vec3.mk breathScale breathScale breathScale;
               Group.rotation :=
                 {| Vec3.x := sin (clock * 0.5) * 0.1;
                    Vec3.y := Vec3.y (Group.rotation g) + 0.002;
                    Vec3.z := Vec3.z (Group.rotation g) |};
               Group.children := Group.children g |}.
Proof.
  intros Hc Hg Hh.
  ps_cases ps; try discriminate;
    injection Hc as <-; injection Hg as <-; split; reflexivity.
Qed.

(** The two clocks: [time] advances on every frame, even one that throws;
    [autoBreathTime] on every idle frame. *)
Lemma tick_clocks (ps : t) :
  time (snd (animateParticles ps)) = time ps + 0.01
  /\ autoBreathTime (snd (animateParticles ps))
     = (if isHandControlled ps then autoBreathTime ps
        else autoBreathTime ps + 0.01).
Proof. ps_cases ps; split; reflexivity. Qed.

(** A frame completes exactly when the camera and the group exist. *)
Lemma tick_completion (ps : t) :
  fst (animateParticles ps)
  = match camera ps, particleGroup ps with
    | Some _, Some _ => Normal tt
    | _, _ => Throw TypeError
    end.
Proof. ps_cases ps; reflexivity. Qed.

(** The layer animations under the properties [init] leaves: the outer
    shell turns, the middle and inner layers are not touched. *)
Lemma tick_objects (ps : t) (c : Camera.t) (g : Group.t)
    (outer middle inner : Points.t) :
  camera ps = Some c -> particleGroup ps = Some g ->
  refs ps "outerShell"%string = Some 0%nat ->
  refs ps "middleRing"%string = None ->
  refs ps "innerCore"%string = None ->
  objects ps = [outer; middle; inner] ->
  objects (snd (animateParticles ps))
  = [ Points.set_rotation
        (Vec3.set_z (Vec3.z (Points.rotation outer) + 0.0003)
           (Points.rotation outer)) outer;
      middle; inner ].
Proof.
  intros Hc Hg H1 H2 H3 Ho.
  ps_cases ps; try discriminate;
    injection H1 as ->; subst objs; reflexivity.
Qed.

Lemma tick_scene (ps : t) : SceneInv ps -> SceneInv (snd (animateParticles ps)).
Proof.
  intros ([c Hc] & [g Hg] & H1 & H2 & H3 & H4 & H5 & Hmin & Hmax & Hl & [o Ho]).
  pose proof (tick_objects ps _ _ _ _ _ Hc Hg H1 H2 H3 Ho) as Hobj.
  destruct (tick_keeps ps) as (Er & El & Emin & Emax & _).
  unfold SceneInv; rewrite Er, El, Emin, Emax, Hobj.
  repeat split; try assumption; try (eexists; reflexivity).
  - clear Hobj Ho; ps_cases ps; try discriminate; eexists; reflexivity.
  - clear Hobj Ho; ps_cases ps; try discriminate; eexists; reflexivity.
Qed.

(** [updateFromHand]: the authority flag and the two targets, nothing
    else. *)
Lemma updateFromHand_detected (d r : R) (ps : t) :
  snd (updateFromHand {| HandData.detected := true;
                         HandData.distance := d;
                         HandData.rotation := r |} ps)
  = set_targetRotation (r * PI / 180)
      (set_targetCameraDistance
         (minCameraDistance ps
          + d * (maxCameraDistance ps - minCameraDistance ps))
         (set_isHandControlled true ps)).
Proof. destruct ps; reflexivity. Qed.

Lemma updateFromHand_lost (d r : R) (ps : t) :
  snd (updateFromHand {| HandData.detected := false;
                         HandData.distance := d;
                         HandData.rotation := r |} ps)
  = set_targetRotation 0
      (set_targetCameraDistance 10 (set_isHandControlled false ps)).
Proof. destruct ps; reflexivity. Qed.

Lemma updateFromHand_scene (handData : HandData.t) (ps : t) :
  SceneInv ps -> SceneInv (snd (updateFromHand handData ps)).
Proof.
  intros H; destruct handData as [[|] d r];
    [rewrite updateFromHand_detected | rewrite updateFromHand_lost];
    destruct ps; exact H.
Qed.

Lemma updateFromHand_pose (handData : HandData.t) (ps : t) :
  idlePose (snd (updateFromHand handData ps)) = idlePose ps.
Proof.
  destruct handData as [[|] d r];
    [rewrite updateFromHand_detected | rewrite updateFromHand_lost];
    destruct ps; reflexivity.
Qed.

Lemma init_scene : SceneInv (snd (init constructor)).
Proof.
  unfold SceneInv.
  repeat match goal with |- _ /\ _ => split end;
    try (eexists; vm_compute; reflexivity); vm_compute; reflexivity.
Qed.

End SceneFacts.

(** ** Runs of the application *)

Section Runs.

Lemma step_particles (app : App.t) (results : Results) :
  App.particleSystem (App.step app (App.Detection results))
  = match fst (HandTracker.onResults results (App.handTracker app)) with
    | Normal handData =>
        snd (ParticleSystem.updateFromHand handData (App.particleSystem app))
    | Throw _ => App.particleSystem app
    end.
Proof.
  simpl.
  destruct (HandTracker.onResults results (App.handTracker app))
    as [[d | e] tr]; reflexivity.
Qed.

Lemma step_particles_frame (app : App.t) :
  App.particleSystem (App.step app App.AnimationFrame)
  = snd (ParticleSystem.animateParticles (App.particleSystem app)).
Proof. reflexivity. Qed.

Lemma step_scene (app : App.t) (e : App.Event) :
  SceneInv (App.particleSystem app) ->
  SceneInv (App.particleSystem (App.step app e)).
Proof.
  intros H; destruct e as [results | | show].
  - rewrite step_particles.
    destruct (fst (HandTracker.onResults results (App.handTracker app)));
      [apply updateFromHand_scene |]; exact H.
  - rewrite step_particles_frame; apply tick_scene; exact H.
  - exact H.
Qed.

Lemma run_scene (es : list App.Event) :
  SceneInv (App.particleSystem (App.run App.init es)).
Proof.
  induction es as [| e es IH] using rev_ind.
  - apply (step_scene (App.mk _ _) App.AnimationFrame), init_scene.
  - rewrite run_snoc; apply step_scene; exact IH.
Qed.

(** A detection with landmarks never hands control back: it either throws
    before the event or announces a hand. *)
Lemma step_keepsHand (app : App.t) (e : App.Event) :
  keepsHand e ->
  ParticleSystem.isHandControlled (App.particleSystem app) = true ->
  ParticleSystem.isHandControlled (App.particleSystem (App.step app e)) = true
  /\ idlePose (App.particleSystem (App.step app e))
     = idlePose (App.particleSystem app).
Proof.
  intros He Hh; destruct e as [results | | show].
  - rewrite step_particles.
    destruct (onResults_cases results (App.handTracker app))
      as [[Hn _] | [(l & rest & _ & _ & E) | (l & rest & d & r & _ & _ & _ & _ & E)]].
    + contradiction.
    + rewrite E; simpl; split; [exact Hh | reflexivity].
    + destruct (fst (HandTracker.onResults results (App.handTracker app))).
      * subst a; rewrite updateFromHand_detected.
        destruct (App.particleSystem app); split; reflexivity.
      * split; [exact Hh | reflexivity].
  - rewrite step_particles_frame; split.
    + destruct (tick_keeps (App.particleSystem app)) as (_ & _ & _ & _ & _ & _ & E).
      rewrite E; exact Hh.
    + apply tick_hand_pose; exact Hh.
  - split; [exact Hh | reflexivity].
Qed.

(** A stretch without a hand: the tracker is only told that no hand is
    there, and authority stays with the idle animation. *)
Lemma step_quiet (app : App.t) (e : App.Event) :
  quiet e ->
  HandState.detected (HandTracker.handState (App.handTracker app)) = false ->
  ParticleSystem.isHandControlled (App.particleSystem app) = false ->
  App.handTracker (App.step app e) = App.handTracker app
  /\ ParticleSystem.isHandControlled (App.particleSystem (App.step app e))
     = false.
Proof.
  intros He Hd Hh; destruct e as [results | | show].
  - rewrite step_tracker, step_particles.
    rewrite (onResults_no_hand results _ He); split.
    + destruct (App.handTracker app) as [[det dist rot raw] sd sr sf sk].
      simpl in Hd; subst det; reflexivity.
    + cbv beta iota delta [fst]; rewrite updateFromHand_lost.
      destruct (App.particleSystem app); reflexivity.
  - rewrite step_particles_frame; split; [reflexivity |].
    destruct (tick_keeps (App.particleSystem app))
      as (_ & _ & _ & _ & _ & _ & E).
    rewrite E; exact Hh.
  - contradiction.
Qed.

End Runs.

(** ** The smoothed rotation *)

Section Rotation.

Import HandTracker.

(** One more frame of a hand already more than half a turn behind its raw
    angle: the smoothed rotation moves forward by 0.3 of the difference
    taken one full turn further. *)
Local Ltac forward lem prev :=
  rewrite lem, prev; rewrite wrapDelta_plus by lra; lra.

Lemma turning_1 : smoothedRotation (conditioned [Frames.up]) = 27.
Proof.
  change [Frames.up] with ([] ++ [Frames.up]).
  rewrite conditioned_up, conditioned_nil; cbn [smoothedRotation constructor].
  rewrite wrapDelta_id by lra; lra.
Qed.

Lemma turning_2 :
  smoothedRotation (conditioned [Frames.up; Frames.left]) = 72.9.
Proof.
  change [Frames.up; Frames.left] with ([Frames.up] ++ [Frames.left]).
  forward conditioned_left turning_1.
Qed.

Lemma turning_3 :
  smoothedRotation (conditioned [Frames.up; Frames.left; Frames.left])
  = 105.03.
Proof.
  change [Frames.up; Frames.left; Frames.left]
    with ([Frames.up; Frames.left] ++ [Frames.left]).
  forward conditioned_left turning_2.
Qed.

Lemma turning_4 :
  smoothedRotation
    (conditioned [Frames.up; Frames.left; Frames.left; Frames.down])
  = 154.521.
Proof.
  change [Frames.up; Frames.left; Frames.left; Frames.down]
    with ([Frames.up; Frames.left; Frames.left] ++ [Frames.down]).
  forward conditioned_down turning_3.
Qed.

Lemma turning_5 : smoothedRotation (conditioned turning5) = 189.1647.
Proof.
  change turning5
    with ([Frames.up; Frames.left; Frames.left; Frames.down] ++ [Frames.down]).
  forward conditioned_down turning_4.
Qed.

Lemma turning_6 :
  smoothedRotation (conditioned (turning5 ++ [Frames.right])) = 240.41529.
Proof. forward conditioned_right turning_5. Qed.

Lemma turning_7 :
  smoothedRotation (conditioned ((turning5 ++ [Frames.right]) ++ [Frames.right]))
  = 276.290703.
Proof. forward conditioned_right turning_6. Qed.

Lemma turning_8 :
  smoothedRotation
    (conditioned
       (((turning5 ++ [Frames.right]) ++ [Frames.right]) ++ [Frames.up]))
  = 328.4034921.
Proof. forward conditioned_up turning_7. Qed.

Lemma turning_9 : smoothedRotation (conditioned turning9) = 364.88244447.
Proof.
  change turning9
    with ((((turning5 ++ [Frames.right]) ++ [Frames.right]) ++ [Frames.up])
          ++ [Frames.up]).
  forward conditioned_up turning_8.
Qed.

(** C1 (the code departs from the claim).  The claim is that the smoothed
    rotation kept by the tracker and handed on lies in (-180, 180] after
    every sequence of detected frames.  The smoothed value is never brought
    back into that interval: after the five frames of [turning5] (a hand
    turning from 90 over 180 to 270 degrees) the state, the rotation of
    [handState] and the rotation reported by [getHandState] are all
    189.1647, which is above 180. *)
Theorem smoothed_rotation_exceeds_half_turn :
  let this := conditioned turning5 in
  smoothedRotation this = 189.1647
  /\ HandState.rotation (handState this) = 189.1647
  /\ HandData.rotation (getHandState this) = 189.1647
  /\ ~ (-180 < smoothedRotation this <= 180).
Proof.
  intros this.
  assert (E : smoothedRotation this = 189.1647) by apply turning_5.
  assert (Eh : HandState.rotation (handState this) = smoothedRotation this).
  { subst this.
    change turning5
      with ([Frames.up; Frames.left; Frames.left; Frames.down] ++ [Frames.down]).
    apply (conditioned_hand _ Frames.centre (Landmark.mk 0.5 0.4)
             (Landmark.mk 0.5 0.25)). }
  repeat split.
  - exact E.
  - rewrite Eh; exact E.
  - exact E.
  - rewrite E; lra.
Qed.

(** The correction of lines 224-225 by cases, and the bound it gives while
    the state is within one turn of zero. *)
Lemma wrapDelta_within_turn (a s : R) :
  -180 <= a < 180 -> -360 <= s <= 360 -> -180 <= wrapDelta a s <= 180.
Proof. intros Ha Hs; apply wrapDelta_bound; lra. Qed.

(** Raw angles alternating between 179 and -179 from the initial state: the
    smoothed rotation never comes back toward 0 and closes in on the
    boundary, staying below 181. *)
Lemma oscillation_closes_in (n : nat) :
  (1 <= n)%nat ->
  53.7 <= oscillation n <= 181 /\ 179 - 179 * 0.7 ^ n <= oscillation n.
Proof.
  induction n as [| k IH]; [lia |].
  intros _.
  destruct k as [| k].
  - simpl oscillation; rewrite wrapDelta_id by lra; simpl pow; lra.
  - destruct IH as [[Hl Hu] Hc]; [lia |].
    change (oscillation (S (S k)))
      with (oscillation (S k)
            + wrapDelta (if Nat.even (S k) then 179 else -179)
                (oscillation (S k)) * 0.3).
    change (0.7 ^ S (S k)) with (0.7 * 0.7 ^ S k).
    destruct (Nat.even (S k)).
    + rewrite wrapDelta_id by lra; lra.
    + rewrite wrapDelta_plus by lra; lra.
Qed.

(** C2 (the code departs from the claim).  The claim is that the corrected
    delta of a smoothing step is at most 180 in absolute value in every
    reachable state.  The delta is corrected by at most one turn and the
    state is not normalised: after the nine frames of [turning9] (a hand
    turning steadily through one and a quarter turns) the state is
    364.88244447; the next frame, with raw angle 180 normalised to -180,
    has the corrected delta -184.88244447 and moves the state back to
    309.417711129. *)
Theorem corrected_delta_exceeds_half_turn :
  let s := smoothedRotation (conditioned turning9) in
  s = 364.88244447
  /\ normalizeAngle (rawAngle (0.4 - 0.5) (0.5 - 0.5)) = -180
  /\ wrapDelta (-180) s = -184.88244447
  /\ smoothedRotation (conditioned (turning9 ++ [Frames.left]))
     = 309.417711129
  /\ ~ (Rabs (wrapDelta (-180) s) <= 180).
Proof.
  intros s.
  assert (E : s = 364.88244447) by apply turning_9.
  assert (W : wrapDelta (-180) s = -184.88244447)
    by (rewrite wrapDelta_plus; lra).
  repeat split.
  - exact E.
  - rewrite rawAngle_left by lra; apply normalizeAngle_180.
  - exact W.
  - rewrite conditioned_left; fold s; rewrite W, E; lra.
  - rewrite W, Rabs_left by lra; lra.
Qed.

End Rotation.

(** ** The smoothed distance *)

Section Distance.

Import HandTracker.

(** What a completed callback reports is the state it leaves. *)
Lemma onResults_reports (results : Results) (this : t) :
  match fst (onResults results this) with
  | Normal data =>
      HandData.distance data = smoothedDistance (snd (onResults results this))
      /\ HandData.rotation data = smoothedRotation (snd (onResults results this))
  | Throw _ => True
  end.
Proof.
  destruct (onResults_cases results this)
    as [[_ E] | [(l & rest & _ & _ & E) | (l & rest & d & r & _ & _ & _ & E & Hd)]].
  - rewrite E; simpl; split; reflexivity.
  - rewrite E; exact I.
  - rewrite E.
    destruct (fst (onResults results this)); [subst a; split; reflexivity | exact I].
Qed.

(** C6.  For every hand size (any real, so also below 0.15 and above 0.35)
    the calibrated distance lies in [0, 1], and in every state the
    application can reach the smoothed distance, the distance of
    [handState], the distance reported by [getHandState] and the distance of
    every [handUpdate] event lie in [0, 1]. *)
Theorem distance_stays_in_unit_interval :
  (forall h : R, 0 <= normalizeDistance h <= 1)
  /\ forall (es : list App.Event) (results : Results),
       let this := App.handTracker (App.run App.init es) in
       0 <= smoothedDistance this <= 1
       /\ 0 <= HandState.distance (handState this) <= 1
       /\ 0 <= HandData.distance (getHandState this) <= 1
       /\ match fst (onResults results this) with
          | Normal data => 0 <= HandData.distance data <= 1
          | Throw _ => True
          end.
Proof.
  split; [exact normalizeDistance_range |].
  intros es results this.
  destruct (run_TrackerInv es) as (Hf & Hd & Hh); fold this in Hf, Hd, Hh.
  repeat split; try apply Hd; try apply Hh.
  pose proof (onResults_reports results this) as Hr.
  destruct (fst (onResults results this)) as [data | e]; [| exact I].
  destruct Hr as [Hr _]; rewrite Hr.
  apply (onResults_TrackerInv results this).
  repeat split; assumption || apply Hd || apply Hh.
Qed.

Lemma up_handSize : handSize (0.5 - 0.5) (0.75 - 0.5) = 0.25.
Proof. rewrite handSize_vertical; lra. Qed.

(** C9.  Through a stretch of results without a hand (absent or empty
    landmark data), with any number of animation frames in between, the
    tracker changes in nothing but the [detected] flag, which is false: the
    smoothed distance and rotation, their copies in [handState] and the
    kept landmarks are those from before the stretch; every event of the
    stretch reports them unchanged; and the particle system is not hand
    controlled. *)
Theorem no_hand_frames_hold_signal
    (app : App.t) (results : Results) (es : list App.Event) :
  Frames.noHand results -> Forall quiet es ->
  let this := App.handTracker app in
  let app' := App.run app (App.Detection results :: es) in
  App.handTracker app'
  = set_handState (HandState.set_detected false (handState this)) this
  /\ smoothedDistance (App.handTracker app') = smoothedDistance this
  /\ smoothedRotation (App.handTracker app') = smoothedRotation this
  /\ HandState.detected (handState (App.handTracker app')) = false
  /\ ParticleSystem.isHandControlled (App.particleSystem app') = false
  /\ fst (onResults results (App.handTracker app'))
     = Normal {| HandData.detected := false;
                 HandData.distance := smoothedDistance this;
                 HandData.rotation := smoothedRotation this |}.
Proof.
  intros Hn Hq this app'.
  assert (H : App.handTracker app'
              = set_handState (HandState.set_detected false (handState this)) this
              /\ ParticleSystem.isHandControlled (App.particleSystem app') = false).
  { subst app'.
    induction es as [| e es IH] using rev_ind.
    - change (App.run app (App.Detection results :: []))
        with (App.step app (App.Detection results)).
      rewrite step_tracker, step_particles.
      rewrite (onResults_no_hand results _ Hn); split; [reflexivity |].
      cbv beta iota delta [fst]; rewrite updateFromHand_lost.
      destruct (App.particleSystem app); reflexivity.
    - apply Forall_app in Hq as [Hq He]; inversion He as [| ? ? Hqe _]; subst.
      specialize (IH Hq) as [IHt IHp].
      rewrite app_comm_cons, run_snoc.
      destruct (step_quiet (App.run app (App.Detection results :: es)) e Hqe)
        as [Et Ep].
      + rewrite IHt; reflexivity.
      + exact IHp.
      + rewrite Et, Ep; split; [exact IHt | reflexivity]. }
  destruct H as [Ht Hp]; rewrite Ht.
  repeat split; try reflexivity; try exact Hp.
  rewrite (onResults_no_hand results _ Hn); reflexivity.
Qed.

Lemma no_hand_frames_hold_signal_witness :
  let app' :=
    App.run App.init
      [App.Detection Frames.absent; App.AnimationFrame;
       App.Detection Frames.empty] in
  smoothedDistance (App.handTracker app') = smoothedDistance constructor
  /\ smoothedRotation (App.handTracker app') = smoothedRotation constructor.
Proof.
  pose proof (no_hand_frames_hold_signal App.init Frames.absent
                [App.AnimationFrame; App.Detection Frames.empty]) as H.
  destruct H as (_ & Hd & Hr & _).
  - left; reflexivity.
  - repeat constructor; right; reflexivity.
  - split; [exact Hd | exact Hr].
Defined.

End Distance.

(** ** Frames that are not 21 landmarks in range *)

Section Binary64Facts.

Import Floats.
Local Open Scope float_scope.
#[local] Set Warnings "-inexact-float".

(** NaN absorbs the arithmetic of the distance pipeline. *)
Lemma nan_add_l (y : float) : nan + y = nan.
Proof. apply Prim2SF_inj; rewrite add_spec; reflexivity. Qed.

Lemma nan_add_r (x : float) : x + nan = nan.
Proof.
  apply Prim2SF_inj; rewrite add_spec.
  change (Prim2SF nan) with S754_nan; destruct (Prim2SF x); reflexivity.
Qed.

Lemma nan_sub_l (y : float) : nan - y = nan.
Proof. apply Prim2SF_inj; rewrite sub_spec; reflexivity. Qed.

Lemma nan_sub_r (x : float) : x - nan = nan.
Proof.
  apply Prim2SF_inj; rewrite sub_spec.
  change (Prim2SF nan) with S754_nan; destruct (Prim2SF x); reflexivity.
Qed.

Lemma nan_mul_l (y : float) : nan * y = nan.
Proof. apply Prim2SF_inj; rewrite mul_spec; reflexivity. Qed.

Lemma nan_div_l (y : float) : nan / y = nan.
Proof. apply Prim2SF_inj; rewrite div_spec; reflexivity. Qed.

Lemma nan_handSize (dx dy : float) :
  dx = nan \/ dy = nan -> Binary64.handSize dx dy = nan.
Proof.
  unfold Binary64.handSize; intros [-> | ->].
  - rewrite nan_mul_l, nan_add_l; reflexivity.
  - rewrite nan_mul_l, nan_add_r; reflexivity.
Qed.

(** A NaN in a coordinate of the wrist or of the middle-finger tip makes
    the smoothed distance NaN whatever it was. *)
Lemma nan_enters (l : list Binary64.Landmark) (wrist tip : Binary64.Landmark)
    (s : float) :
  nth_error l 0 = Some wrist -> nth_error l 12 = Some tip ->
  Binary64.x wrist = nan \/ Binary64.y wrist = nan
  \/ Binary64.x tip = nan \/ Binary64.y tip = nan ->
  Binary64.calculateDistance l s = Normal nan.
Proof.
  intros H0 H12 Hn.
  unfold Binary64.calculateDistance; rewrite H0, H12; cbv zeta.
  rewrite nan_handSize.
  - change (Binary64.normalizeDistance nan) with nan.
    rewrite nan_sub_l, nan_mul_l, nan_add_r; reflexivity.
  - destruct Hn as [H | [H | [H | H]]]; rewrite H.
    + left; apply nan_sub_r.
    + right; apply nan_sub_r.
    + left; apply nan_sub_l.
    + right; apply nan_sub_l.
Qed.

Lemma track_cons (s : float) (l : list Binary64.Landmark)
    (frames : list (list Binary64.Landmark)) :
  Binary64.track s (l :: frames)
  = Binary64.track
      (match Binary64.calculateDistance l s with
       | Normal s' => s'
       | Throw _ => s
       end) frames.
Proof. reflexivity. Qed.

(** From NaN no frame brings the smoothed distance back. *)
Lemma nan_stays (frames : list (list Binary64.Landmark)) :
  Binary64.track nan frames = nan.
Proof.
  unfold Binary64.track.
  induction frames as [| l frames IH]; [reflexivity |].
  simpl fold_left.
  replace (match Binary64.calculateDistance l nan with
           | Normal s' => s'
           | Throw _ => nan
           end) with nan; [exact IH |].
  unfold Binary64.calculateDistance.
  destruct (nth_error l 12); [| reflexivity].
  destruct (nth_error l 0); [| reflexivity].
  cbv zeta; rewrite nan_add_l; reflexivity.
Qed.

End Binary64Facts.

Section Malformed.

Import HandTracker.

Lemma near_handSize : handSize (0.5 - 0.5) (0.95 - 0.5) = 0.45.
Proof. rewrite handSize_vertical; lra. Qed.

Lemma outside_handSize : handSize (1.2 - 0.5) (0.5 - 0.5) = 0.7.
Proof. rewrite handSize_horizontal; lra. Qed.

Lemma short13_state :
  conditioned [Frames.short13]
  = mk (HandState.mk true 0.35 27 (Some Frames.short13)) 0.35 27 0.3 false.
Proof.
  change [Frames.short13] with ([] ++ [Frames.short13]).
  rewrite (conditioned_landmarks [] Frames.short13 Frames.centre
             (Landmark.mk 0.5 0.6) (Landmark.mk 0.5 0.95)
             eq_refl eq_refl eq_refl).
  rewrite conditioned_nil.
  cbn [smoothedDistance smoothedRotation constructor Landmark.x Landmark.y
       Frames.centre].
  rewrite near_handSize, normalizeDistance_close by lra.
  rewrite rawAngle_up by lra. rewrite normalizeAngle_id by lra.
  rewrite wrapDelta_id by lra.
  replace (0.5 + (0 - 0.5) * 0.3) with 0.35 by lra.
  replace (0 + (90 - 0) * 0.3) with 27 by lra.
  reflexivity.
Qed.

Lemma outside_state :
  smoothedDistance (conditioned [Frames.outside]) = 0.35.
Proof.
  change [Frames.outside] with ([] ++ [Frames.outside]).
  destruct (conditioned_hand [] Frames.centre (Landmark.mk 0.6 0.5)
              (Landmark.mk 1.2 0.5)) as (E & _).
  unfold Frames.outside; rewrite E, conditioned_nil.
  cbn [smoothedDistance constructor Landmark.x Landmark.y Frames.centre].
  rewrite outside_handSize, normalizeDistance_close by lra; lra.
Qed.

(** C3, as stated, fails.  A frame of 13 landmarks (fewer than 21) and a
    frame with a coordinate outside [0, 1] (x = 1.2) are not treated as
    frames without a hand: each moves the smoothed distance from 0.5 to
    0.35, and the short frame moves the smoothed rotation from 0 to 27 and
    sets [detected]. *)
Lemma malformed_frames_move_the_state :
  (List.length Frames.short13 < 21)%nat
  /\ smoothedDistance (conditioned [Frames.short13])
     <> smoothedDistance (conditioned [])
  /\ smoothedRotation (conditioned [Frames.short13])
     <> smoothedRotation (conditioned [])
  /\ HandState.detected (handState (conditioned [Frames.short13])) = true
  /\ nth_error Frames.outside 12 = Some (Landmark.mk 1.2 0.5)
  /\ smoothedDistance (conditioned [Frames.outside])
     <> smoothedDistance (conditioned []).
Proof.
  rewrite short13_state, outside_state, conditioned_nil.
  cbn [smoothedDistance smoothedRotation handState HandState.detected
       constructor].
  repeat split; try lra.
  unfold Frames.short13, Frames.near, Frames.hand; simpl; lia.
Qed.

(** C3, amended.  Only absent or empty landmark data makes a frame without a
    hand.  A first hand of fewer than 13 landmarks makes the callback throw
    before it has written anything (no event, [detected] not cleared).  Any
    other first hand is processed as a detected hand from its landmarks 0, 9
    and 12, whatever their number and coordinates: the smoothed distance and
    rotation move by the usual step, and the event is emitted unless the
    skeleton overlay is on and the hand has fewer than 21 landmarks, in
    which case drawing throws after the state has moved.  With real
    coordinates, in range or not, the smoothed distance stays in [0, 1].
    On binary64 numbers a NaN in the x or the y of landmark 0 or of
    landmark 12 makes the smoothed distance NaN, and it stays NaN through
    every later frame. *)
Theorem detection_frames_are_not_validated :
  (forall (results : Results) (this : t),
     Frames.noHand results ->
     onResults results this =
     (Normal {| HandData.detected := false;
                HandData.distance := smoothedDistance this;
                HandData.rotation := smoothedRotation this |},
      set_handState (HandState.set_detected false (handState this)) this))
  /\ (forall (l : Landmarks) (rest : list Landmarks) (this : t),
        (List.length l < 13)%nat ->
        onResults {| multiHandLandmarks := Some (l :: rest) |} this
        = (Throw TypeError, this))
  /\ (forall (l : Landmarks) (rest : list Landmarks) (w b m : Landmark.t)
             (this : t),
        nth_error l 0 = Some w -> nth_error l 9 = Some b ->
        nth_error l 12 = Some m ->
        let d := smoothedDistance this
                 + (normalizeDistance
                      (handSize (Landmark.x m - Landmark.x w)
                                (Landmark.y m - Landmark.y w))
                    - smoothedDistance this) * smoothingFactor this in
        let angle := normalizeAngle (rawAngle (Landmark.x b - Landmark.x w)
                                              (Landmark.y b - Landmark.y w)) in
        let r := smoothedRotation this
                 + wrapDelta angle (smoothedRotation this)
                   * smoothingFactor this in
        let this' :=
          mk (HandState.mk true d r (Some l)) d r
             (smoothingFactor this) (showSkeleton this) in
        onResults {| multiHandLandmarks := Some (l :: rest) |} this =
        if showSkeleton this && (List.length l <? 21)%nat
        then (Throw TypeError, this')
        else (Normal {| HandData.detected := true;
                        HandData.distance := d;
                        HandData.rotation := r |}, this'))
  /\ (forall (results : Results) (this : t),
        TrackerInv this -> TrackerInv (snd (onResults results this)))
  /\ (forall (l : list Binary64.Landmark) (wrist tip : Binary64.Landmark)
             (s : PrimFloat.float) (frames : list (list Binary64.Landmark)),
        nth_error l 0 = Some wrist -> nth_error l 12 = Some tip ->
        Binary64.x wrist = PrimFloat.nan \/ Binary64.y wrist = PrimFloat.nan
        \/ Binary64.x tip = PrimFloat.nan \/ Binary64.y tip = PrimFloat.nan ->
        Binary64.track s (l :: frames) = PrimFloat.nan).
Proof.
  split; [exact onResults_no_hand |].
  split; [exact onResults_short |].
  split; [exact onResults_hand |].
  split; [intros results this; apply onResults_TrackerInv |].
  intros l wrist tip s frames H0 H12 Hn.
  rewrite track_cons, (nan_enters l wrist tip s H0 H12 Hn); apply nan_stays.
Qed.

Lemma detection_frames_are_not_validated_witness :
  onResults {| multiHandLandmarks := Some [Frames.short12] |} constructor
  = (Throw TypeError, constructor)
  /\ fst (onResults {| multiHandLandmarks := Some [Frames.short13] |}
            constructor)
     = Normal {| HandData.detected := true;
                 HandData.distance := 0.5 + (normalizeDistance
                                               (handSize (0.5 - 0.5) (0.95 - 0.5))
                                             - 0.5) * 0.3;
                 HandData.rotation := 0 + wrapDelta
                                            (normalizeAngle
                                               (rawAngle (0.5 - 0.5) (0.6 - 0.5)))
                                            0 * 0.3 |}.
Proof.
  destruct detection_frames_are_not_validated as (_ & Hshort & Hhand & _).
  split.
  - apply Hshort; simpl; lia.
  - rewrite (Hhand Frames.short13 [] Frames.centre (Landmark.mk 0.5 0.6)
               (Landmark.mk 0.5 0.95) constructor eq_refl eq_refl eq_refl).
    reflexivity.
Defined.

End Malformed.

(** ** The calibration of the distance *)

Section Calibration.

Import Floats.
Import HandTracker.
#[local] Set Warnings "-inexact-float".

Lemma hand_frame_distance (w b m : Landmark.t) :
  smoothedDistance (conditioned [Frames.hand w b m])
  = 0.5 + (normalizeDistance (handSize (Landmark.x m - Landmark.x w)
                                       (Landmark.y m - Landmark.y w))
           - 0.5) * 0.3.
Proof.
  change [Frames.hand w b m] with ([] ++ [Frames.hand w b m]).
  destruct (conditioned_hand [] w b m) as (E & _).
  rewrite E, conditioned_nil; reflexivity.
Qed.

(** C8, as stated, fails.  As the code computes it, in binary64, hand size
    0.25 does not give 0.5 but 0.49999999999999989, and a frame of hand
    size 0.25 (wrist (0.5, 0.5), fingertip (0.5, 0.75)) met at the state
    0.5 does not leave the state at 0.5: it moves it to
    0.49999999999999994. *)
Lemma midpoint_is_not_exact :
  Binary64.handSize (PrimFloat.sub 0.5 0.5) (PrimFloat.sub 0.75 0.5)
  = 0.25%float
  /\ Binary64.normalizeDistance 0.25 = 0.49999999999999989%float
  /\ Binary64.normalizeDistance 0.25 <> 0.5%float
  /\ Binary64.track 0.5
       [Binary64.frame {| Binary64.x := 0.5; Binary64.y := 0.5 |}
                       {| Binary64.x := 0.5; Binary64.y := 0.75 |}]
     = 0.49999999999999994%float
  /\ Binary64.track 0.5
       [Binary64.frame {| Binary64.x := 0.5; Binary64.y := 0.5 |}
                       {| Binary64.x := 0.5; Binary64.y := 0.75 |}]
     <> 0.5%float.
Proof.
  repeat match goal with |- _ /\ _ => split end;
    try (vm_compute; reflexivity);
    intros E; apply (f_equal Prim2SF) in E; vm_compute in E;
    discriminate E.
Qed.

(** C8, amended.  Before smoothing, the distance is 1 - (h - 0.15) / (0.35
    - 0.15) clamped to [0, 1].  Read over the reals this is the linear map
    sending hand size 0.15 to 1, 0.25 to 0.5 and 0.35 to 0; a frame met in
    the initial state (smoothed distance 0.5, factor 0.3) moves the
    smoothed distance 0.3 of the way to the calibrated distance of its
    hand: to 0.65 for hand size 0.15, to 0.35 for hand size 0.35, and
    nowhere for hand size 0.25.  As the code computes it, in binary64, the
    two ends are exact (0.15 gives 1 and a smoothed distance of 0.65, 0.35
    gives 0 and a smoothed distance of 0.35), and the middle is not: 0.25
    gives 0.49999999999999989 and the smoothed distance moves from 0.5 to
    0.49999999999999994, both within 2^-52 of 0.5. *)
Theorem distance_calibration :
  (forall h : R,
     normalizeDistance h = Rmax 0 (Rmin 1 ((0.35 - h) / (0.35 - 0.15))))
  /\ (forall h : R,
        0.15 <= h <= 0.35 -> normalizeDistance h = (0.35 - h) / (0.35 - 0.15))
  /\ normalizeDistance 0.15 = 1
  /\ normalizeDistance 0.35 = 0
  /\ normalizeDistance 0.25 = 0.5
  /\ smoothedDistance constructor = 0.5
  /\ smoothingFactor constructor = 0.3
  /\ (forall w b m : Landmark.t,
        smoothedDistance (conditioned [Frames.hand w b m])
        = 0.5 + (normalizeDistance
                   (handSize (Landmark.x m - Landmark.x w)
                             (Landmark.y m - Landmark.y w)) - 0.5) * 0.3)
  /\ smoothedDistance
       (conditioned [Frames.hand Frames.centre (Landmark.mk 0.5 0.6)
                       (Landmark.mk 0.5 0.65)]) = 0.65
  /\ smoothedDistance
       (conditioned [Frames.hand Frames.centre (Landmark.mk 0.5 0.6)
                       (Landmark.mk 0.5 0.85)]) = 0.35
  /\ smoothedDistance (conditioned [Frames.up]) = 0.5
  /\ Binary64.normalizeDistance 0.15 = 1%float
  /\ Binary64.normalizeDistance 0.35 = 0%float
  /\ Binary64.normalizeDistance 0.25 = 0.49999999999999989%float
  /\ Binary64.track 0.5
       [Binary64.frame {| Binary64.x := 0; Binary64.y := 0 |}
                       {| Binary64.x := 0; Binary64.y := 0.15 |}]
     = 0.65%float
  /\ Binary64.track 0.5
       [Binary64.frame {| Binary64.x := 0; Binary64.y := 0 |}
                       {| Binary64.x := 0; Binary64.y := 0.35 |}]
     = 0.35%float
  /\ Binary64.track 0.5
       [Binary64.frame {| Binary64.x := 0.5; Binary64.y := 0.5 |}
                       {| Binary64.x := 0.5; Binary64.y := 0.75 |}]
     = 0.49999999999999994%float
  /\ PrimFloat.sub 0.5 0.49999999999999989 = 1.1102230246251565e-16%float
  /\ PrimFloat.sub 0.5 0.49999999999999994 = 5.5511151231257827e-17%float.
Proof.
  split; [intros h; unfold normalizeDistance; do 2 f_equal; lra |].
  split; [intros h Hh; rewrite normalizeDistance_linear by lra; lra |].
  split; [apply normalizeDistance_far; lra |].
  split; [apply normalizeDistance_close; lra |].
  split; [rewrite normalizeDistance_linear; lra |].
  split; [reflexivity |].
  split; [reflexivity |].
  split; [exact hand_frame_distance |].
  split.
  { rewrite hand_frame_distance.
    cbn [Landmark.x Landmark.y Frames.centre].
    rewrite handSize_vertical by lra.
    rewrite normalizeDistance_far by lra; lra. }
  split.
  { rewrite hand_frame_distance.
    cbn [Landmark.x Landmark.y Frames.centre].
    rewrite handSize_vertical by lra.
    rewrite normalizeDistance_close by lra; lra. }
  split.
  { unfold Frames.up; rewrite hand_frame_distance.
    cbn [Landmark.x Landmark.y Frames.centre].
    rewrite up_handSize, normalizeDistance_linear; lra. }
  repeat match goal with |- _ /\ _ => split end; vm_compute; reflexivity.
Qed.

End Calibration.

(** ** Targets, authority and the animation *)

Section Scene.

Import ParticleSystem.

(** [updateFromHand] field by field. *)
Lemma updateFromHand_fields (handData : HandData.t) (ps : t) :
  let ps' := snd (updateFromHand handData ps) in
  isHandControlled ps' = HandData.detected handData
  /\ targetCameraDistance ps'
     = (if HandData.detected handData
        then minCameraDistance ps
             + HandData.distance handData
               * (maxCameraDistance ps - minCameraDistance ps)
        else 10)
  /\ targetRotation ps'
     = (if HandData.detected handData
        then HandData.rotation handData * PI / 180 else 0)
  /\ camera ps' = camera ps /\ particleGroup ps' = particleGroup ps
  /\ cameraDistance ps' = cameraDistance ps
  /\ sphereRotation ps' = sphereRotation ps
  /\ objects ps' = objects ps /\ time ps' = time ps.
Proof.
  destruct handData as [[|] d r]; destruct ps; repeat split; reflexivity.
Qed.

(** C7.  In every state the application can reach, a detected hand with
    signal distance [d] and rotation [r] sets the target camera distance to
    3 + d (15 - 3) and the target rotation to r PI / 180 and takes control;
    distance 0 gives 3, distance 0.5 gives 9 and distance 1 gives 15; and
    this is what a detection callback that reports a hand does with the
    distance and rotation it reports. *)
Theorem hand_target_mapping :
  (forall (es : list App.Event) (d r : R),
     let ps := App.particleSystem (App.run App.init es) in
     let ps' := snd (updateFromHand {| HandData.detected := true;
                                       HandData.distance := d;
                                       HandData.rotation := r |} ps) in
     targetCameraDistance ps' = 3 + d * (15 - 3)
     /\ targetRotation ps' = r * (PI / 180)
     /\ isHandControlled ps' = true)
  /\ (forall (es : list App.Event) (r : R),
        let ps := App.particleSystem (App.run App.init es) in
        let target d :=
          targetCameraDistance
            (snd (updateFromHand {| HandData.detected := true;
                                    HandData.distance := d;
                                    HandData.rotation := r |} ps)) in
        target 0 = 3 /\ target 0.5 = 9 /\ target 1 = 15)
  /\ (forall (es : list App.Event) (results : Results),
        let app := App.run App.init es in
        let ps' := App.particleSystem (App.step app (App.Detection results)) in
        match fst (HandTracker.onResults results (App.handTracker app)) with
        | Normal data =>
            if HandData.detected data
            then targetCameraDistance ps' = 3 + HandData.distance data * (15 - 3)
                 /\ targetRotation ps' = HandData.rotation data * (PI / 180)
            else targetCameraDistance ps' = 10 /\ targetRotation ps' = 0
        | Throw _ => ps' = App.particleSystem app
        end).
Proof.
  assert (H : forall es handData,
             let ps := App.particleSystem (App.run App.init es) in
             let ps' := snd (updateFromHand handData ps) in
             if HandData.detected handData
             then targetCameraDistance ps'
                  = 3 + HandData.distance handData * (15 - 3)
                  /\ targetRotation ps' = HandData.rotation handData * (PI / 180)
                  /\ isHandControlled ps' = true
             else targetCameraDistance ps' = 10 /\ targetRotation ps' = 0).
  { intros es handData ps ps'.
    destruct (run_scene es) as (_ & _ & _ & _ & _ & _ & _ & Hmin & Hmax & _).
    fold ps in Hmin, Hmax.
    destruct (updateFromHand_fields handData ps) as (Eh & Ed & Er & _).
    fold ps' in Eh, Ed, Er; rewrite Ed, Er, Eh, Hmin, Hmax.
    destruct (HandData.detected handData); repeat split; lra. }
  split; [| split].
  - intros es d r; apply (H es (HandData.mk true d r)).
  - intros es r ps target; subst target; cbv beta.
    pose proof (H es (HandData.mk true 0 r)) as (H0 & _).
    pose proof (H es (HandData.mk true 0.5 r)) as (H5 & _).
    pose proof (H es (HandData.mk true 1 r)) as (H1 & _).
    cbn [HandData.distance] in H0, H5, H1; fold ps in H0, H5, H1.
    repeat split; lra.
  - intros es results app ps'; subst ps'; rewrite step_particles.
    destruct (fst (HandTracker.onResults results (App.handTracker app)))
      as [data | e]; [| reflexivity].
    pose proof (H es data) as Hd; cbv zeta in Hd; fold app in Hd.
    destruct (HandData.detected data); [destruct Hd as (? & ? & _); split |];
      assumption.
Qed.

(** C10.  A frame rendered under hand control writes the eased camera
    distance to the camera's z and the eased rotation to the group's y
    rotation and leaves the rest of the camera and of the group as they
    were: the camera's x, y and aim, the group's scale and its rotation
    about x.  Through any stretch of events that keeps hand control
    (frames, detections with landmarks, skeleton toggles) that idle pose
    stays what it was when the stretch began. *)
Theorem hand_driven_frame_keeps_idle_pose
    (app : App.t) (c : Camera.t) (g : Group.t) (es : list App.Event) :
  camera (App.particleSystem app) = Some c ->
  particleGroup (App.particleSystem app) = Some g ->
  isHandControlled (App.particleSystem app) = true ->
  Forall keepsHand es ->
  let ps := App.particleSystem app in
  let ps1 := App.particleSystem (App.step app App.AnimationFrame) in
  let psn := App.particleSystem (App.run app es) in
  cameraDistance ps1
  = cameraDistance ps + (targetCameraDistance ps - cameraDistance ps) * 0.08
  /\ sphereRotation ps1
     = sphereRotation ps + (targetRotation ps - sphereRotation ps) * 0.08
  /\ camera ps1
     = Some {| Camera.position :=
                 {| Vec3.x := Vec3.x (Camera.position c);
                    Vec3.y := Vec3.y (Camera.position c);
                    Vec3.z := cameraDistance ps1 |};
               Camera.aim := Camera.aim c |}
  /\ particleGroup ps1
     = Some {| Group.scale := Group.scale g;
               Group.rotation :=
                 {| Vec3.x := Vec3.x (Group.rotation g);
                    Vec3.y := sphereRotation ps1;
                    Vec3.z := Vec3.z (Group.rotation g) |};
               Group.children := Group.children g |}
  /\ isHandControlled psn = true
  /\ idlePose psn = idlePose ps
  /\ idlePose ps
     = (Some (Vec3.x (Camera.position c), Vec3.y (Camera.position c),
              Camera.aim c),
        Some (Group.scale g, Vec3.x (Group.rotation g),
              Vec3.z (Group.rotation g), Group.children g)).
Proof.
  intros Hc Hg Hh Hes ps ps1 psn.
  destruct (tick_hand ps c g Hc Hg Hh) as (E1 & E2 & E3 & E4 & _).
  assert (Hn : isHandControlled psn = true /\ idlePose psn = idlePose ps).
  { subst psn ps; clear - Hh Hes.
    induction es as [| e es IH] using rev_ind.
    - split; [exact Hh | reflexivity].
    - apply Forall_app in Hes as [Hes He]; inversion He as [| ? ? Hke _]; subst.
      destruct (IH Hes) as [IHh IHp].
      rewrite run_snoc.
      destruct (step_keepsHand (App.run app es) e Hke IHh) as [Sh Sp].
      split; [exact Sh | rewrite Sp; exact IHp]. }
  destruct Hn as [Hn1 Hn2].
  repeat split; try assumption.
  subst ps; unfold idlePose; rewrite Hc, Hg; reflexivity.
Qed.

End Scene.

(** ** Hand loss and the layer animations *)

Section Loss.

Import ParticleSystem.

Lemma init_fields :
  let ps := App.particleSystem App.init in
  cameraDistance ps = 10 /\ sphereRotation ps = 0
  /\ isHandControlled ps = false /\ time ps = 0 + 0.01
  /\ option_map (fun p => Vec3.z (Points.rotation p)) (nth_error (objects ps) 0)
     = Some (0 + 0.0003).
Proof.
  cbv zeta.
  repeat match goal with |- _ /\ _ => split end; vm_compute; reflexivity.
Qed.

Lemma near_reported :
  HandTracker.onResults (Frames.detection Frames.near) HandTracker.constructor
  = (Normal {| HandData.detected := true;
               HandData.distance := 0.35;
               HandData.rotation := 27 |},
     HandTracker.mk (HandState.mk true 0.35 27 (Some Frames.near))
                    0.35 27 0.3 false).
Proof.
  unfold Frames.detection.
  rewrite (onResults_hand Frames.near [] Frames.centre (Landmark.mk 0.5 0.6)
             (Landmark.mk 0.5 0.95) HandTracker.constructor
             eq_refl eq_refl eq_refl).
  cbn [HandTracker.showSkeleton HandTracker.constructor andb
       HandTracker.smoothedDistance HandTracker.smoothedRotation
       HandTracker.smoothingFactor Landmark.x Landmark.y Frames.centre].
  rewrite near_handSize, normalizeDistance_close by lra.
  rewrite rawAngle_up by lra. rewrite normalizeAngle_id by lra.
  rewrite wrapDelta_id by lra.
  replace (0.5 + (0 - 0.5) * 0.3) with 0.35 by lra.
  replace (0 + (90 - 0) * 0.3) with 27 by lra.
  reflexivity.
Qed.

(** The state when the hand has just been lost (no frame rendered since),
    from any state with the tracker and the eased values as constructed. *)
Lemma loss_state_from (app0 : App.t) (c0 : Camera.t) (g0 : Group.t) :
  App.handTracker app0 = HandTracker.constructor ->
  camera (App.particleSystem app0) = Some c0 ->
  particleGroup (App.particleSystem app0) = Some g0 ->
  minCameraDistance (App.particleSystem app0) = 3 ->
  maxCameraDistance (App.particleSystem app0) = 15 ->
  cameraDistance (App.particleSystem app0) = 10 ->
  sphereRotation (App.particleSystem app0) = 0 ->
  let app1 := App.step app0 (App.Detection (Frames.detection Frames.near)) in
  let app2 := App.step app1 App.AnimationFrame in
  let app3 := App.step app2 (App.Detection Frames.absent) in
  let before := App.particleSystem app2 in
  let ps := App.particleSystem app3 in
  cameraDistance before = 9.776
  /\ isHandControlled before = true
  /\ isHandControlled ps = false
  /\ targetCameraDistance ps = 10 /\ targetRotation ps = 0
  /\ cameraDistance ps = 9.776
  /\ option_map (fun c => Vec3.z (Camera.position c)) (camera ps) = Some 9.776
  /\ sphereRotation ps = 0.012 * PI
  /\ option_map (fun g => Vec3.y (Group.rotation g)) (particleGroup ps)
     = Some (0.012 * PI).
Proof.
  intros Ht0 Hc0 Hg0 Hmin Hmax Hcd0 Hsr0 app1 app2 app3 before ps.
  (* the hand arrives *)
  assert (E1 : App.particleSystem app1
               = snd (updateFromHand (HandData.mk true 0.35 27)
                        (App.particleSystem app0))).
  { unfold app1; rewrite step_particles, Ht0, near_reported; reflexivity. }
  destruct (updateFromHand_fields (HandData.mk true 0.35 27)
              (App.particleSystem app0))
    as (Fh & Ft & Fr & Fc & Fg & Fd & Fs & _).
  rewrite <- E1 in Fh, Ft, Fr, Fc, Fg, Fd, Fs.
  cbn [HandData.detected HandData.distance HandData.rotation] in Fh, Ft, Fr.
  rewrite Hc0 in Fc; rewrite Hg0 in Fg.
  (* one frame under hand control *)
  pose proof (step_particles_frame app1) as E2; fold app2 in E2.
  destruct (tick_hand (App.particleSystem app1) c0 g0 Fc Fg Fh)
    as (Td & Ts & Tc & Tg & _).
  destruct (tick_keeps (App.particleSystem app1))
    as (_ & _ & _ & _ & _ & _ & Th).
  rewrite <- E2 in Td, Ts, Tc, Tg, Th; fold before in Td, Ts, Tc, Tg, Th.
  rewrite Ft, Fd, Hmin, Hmax, Hcd0 in Td.
  rewrite Fr, Fs, Hsr0 in Ts.
  assert (Vd : cameraDistance before = 9.776) by (rewrite Td; lra).
  assert (Vs : sphereRotation before = 0.012 * PI) by (rewrite Ts; lra).
  (* the hand is lost *)
  assert (E3 : ps
               = snd (updateFromHand
                        (HandData.mk false
                           (HandTracker.smoothedDistance (App.handTracker app2))
                           (HandTracker.smoothedRotation (App.handTracker app2)))
                        before)).
  { unfold ps, app3; rewrite step_particles.
    rewrite (onResults_no_hand Frames.absent) by (left; reflexivity).
    reflexivity. }
  destruct (updateFromHand_fields
              (HandData.mk false
                 (HandTracker.smoothedDistance (App.handTracker app2))
                 (HandTracker.smoothedRotation (App.handTracker app2)))
              before)
    as (Lh & Lt & Lr & Lc & Lg & Ld & Ls & _).
  rewrite <- E3 in Lh, Lt, Lr, Lc, Lg, Ld, Ls.
  cbn [HandData.detected] in Lh, Lt, Lr.
  repeat match goal with |- _ /\ _ => split end.
  - exact Vd.
  - rewrite Th; exact Fh.
  - exact Lh.
  - exact Lt.
  - exact Lr.
  - rewrite Ld; exact Vd.
  - rewrite Lc, Tc; cbn [option_map Camera.position Vec3.set_z Vec3.z].
    rewrite Vd; reflexivity.
  - rewrite Ls; exact Vs.
  - rewrite Lg, Tg; cbn [option_map Group.rotation Vec3.set_y Vec3.y].
    rewrite Vs; reflexivity.
Qed.

Lemma run_three (app : App.t) (e1 e2 e3 : App.Event) :
  App.run app [e1; e2; e3] = App.step (App.step (App.step app e1) e2) e3.
Proof. reflexivity. Qed.

Lemma run_two (app : App.t) (e1 e2 : App.Event) :
  App.run app [e1; e2] = App.step (App.step app e1) e2.
Proof. reflexivity. Qed.

Lemma init_tracker : App.handTracker App.init = HandTracker.constructor.
Proof. reflexivity. Qed.

Lemma loss_state :
  let before :=
    App.particleSystem
      (App.run App.init
         [App.Detection (Frames.detection Frames.near); App.AnimationFrame]) in
  let ps := App.particleSystem (App.run App.init (handThenLoss 0)) in
  cameraDistance before = 9.776
  /\ isHandControlled before = true
  /\ isHandControlled ps = false
  /\ targetCameraDistance ps = 10 /\ targetRotation ps = 0
  /\ cameraDistance ps = 9.776
  /\ option_map (fun c => Vec3.z (Camera.position c)) (camera ps) = Some 9.776
  /\ sphereRotation ps = 0.012 * PI
  /\ option_map (fun g => Vec3.y (Group.rotation g)) (particleGroup ps)
     = Some (0.012 * PI).
Proof.
  destruct (run_scene [])
    as ([c0 Hc0] & [g0 Hg0] & _ & _ & _ & _ & _ & Hmin & Hmax & _).
  destruct init_fields as (Hcd0 & Hsr0 & _).
  unfold handThenLoss; cbn [repeat app].
  rewrite run_three, run_two.
  exact (loss_state_from App.init c0 g0 init_tracker Hc0 Hg0 Hmin Hmax
           Hcd0 Hsr0).
Qed.

Lemma handThenLoss_succ (n : nat) :
  handThenLoss (S n) = handThenLoss n ++ [App.AnimationFrame].
Proof.
  unfold handThenLoss; rewrite <- app_assoc; f_equal.
  simpl repeat; apply repeat_cons.
Qed.

(** C4 (the code departs from the claim).  The claim is that after the hand
    is lost every frame eases the camera distance and the rotation toward
    the defaults 10 and 0 with factor 0.08.  The flag and the targets do
    change at once, but easing is done only under hand control: with the
    hand lost after one hand-driven frame, the camera distance and the
    camera's z stay at 9.776 through every number [n] of further frames,
    the eased rotation stays at 0.012 PI, and the group's y rotation grows
    by 0.002 a frame instead of going to 0. *)
Theorem hand_loss_does_not_ease (n : nat) :
  let before :=
    App.particleSystem
      (App.run App.init
         [App.Detection (Frames.detection Frames.near); App.AnimationFrame]) in
  let ps := App.particleSystem (App.run App.init (handThenLoss n)) in
  isHandControlled before = true
  /\ cameraDistance before = 9.776
  /\ isHandControlled ps = false
  /\ targetCameraDistance ps = 10 /\ targetRotation ps = 0
  /\ cameraDistance ps = 9.776
  /\ option_map (fun c => Vec3.z (Camera.position c)) (camera ps) = Some 9.776
  /\ sphereRotation ps = 0.012 * PI
  /\ option_map (fun g => Vec3.y (Group.rotation g)) (particleGroup ps)
     = Some (0.012 * PI + 0.002 * INR n)
  /\ cameraDistance ps
     <> cameraDistance before + (10 - cameraDistance before) * 0.08.
Proof.
  intros before ps.
  destruct loss_state as (Bd & Bh & L0).
  fold before in Bd, Bh.
  assert (H : isHandControlled ps = false
              /\ targetCameraDistance ps = 10 /\ targetRotation ps = 0
              /\ cameraDistance ps = 9.776
              /\ option_map (fun c => Vec3.z (Camera.position c)) (camera ps)
                 = Some 9.776
              /\ sphereRotation ps = 0.012 * PI
              /\ option_map (fun g => Vec3.y (Group.rotation g))
                   (particleGroup ps)
                 = Some (0.012 * PI + 0.002 * INR n)).
  { subst ps; clear before Bd Bh.
    induction n as [| n IH].
    - destruct L0 as (Lh & Lt & Lr & Ld & Lz & Ls & Ly).
      repeat split; try assumption.
      rewrite Ly; f_equal; simpl INR; lra.
    - destruct IH as (Ih & It & Ir & Id & Iz & Is & Iy).
      rewrite handThenLoss_succ, run_snoc, step_particles_frame.
      set (p := App.particleSystem (App.run App.init (handThenLoss n))) in *.
      destruct (tick_keeps p) as (_ & _ & _ & _ & Kt & Kr & Kh).
      destruct (tick_idle p Ih) as (Td & Ts & Tz & Ty).
      rewrite Kt, Kr, Kh, Td, Ts, Tz, Ty.
      repeat split; try assumption.
      destruct (particleGroup p) as [g |]; [| discriminate].
      cbn [option_map] in Iy |- *; injection Iy as Iy.
      rewrite Iy, S_INR; f_equal; lra. }
  destruct H as (Hh & Ht & Hr & Hd & Hz & Hs & Hy).
  repeat split; try assumption.
  rewrite Hd, Bd; lra.
Qed.

(** C5 (the code departs from the claim).  The claim is that on every frame
    a second layer's opacity and a third layer's particle size pulse.
    [createParticleLayer] stores the layers as [outerShell], [middleShell]
    and [innerShell], while the animation reads [middleRing] and
    [innerCore], which stay [null]: in every state the application can
    reach, the material of the middle layer still has opacity 0.9 and that
    of the inner layer size 0.08, as created, whereas at the first frame
    (time 0.01) the pulses would have given other values.  Only the outer
    shell, found under [outerShell], turns. *)
Theorem layer_pulses_never_run :
  (forall es : list App.Event,
     let ps := App.particleSystem (App.run App.init es) in
     refs ps "middleRing"%string = None
     /\ refs ps "innerCore"%string = None
     /\ refs ps "middleShell"%string = Some 1%nat
     /\ refs ps "innerShell"%string = Some 2%nat
     /\ option_map Points.material (nth_error (objects ps) 1)
        = Some {| Material.size := 0.05; Material.opacity := 0.9 |}
     /\ option_map Points.material (nth_error (objects ps) 2)
        = Some {| Material.size := 0.08; Material.opacity := 1.0 |})
  /\ time (App.particleSystem App.init) = 0 + 0.01
  /\ LayerConfig.opacity (Layers.middle (layers (App.particleSystem App.init)))
     * (1 + sin ((0 + 0.01) * 3) * 0.05) <> 0.9
  /\ LayerConfig.size (Layers.inner (layers (App.particleSystem App.init)))
     * (1 + sin ((0 + 0.01) * 4) * 0.1) <> 0.08
  /\ option_map (fun p => Vec3.z (Points.rotation p))
       (nth_error (objects (App.particleSystem App.init)) 0)
     = Some (0 + 0.0003).
Proof.
  split; [| split; [| split; [| split]]].
  - intros es ps.
    destruct (run_scene es)
      as (_ & _ & _ & H2 & H3 & H4 & H5 & _ & _ & _ & [o Ho]).
    fold ps in H2, H3, H4, H5, Ho; rewrite Ho.
    repeat split; assumption || reflexivity.
  - apply init_fields.
  - destruct (run_scene []) as (_ & _ & _ & _ & _ & _ & _ & _ & _ & Hl & _).
    change (App.run App.init []) with App.init in Hl; rewrite Hl.
    cbn [layers constructor Layers.middle LayerConfig.opacity].
    pose proof PI2_1.
    assert (0 < sin ((0 + 0.01) * 3)) by (apply sin_gt_0; lra).
    lra.
  - destruct (run_scene []) as (_ & _ & _ & _ & _ & _ & _ & _ & _ & Hl & _).
    change (App.run App.init []) with App.init in Hl; rewrite Hl.
    cbn [layers constructor Layers.inner LayerConfig.size].
    pose proof PI2_1.
    assert (0 < sin ((0 + 0.01) * 4)) by (apply sin_gt_0; lra).
    lra.
  - apply init_fields.
Qed.

Lemma hand_driven_frame_keeps_idle_pose_witness :
  let app :=
    App.step App.init (App.Detection (Frames.detection Frames.near)) in
  let es :=
    [App.AnimationFrame; App.Detection (Frames.detection Frames.up);
     App.SkeletonToggle true; App.AnimationFrame] in
  isHandControlled (App.particleSystem (App.run app es)) = true
  /\ idlePose (App.particleSystem (App.run app es))
     = idlePose (App.particleSystem app).
Proof.
  intros app es.
  assert (Hc : { c | camera (App.particleSystem app) = Some c })
    by (eexists; vm_compute; reflexivity).
  assert (Hg : { g | particleGroup (App.particleSystem app) = Some g })
    by (eexists; vm_compute; reflexivity).
  destruct Hc as [c Hc]; destruct Hg as [g Hg].
  assert (Hh0 : isHandControlled (App.particleSystem app) = true)
    by (vm_compute; reflexivity).
  assert (Hes : Forall keepsHand es).
  { repeat constructor; intros [H | H]; discriminate H. }
  destruct (hand_driven_frame_keeps_idle_pose app c g es Hc Hg Hh0 Hes)
    as (_ & _ & _ & _ & Hh & Hp & _).
  split; [exact Hh | exact Hp].
Defined.

End Loss.

(** ** More on the tracker: ranges, bounds and convergence *)

Section TrackerRanges.

Import HandTracker.

Lemma normalized_rawAngle_range (dx dy : R) :
  -180 <= normalizeAngle (rawAngle dx dy) < 180.
Proof. apply normalizeAngle_range, rawAngle_range. Qed.

(** X1.  The raw angle of line 218 lies in [-180, 180) whatever the two
    landmarks, 180 itself being sent to -180; a middle-finger base that
    coincides with the wrist gives 0. *)
Theorem normalized_angle_range (dx dy : R) :
  -180 <= normalizeAngle (rawAngle dx dy) < 180
  /\ normalizeAngle 180 = -180
  /\ normalizeAngle (rawAngle 0 0) = 0.
Proof.
  split; [apply normalized_rawAngle_range |].
  split; [apply normalizeAngle_180 |].
  assert (E : rawAngle 0 0 = 0).
  { unfold rawAngle, JS.atan2.
    destruct (Rlt_dec 0 0); [lra |].
    lra. }
  rewrite E; apply normalizeAngle_id; lra.
Qed.

(** X2.  A larger hand never gives a larger distance, and a hand of size 0 (the
    fingertip on the wrist) gives distance 1. *)
Theorem larger_hand_is_closer (h1 h2 : R) :
  h1 <= h2 ->
  normalizeDistance h2 <= normalizeDistance h1
  /\ normalizeDistance (handSize 0 0) = 1.
Proof.
  intros H; split.
  - unfold normalizeDistance.
    apply Rle_max_compat_l, Rle_min_compat_l; lra.
  - rewrite handSize_vertical by lra.
    apply normalizeDistance_far; lra.
Qed.

Lemma larger_hand_is_closer_witness :
  normalizeDistance 0.3 <= normalizeDistance 0.2.
Proof. apply (larger_hand_is_closer 0.2 0.3); lra. Defined.

(** The rotation a callback leaves: the one it found, or that one moved by
    0.3 of the corrected difference to a raw angle in [-180, 180). *)
Lemma onResults_rotation (results : Results) (this : t) :
  smoothedRotation (snd (onResults results this)) = smoothedRotation this
  \/ exists a,
       -180 <= a < 180
       /\ smoothedRotation (snd (onResults results this))
          = smoothedRotation this
            + wrapDelta a (smoothedRotation this) * smoothingFactor this.
Proof.
  destruct results as [[[| l rest] |]].
  - left; rewrite onResults_no_hand by (right; reflexivity); reflexivity.
  - destruct (Nat.ltb_spec (List.length l) 13) as [Hlt | Hge].
    + left; rewrite onResults_short by exact Hlt; reflexivity.
    + destruct (nth_error l 0) as [w |] eqn:H0;
        [| apply nth_error_None in H0; lia].
      destruct (nth_error l 9) as [b |] eqn:H9;
        [| apply nth_error_None in H9; lia].
      destruct (nth_error l 12) as [m |] eqn:H12;
        [| apply nth_error_None in H12; lia].
      right.
      exists (normalizeAngle (rawAngle (Landmark.x b - Landmark.x w)
                                       (Landmark.y b - Landmark.y w))).
      split; [apply normalized_rawAngle_range |].
      pose proof (onResults_hand l rest w b m this H0 H9 H12) as E.
      cbv zeta in E; rewrite E.
      destruct (showSkeleton this && (List.length l <? 21)%nat); reflexivity.
  - left; rewrite onResults_no_hand by (left; reflexivity); reflexivity.
Qed.

(** One smoothing step keeps the state within a turn and a half of zero. *)
Lemma smoothing_step_bound (a s : R) :
  -180 <= a < 180 -> -540 < s < 540 ->
  -540 < s + wrapDelta a s * 0.3 < 540.
Proof.
  intros Ha Hs.
  destruct (Rlt_dec 180 (a - s)) as [Hg | Hg].
  - rewrite wrapDelta_minus by exact Hg; lra.
  - destruct (Rlt_dec (a - s) (-180)) as [Hl | Hl].
    + rewrite wrapDelta_plus by exact Hl; lra.
    + rewrite wrapDelta_id by lra; lra.
Qed.

Lemma run_rotation_bound (es : list App.Event) :
  -540 < smoothedRotation (App.handTracker (App.run App.init es)) < 540.
Proof.
  induction es as [| e es IH] using rev_ind.
  - simpl; lra.
  - rewrite run_snoc.
    destruct e as [results | | show]; try exact IH.
    rewrite step_tracker.
    destruct (run_TrackerInv es) as (Hf & _).
    destruct (onResults_rotation results (App.handTracker (App.run App.init es)))
      as [E | (a & Ha & E)]; rewrite E; [exact IH |].
    rewrite Hf; apply smoothing_step_bound; assumption.
Qed.

(** X3.  With numbers read as reals (every landmark coordinate a real
    number, so no NaN), in every state the application can reach the
    smoothed rotation, its copy in [handState] and the rotation of every
    [handUpdate] event lie strictly between -540 and 540 degrees. *)
Theorem smoothed_rotation_within_turn_and_half
    (es : list App.Event) (results : Results) :
  let this := App.handTracker (App.run App.init es) in
  -540 < smoothedRotation this < 540
  /\ -540 < HandData.rotation (getHandState this) < 540
  /\ match fst (onResults results this) with
     | Normal data => -540 < HandData.rotation data < 540
     | Throw _ => True
     end.
Proof.
  intros this.
  pose proof (run_rotation_bound es) as H; fold this in H.
  repeat split; try apply H.
  pose proof (onResults_reports results this) as Hr.
  destruct (fst (onResults results this)) as [data | e]; [| exact I].
  destruct Hr as [_ Hr]; rewrite Hr.
  pose proof (run_rotation_bound (es ++ [App.Detection results])) as H'.
  rewrite run_snoc, step_tracker in H'; exact H'.
Qed.

(** X4.  What [getHandState] returns after a callback that emitted an event is
    the payload of that event; after a callback that threw on a hand of
    fewer than 13 landmarks it is what it was before. *)
Theorem getHandState_matches_event (results : Results) (this : t) :
  match fst (onResults results this) with
  | Normal data => getHandState (snd (onResults results this)) = data
  | Throw _ =>
      forall l rest,
        multiHandLandmarks results = Some (l :: rest) ->
        (List.length l < 13)%nat ->
        getHandState (snd (onResults results this)) = getHandState this
  end.
Proof.
  destruct (onResults_cases results this)
    as [[_ E] | [(l & rest & Hm & Hl & E) | (l & rest & d & r & Hm & Hl & _ & E & Hd)]].
  - rewrite E; reflexivity.
  - rewrite E; simpl; intros; reflexivity.
  - destruct (fst (onResults results this)) as [data | e].
    + rewrite E, Hd; reflexivity.
    + intros l' rest' Hm' Hl'; rewrite Hm in Hm'.
      injection Hm' as -> ->; lia.
Qed.

Lemma getHandState_matches_event_witness :
  getHandState
    (snd (onResults {| multiHandLandmarks := Some [Frames.short12] |}
            constructor))
  = getHandState constructor.
Proof.
  pose proof (getHandState_matches_event
                {| multiHandLandmarks := Some [Frames.short12] |} constructor)
    as H.
  rewrite (onResults_short Frames.short12 [] constructor) in H
    by (simpl; lia).
  rewrite (onResults_short Frames.short12 [] constructor) by (simpl; lia).
  apply (H Frames.short12 []); [reflexivity | simpl; lia].
Defined.

(** X5.  Drawing the skeleton completes exactly for a hand of at least 21
    landmarks, throws a TypeError for any shorter one, and in both cases
    leaves the tracker as it was. *)
Theorem drawHandSkeleton_needs_21 (l : Landmarks) (this : t) :
  drawHandSkeleton l this
  = (if (List.length l <? 21)%nat then Throw TypeError else Normal tt, this).
Proof.
  destruct (Nat.ltb_spec (List.length l) 21) as [H | H].
  - apply drawHandSkeleton_throw; exact H.
  - apply drawHandSkeleton_ok; exact H.
Qed.

End TrackerRanges.

Section Convergence.

Import HandTracker.

Lemma repeat_snoc {A} (a : A) (n : nat) : repeat a (S n) = repeat a n ++ [a].
Proof. simpl; apply repeat_cons. Qed.

Lemma pow07_range (n : nat) : 0 < 0.7 ^ n <= 1.
Proof.
  induction n as [| n IH]; simpl; lra.
Qed.

(** X6.  Held still, a hand pulls the smoothed distance toward its raw distance
    geometrically: after [n] more frames of the same wrist and fingertip the
    remaining difference is 0.7^n of what it was, so the smoothed value
    approaches the raw one from its own side and never passes it. *)
Theorem held_hand_distance_converges
    (frames : list Landmarks) (w b m : Landmark.t) (n : nat) :
  let raw := normalizeDistance (handSize (Landmark.x m - Landmark.x w)
                                         (Landmark.y m - Landmark.y w)) in
  let s0 := smoothedDistance (conditioned frames) in
  smoothedDistance (conditioned (frames ++ repeat (Frames.hand w b m) n))
  = raw + (s0 - raw) * 0.7 ^ n.
Proof.
  intros raw s0.
  induction n as [| n IH].
  - simpl repeat; rewrite app_nil_r; fold s0; simpl; lra.
  - rewrite repeat_snoc, app_assoc.
    destruct (conditioned_hand (frames ++ repeat (Frames.hand w b m) n) w b m)
      as (E & _).
    rewrite E, IH; fold raw; simpl pow; lra.
Qed.

(** X7.  Held at a fixed angle, a hand pulls the smoothed rotation toward the
    angle congruent to its raw angle that the first correction picks, as
    long as the state starts within a turn and a half of the raw angle:
    after [n] frames the remaining difference is 0.7^n of what it was. *)
Theorem held_hand_rotation_converges
    (frames : list Landmarks) (w b m : Landmark.t) (n : nat) :
  let angle := normalizeAngle (rawAngle (Landmark.x b - Landmark.x w)
                                        (Landmark.y b - Landmark.y w)) in
  let s0 := smoothedRotation (conditioned frames) in
  let goal := s0 + wrapDelta angle s0 in
  -540 <= angle - s0 <= 540 ->
  smoothedRotation (conditioned (frames ++ repeat (Frames.hand w b m) n))
  = goal + (s0 - goal) * 0.7 ^ n
  /\ -180 <= goal - s0 <= 180
  /\ (goal = angle \/ goal = angle - 360 \/ goal = angle + 360).
Proof.
  intros angle s0 goal Hs.
  assert (Hg : -180 <= goal - s0 <= 180).
  { unfold goal.
    pose proof (wrapDelta_bound angle s0 Hs); lra. }
  assert (Hk : (goal = angle /\ -180 <= angle - s0 <= 180)
               \/ (goal = angle - 360 /\ 180 < angle - s0)
               \/ (goal = angle + 360 /\ angle - s0 < -180)).
  { unfold goal.
    destruct (Rlt_dec 180 (angle - s0)) as [H1 | H1].
    - right; left; rewrite wrapDelta_minus by exact H1; lra.
    - destruct (Rlt_dec (angle - s0) (-180)) as [H2 | H2].
      + right; right; rewrite wrapDelta_plus by exact H2; lra.
      + left; rewrite wrapDelta_id by lra; lra. }
  split; [| split; [exact Hg | tauto]].
  induction n as [| n IH].
  - simpl repeat; rewrite app_nil_r; fold s0; simpl; lra.
  - rewrite repeat_snoc, app_assoc.
    destruct (conditioned_hand (frames ++ repeat (Frames.hand w b m) n) w b m)
      as (_ & E & _).
    rewrite E; fold angle; rewrite IH.
    pose proof (pow07_range n) as Hp.
    set (p := 0.7 ^ n) in *.
    set (s := goal + (s0 - goal) * p).
    assert (Hd : -180 <= goal - s <= 180) by (unfold s; nra).
    assert (W : wrapDelta angle s = goal - s).
    { destruct Hk as [[Ek Hr] | [[Ek Hr] | [Ek Hr]]].
      - rewrite wrapDelta_id; lra.
      - rewrite wrapDelta_minus; [lra |].
        unfold s; nra.
      - rewrite wrapDelta_plus; [lra |].
        unfold s; nra. }
    rewrite W; unfold s; simpl pow; fold p; lra.
Qed.

Lemma held_hand_rotation_converges_witness :
  smoothedRotation (conditioned ([] ++ repeat Frames.up 2))
  = (0 + wrapDelta (normalizeAngle (rawAngle (0.5 - 0.5) (0.6 - 0.5))) 0)
    + (0 - (0 + wrapDelta (normalizeAngle (rawAngle (0.5 - 0.5) (0.6 - 0.5))) 0))
      * 0.7 ^ 2.
Proof.
  apply (held_hand_rotation_converges [] Frames.centre (Landmark.mk 0.5 0.6)
           (Landmark.mk 0.5 0.75) 2).
  rewrite conditioned_nil; simpl.
  rewrite rawAngle_up by lra. rewrite normalizeAngle_id by lra. lra.
Defined.

End Convergence.

(** ** More on the scene: ranges, clocks and easing *)

Section SceneRanges.

Import ParticleSystem.

Lemma init_autoBreathTime :
  autoBreathTime (App.particleSystem App.init) = 0 + 0.01.
Proof. vm_compute; reflexivity. Qed.

(** What a detection callback hands to the particle system. *)
Lemma reported_signal_range (es : list App.Event) (results : Results) :
  match fst (HandTracker.onResults results
               (App.handTracker (App.run App.init es))) with
  | Normal data =>
      0 <= HandData.distance data <= 1
      /\ -540 < HandData.rotation data < 540
  | Throw _ => True
  end.
Proof.
  pose proof (onResults_reports results
                (App.handTracker (App.run App.init es))) as Hr.
  destruct (fst (HandTracker.onResults results
                   (App.handTracker (App.run App.init es))))
    as [data | e]; [| exact I].
  destruct Hr as [Hd Hr]; rewrite Hd, Hr.
  pose proof (run_TrackerInv (es ++ [App.Detection results])) as (_ & Hi & _).
  pose proof (run_rotation_bound (es ++ [App.Detection results])) as Hb.
  rewrite run_snoc, step_tracker in Hi, Hb.
  split; assumption.
Qed.

Lemma run_ranges (es : list App.Event) :
  let ps := App.particleSystem (App.run App.init es) in
  3 <= targetCameraDistance ps <= 15
  /\ 3 <= cameraDistance ps <= 15
  /\ option_map (fun c => Vec3.z (Camera.position c)) (camera ps)
     = Some (cameraDistance ps)
  /\ - (3 * PI) < targetRotation ps < 3 * PI
  /\ - (3 * PI) < sphereRotation ps < 3 * PI.
Proof.
  pose proof PI_RGT_0 as Hpi.
  induction es as [| e es IH] using rev_ind.
  - cbv zeta; change (App.run App.init []) with App.init.
    assert (E : targetCameraDistance (App.particleSystem App.init) = 10
                /\ cameraDistance (App.particleSystem App.init) = 10
                /\ option_map (fun c => Vec3.z (Camera.position c))
                     (camera (App.particleSystem App.init)) = Some 10
                /\ targetRotation (App.particleSystem App.init) = 0
                /\ sphereRotation (App.particleSystem App.init) = 0).
    { repeat match goal with |- _ /\ _ => split end; vm_compute; reflexivity. }
    destruct E as (E1 & E2 & E3 & E4 & E5).
    rewrite E1, E2, E3, E4, E5.
    repeat match goal with |- _ /\ _ => split end; try reflexivity; lra.
  - cbv zeta in IH |- *; rewrite run_snoc.
    destruct IH as (It & Id & Iz & Ir & Is).
    destruct (run_scene es)
      as ([c Hc] & [g Hg] & _ & _ & _ & _ & _ & Hmin & Hmax & _).
    set (app := App.run App.init es) in *.
    destruct e as [results | | show].
    + rewrite step_particles.
      pose proof (reported_signal_range es results) as Hs; fold app in Hs.
      destruct (fst (HandTracker.onResults results (App.handTracker app)))
        as [data | e];
        [| exact (conj It (conj Id (conj Iz (conj Ir Is))))].
      destruct (updateFromHand_fields data (App.particleSystem app))
        as (_ & Et & Er & Ec & _ & Ed & Es & _).
      rewrite Et, Er, Ec, Ed, Es, Hmin, Hmax.
      destruct Hs as [Hd Hr].
      destruct (HandData.detected data);
        repeat match goal with |- _ /\ _ => split end;
        try assumption; try lra; try nra.
    + rewrite step_particles_frame.
      destruct (tick_keeps (App.particleSystem app))
        as (_ & _ & _ & _ & Kt & Kr & _).
      rewrite Kt, Kr.
      destruct (isHandControlled (App.particleSystem app)) eqn:Hh.
      * destruct (tick_hand (App.particleSystem app) c g Hc Hg Hh)
          as (Td & Ts & Tc & _).
        rewrite Tc; cbn [option_map Camera.position Vec3.set_z Vec3.z].
        rewrite Td, Ts.
        repeat match goal with |- _ /\ _ => split end;
          try reflexivity; lra.
      * destruct (tick_idle (App.particleSystem app) Hh) as (Td & Ts & Tz & _).
        rewrite Td, Ts, Tz.
        exact (conj It (conj Id (conj Iz (conj Ir Is)))).
    + exact (conj It (conj Id (conj Iz (conj Ir Is)))).
Qed.

(** X8.  With numbers read as reals (every landmark coordinate a real
    number, so no NaN), in every state the application can reach the
    target camera distance and the eased camera distance lie in [3, 15]
    and the camera's z is the eased distance. *)
Theorem camera_distance_in_range (es : list App.Event) :
  let ps := App.particleSystem (App.run App.init es) in
  3 <= targetCameraDistance ps <= 15
  /\ 3 <= cameraDistance ps <= 15
  /\ option_map (fun c => Vec3.z (Camera.position c)) (camera ps)
     = Some (cameraDistance ps).
Proof.
  intros ps; destruct (run_ranges es) as (H1 & H2 & H3 & _).
  split; [exact H1 | split; [exact H2 | exact H3]].
Qed.

(** X9.  With numbers read as reals (every landmark coordinate a real
    number, so no NaN), in every state the application can reach the
    target rotation and the eased rotation lie strictly within one and a
    half turns (3 PI radians) of zero. *)
Theorem rotation_targets_bounded (es : list App.Event) :
  let ps := App.particleSystem (App.run App.init es) in
  - (3 * PI) < targetRotation ps < 3 * PI
  /\ - (3 * PI) < sphereRotation ps < 3 * PI.
Proof.
  intros ps; destruct (run_ranges es) as (_ & _ & _ & H4 & H5).
  split; [exact H4 | exact H5].
Qed.

(** X10.  In every state the application can reach the camera and the group
    exist, so a frame completes; in any state a frame throws a TypeError
    exactly when one of them is missing. *)
Theorem frames_complete_after_init :
  (forall ps : t,
     fst (animateParticles ps)
     = match camera ps, particleGroup ps with
       | Some _, Some _ => Normal tt
       | _, _ => Throw TypeError
       end)
  /\ (forall es : list App.Event,
        fst (render (App.particleSystem (App.run App.init es))) = Normal tt)
  /\ fst (render constructor) = Throw TypeError.
Proof.
  split; [exact tick_completion |].
  split.
  - intros es; unfold render; rewrite tick_completion.
    destruct (run_scene es) as ([c Hc] & [g Hg] & _).
    rewrite Hc, Hg; reflexivity.
  - unfold render; rewrite tick_completion; reflexivity.
Qed.

(** X11.  The idle pose stays within its amplitudes in every state the
    application can reach: the camera's x in [-1, 1] and y in [1.5, 2.5],
    a uniform group scale in [0.95, 1.05] and the group's rotation about x
    in [-0.1, 0.1]. *)
Theorem idle_pose_bounded (es : list App.Event) :
  let ps := App.particleSystem (App.run App.init es) in
  exists c g b,
    camera ps = Some c /\ particleGroup ps = Some g
    /\ -1 <= Vec3.x (Camera.position c) <= 1
    /\ 1.5 <= Vec3.y (Camera.position c) <= 2.5
    /\ Group.scale g = Vec3.mk b b b /\ 0.95 <= b <= 1.05
    /\ -0.1 <= Vec3.x (Group.rotation g) <= 0.1.
Proof.
  assert (Hidle : forall ps c g,
            camera ps = Some c -> particleGroup ps = Some g ->
            isHandControlled ps = false ->
            exists c' g' b,
              camera (snd (animateParticles ps)) = Some c'
              /\ particleGroup (snd (animateParticles ps)) = Some g'
              /\ -1 <= Vec3.x (Camera.position c') <= 1
              /\ 1.5 <= Vec3.y (Camera.position c') <= 2.5
              /\ Group.scale g' = Vec3.mk b b b /\ 0.95 <= b <= 1.05
              /\ -0.1 <= Vec3.x (Group.rotation g') <= 0.1).
  { intros ps c g Hc Hg Hh.
    destruct (tick_idle_pose ps c g Hc Hg Hh) as (Ec & Eg).
    set (clock := autoBreathTime ps + 0.01) in *.
    pose proof (SIN_bound (clock * 0.3)).
    pose proof (COS_bound (clock * 0.2)).
    pose proof (SIN_bound (clock * 2)).
    pose proof (SIN_bound (clock * 0.5)).
    eexists _, _, (1 + sin (clock * 2) * 0.05).
    split; [exact Ec |]. split; [exact Eg |].
    cbn [Camera.position Vec3.x Vec3.y Group.scale Group.rotation].
    repeat split; lra. }
  induction es as [| e es IH] using rev_ind.
  - cbv zeta; change (App.run App.init []) with App.init.
    apply (Hidle (snd (init constructor))
             {| Camera.position := Vec3.mk 0 2 10;
                Camera.aim := (Vec3.mk 0 2 10, Vec3.zero) |}
             {| Group.scale := Vec3.one; Group.rotation := Vec3.zero;
                Group.children := [0; 1; 2]%nat |});
      vm_compute; reflexivity.
  - cbv zeta in IH |- *; rewrite run_snoc.
    destruct IH as (c & g & b & Hc & Hg & Hx & Hy & Hs & Hb & Hr).
    set (app := App.run App.init es) in *.
    destruct e as [results | | show].
    + rewrite step_particles.
      destruct (fst (HandTracker.onResults results (App.handTracker app)))
        as [data | e].
      * destruct (updateFromHand_fields data (App.particleSystem app))
          as (_ & _ & _ & Ec & Eg & _).
        rewrite Ec, Eg; exists c, g, b; repeat split; assumption || apply Hx
          || apply Hy || apply Hb || apply Hr.
      * exists c, g, b; repeat split; assumption || apply Hx
          || apply Hy || apply Hb || apply Hr.
    + rewrite step_particles_frame.
      destruct (isHandControlled (App.particleSystem app)) eqn:Hh.
      * destruct (tick_hand (App.particleSystem app) c g Hc Hg Hh)
          as (_ & _ & Tc & Tg & _).
        rewrite Tc, Tg.
        eexists _, _, b; split; [reflexivity |]. split; [reflexivity |].
        cbn [Camera.position Vec3.set_z Vec3.set_y Vec3.x Vec3.y
             Group.scale Group.rotation].
        repeat split; assumption || apply Hx || apply Hy || apply Hb
          || apply Hr.
      * apply (Hidle _ c g Hc Hg Hh).
    + exists c, g, b; repeat split; assumption || apply Hx
        || apply Hy || apply Hb || apply Hr.
Qed.

Lemma frameCount_snoc (es : list App.Event) (e : App.Event) :
  frameCount (es ++ [e])
  = (frameCount es + (if isAnimationFrame e then 1 else 0))%nat.
Proof.
  unfold frameCount; rewrite filter_app, length_app; simpl.
  destruct (isAnimationFrame e); reflexivity.
Qed.

(** X12.  The clocks count frames: after a run with [k] animation frames (and
    the one rendered by [init]) [time] is 0.01 (k + 1) and the outer shell
    has turned by 0.0003 (k + 1) about z, whatever the detection results in
    between; the idle clock lies between 0 and [time]. *)
Theorem clocks_count_frames (es : list App.Event) :
  let ps := App.particleSystem (App.run App.init es) in
  time ps = 0.01 * INR (S (frameCount es))
  /\ 0 <= autoBreathTime ps <= time ps
  /\ option_map (fun p => Vec3.z (Points.rotation p)) (nth_error (objects ps) 0)
     = Some (0.0003 * INR (S (frameCount es))).
Proof.
  induction es as [| e es IH] using rev_ind.
  - cbv zeta; change (App.run App.init []) with App.init.
    destruct init_fields as (_ & _ & _ & Et & Eo).
    rewrite Et, Eo, init_autoBreathTime.
    change (frameCount []) with 0%nat; simpl INR.
    repeat split; try lra. f_equal; lra.
  - cbv zeta in IH |- *; rewrite run_snoc, frameCount_snoc.
    destruct IH as (It & Ia & Io).
    destruct (run_scene es)
      as ([c Hc] & [g Hg] & H1 & H2 & H3 & _ & _ & _ & _ & _ & [o Ho]).
    set (app := App.run App.init es) in *.
    destruct e as [results | | show].
    + cbn [isAnimationFrame]; rewrite step_particles, Nat.add_0_r.
      destruct (fst (HandTracker.onResults results (App.handTracker app)))
        as [data | e].
      * destruct (updateFromHand_fields data (App.particleSystem app))
          as (_ & _ & _ & _ & _ & _ & _ & Eo & Et).
        destruct data as [det d r]; destruct (App.particleSystem app);
          destruct det; exact (conj It (conj Ia Io)).
      * exact (conj It (conj Ia Io)).
    + rewrite step_particles_frame.
      destruct (tick_clocks (App.particleSystem app)) as (Kt & Ka).
      rewrite Kt, Ka, (tick_objects _ c g _ _ _ Hc Hg H1 H2 H3 Ho).
      assert (Io' : Vec3.z (Points.rotation o)
                    = 0.0003 * INR (S (frameCount es))).
      { rewrite Ho in Io; cbn [nth_error option_map] in Io; congruence. }
      cbn [nth_error option_map Points.rotation Points.set_rotation
           Vec3.set_z Vec3.z].
      rewrite It, Io'.
      cbn [isAnimationFrame].
      replace (frameCount es + 1)%nat with (S (frameCount es)) by lia.
      rewrite (S_INR (S (frameCount es))).
      rewrite It in Ia.
      destruct (isHandControlled (App.particleSystem app));
        repeat match goal with |- _ /\ _ => split end;
        try lra; f_equal; lra.
    + cbn [isAnimationFrame]; rewrite Nat.add_0_r.
      exact (conj It (conj Ia Io)).
Qed.

End SceneRanges.

(** ** Easing under hand control and the authority flag *)

Section Easing.

Import ParticleSystem.

Lemma pow092_range (n : nat) : 0 < 0.92 ^ n <= 1.
Proof. induction n as [| n IH]; simpl; lra. Qed.

(** X13.  Under hand control with the targets left alone, [n] frames take the
    eased camera distance and the eased rotation 0.92^n of the way that was
    left to their targets, so they approach the targets from their own side
    and never pass them; after at least one frame the camera's z and the
    group's y rotation are those eased values. *)
Theorem easing_converges
    (app : App.t) (c : Camera.t) (g : Group.t) (n : nat) :
  camera (App.particleSystem app) = Some c ->
  particleGroup (App.particleSystem app) = Some g ->
  isHandControlled (App.particleSystem app) = true ->
  let ps := App.particleSystem app in
  let ps' :=
    App.particleSystem (App.run app (repeat App.AnimationFrame (S n))) in
  cameraDistance ps'
  = targetCameraDistance ps
    + (cameraDistance ps - targetCameraDistance ps) * 0.92 ^ S n
  /\ sphereRotation ps'
     = targetRotation ps + (sphereRotation ps - targetRotation ps) * 0.92 ^ S n
  /\ option_map (fun c => Vec3.z (Camera.position c)) (camera ps')
     = Some (cameraDistance ps')
  /\ option_map (fun g => Vec3.y (Group.rotation g)) (particleGroup ps')
     = Some (sphereRotation ps')
  /\ targetCameraDistance ps' = targetCameraDistance ps
  /\ targetRotation ps' = targetRotation ps
  /\ isHandControlled ps' = true.
Proof.
  intros Hc Hg Hh ps ps'; subst ps' ps.
  set (ps := App.particleSystem app) in *.
  assert (Hstep : forall q cq gq,
            camera q = Some cq -> particleGroup q = Some gq ->
            isHandControlled q = true ->
            let q' := snd (animateParticles q) in
            cameraDistance q'
            = targetCameraDistance q
              + (cameraDistance q - targetCameraDistance q) * 0.92
            /\ sphereRotation q'
               = targetRotation q + (sphereRotation q - targetRotation q) * 0.92
            /\ (exists c', camera q' = Some c'
                           /\ Vec3.z (Camera.position c') = cameraDistance q')
            /\ (exists g', particleGroup q' = Some g'
                           /\ Vec3.y (Group.rotation g') = sphereRotation q')
            /\ targetCameraDistance q' = targetCameraDistance q
            /\ targetRotation q' = targetRotation q
            /\ isHandControlled q' = true).
  { intros q cq gq Hcq Hgq Hhq q'.
    destruct (tick_hand q cq gq Hcq Hgq Hhq) as (Td & Ts & Tc & Tg & _).
    destruct (tick_keeps q) as (_ & _ & _ & _ & Kt & Kr & Kh).
    fold q' in Td, Ts, Tc, Tg, Kt, Kr, Kh.
    repeat match goal with |- _ /\ _ => split end.
    - rewrite Td; lra.
    - rewrite Ts; lra.
    - eexists; split; [exact Tc | reflexivity].
    - eexists; split; [exact Tg | reflexivity].
    - exact Kt.
    - exact Kr.
    - rewrite Kh; exact Hhq. }
  assert (Hn : let q := App.particleSystem
                          (App.run app (repeat App.AnimationFrame (S n))) in
               cameraDistance q
               = targetCameraDistance ps
                 + (cameraDistance ps - targetCameraDistance ps) * 0.92 ^ S n
               /\ sphereRotation q
                  = targetRotation ps
                    + (sphereRotation ps - targetRotation ps) * 0.92 ^ S n
               /\ (exists c', camera q = Some c'
                              /\ Vec3.z (Camera.position c') = cameraDistance q)
               /\ (exists g', particleGroup q = Some g'
                              /\ Vec3.y (Group.rotation g') = sphereRotation q)
               /\ targetCameraDistance q = targetCameraDistance ps
               /\ targetRotation q = targetRotation ps
               /\ isHandControlled q = true).
  { induction n as [| n IH].
    - change (App.run app (repeat App.AnimationFrame 1))
        with (App.step app App.AnimationFrame).
      cbv zeta; rewrite step_particles_frame; fold ps.
      destruct (Hstep ps c g Hc Hg Hh) as (A & B & C & D & E & F & G).
      repeat match goal with |- _ /\ _ => split end; try assumption.
      + rewrite A; simpl pow; lra.
      + rewrite B; simpl pow; lra.
    - cbv zeta in IH |- *.
      rewrite (repeat_snoc App.AnimationFrame (S n)), run_snoc,
        step_particles_frame.
      destruct IH as (Id & Is & [c' [Ic _]] & [g' [Ig _]] & It & Ir & Ih).
      destruct (Hstep _ c' g' Ic Ig Ih) as (A & B & C & D & E & F & G).
      repeat match goal with |- _ /\ _ => split end; try assumption.
      + rewrite A, It, Id.
        change (0.92 ^ S (S n)) with (0.92 * 0.92 ^ S n); lra.
      + rewrite B, Ir, Is.
        change (0.92 ^ S (S n)) with (0.92 * 0.92 ^ S n); lra.
      + rewrite E; exact It.
      + rewrite F; exact Ir. }
  cbv zeta in Hn.
  destruct Hn as (A & B & [c' [Ec Ez]] & [g' [Eg Ey]] & E & F & G).
  repeat match goal with |- _ /\ _ => split end; try assumption.
  - rewrite Ec; cbn [option_map]; rewrite Ez; reflexivity.
  - rewrite Eg; cbn [option_map]; rewrite Ey; reflexivity.
Qed.

Lemma easing_converges_witness :
  let app :=
    App.step App.init (App.Detection (Frames.detection Frames.near)) in
  let ps := App.particleSystem app in
  cameraDistance
    (App.particleSystem (App.run app (repeat App.AnimationFrame 3)))
  = targetCameraDistance ps
    + (cameraDistance ps - targetCameraDistance ps) * 0.92 ^ 3.
Proof.
  intros app ps.
  assert (Hc : { c | camera (App.particleSystem app) = Some c })
    by (eexists; vm_compute; reflexivity).
  assert (Hg : { g | particleGroup (App.particleSystem app) = Some g })
    by (eexists; vm_compute; reflexivity).
  destruct Hc as [c Hc]; destruct Hg as [g Hg].
  assert (Hh : isHandControlled (App.particleSystem app) = true)
    by (vm_compute; reflexivity).
  exact (proj1 (easing_converges app c g 2 Hc Hg Hh)).
Defined.

End Easing.

Section Authority.

Import ParticleSystem.



End Authority.

(** ** Creating the layers *)

Section Layers.

Import ParticleSystem.

Lemma shell_name_is_not_middleRing (s : string) :
  (s ++ "Shell")%string <> "middleRing"%string.
Proof.
  intros H.
  do 11 (destruct s as [| ? s]; [discriminate H |]).
  discriminate H.
Qed.

Lemma shell_name_is_not_innerCore (s : string) :
  (s ++ "Shell")%string <> "innerCore"%string.
Proof.
  intros H.
  do 10 (destruct s as [| ? s]; [discriminate H |]).
  discriminate H.
Qed.

Lemma lookup_other (layerName : string) (l : Layers.t) :
  layerName <> "outer"%string -> layerName <> "middle"%string ->
  layerName <> "inner"%string -> Layers.lookup layerName l = None.
Proof.
  intros H1 H2 H3; unfold Layers.lookup.
  apply String.eqb_neq in H1, H2, H3.
  rewrite H1, H2, H3; reflexivity.
Qed.

(** X15.  [createParticleLayer] for a name that is none of outer, middle and
    inner, and that [this.layers] does not inherit from [Object.prototype],
    throws a TypeError and changes nothing.  For any name whatever, it
    leaves the properties [middleRing] and [innerCore] as they were: the
    property it writes is the name followed by "Shell". *)
Theorem createParticleLayer_names (layerName : string) (ps : t) :
  (layerName <> "outer"%string -> layerName <> "middle"%string ->
   layerName <> "inner"%string ->
   ObjectPrototype.inherited layerName = false ->
   createParticleLayer layerName ps = (Throw TypeError, ps))
  /\ refs (snd (createParticleLayer layerName ps)) "middleRing"%string
     = refs ps "middleRing"%string
  /\ refs (snd (createParticleLayer layerName ps)) "innerCore"%string
     = refs ps "innerCore"%string.
Proof.
  split.
  - intros H1 H2 H3 _; unfold createParticleLayer, bind, get.
    rewrite (lookup_other layerName (layers ps) H1 H2 H3); reflexivity.
  - pose proof (shell_name_is_not_middleRing layerName) as Hm.
    pose proof (shell_name_is_not_innerCore layerName) as Hi.
    apply not_eq_sym in Hm, Hi.
    apply String.eqb_neq in Hm, Hi.
    unfold createParticleLayer, bind, get.
    destruct (Layers.lookup layerName (layers ps)) as [config |];
      [| split; reflexivity].
    destruct ps as [cam [grp |] objs rf lay ? ? ? ? ? ? ? ? ?];
      cbv beta iota zeta delta
        [modify onGroup snd fst refs set_refs set_objects objects
         particleGroup set_particleGroup];
      rewrite Hm, Hi; split; reflexivity.
Qed.

Lemma createParticleLayer_names_witness :
  createParticleLayer "core" constructor = (Throw TypeError, constructor).
Proof.
  apply (createParticleLayer_names "core" constructor);
    [discriminate | discriminate | discriminate | reflexivity].
Defined.

(** X16.  For one of the three names and with the group in place,
    [createParticleLayer] completes, appends one object with the size and
    opacity of the layer's settings and no rotation, makes it the last
    child of the group, and stores it under the name followed by "Shell";
    without the group it throws after the object and the property have been
    stored. *)
Theorem createParticleLayer_adds_layer
    (layerName : string) (config : LayerConfig.t) (ps : t) :
  Layers.lookup layerName (layers ps) = Some config ->
  let ps' := snd (createParticleLayer layerName ps) in
  objects ps'
  = objects ps
    ++ [ {| Points.rotation := Vec3.zero;
            Points.material :=
              {| Material.size := LayerConfig.size config;
                 Material.opacity := LayerConfig.opacity config |} |} ]
  /\ refs ps' (layerName ++ "Shell")%string = Some (List.length (objects ps))
  /\ particleGroup ps'
     = option_map (Group.add (List.length (objects ps))) (particleGroup ps)
  /\ fst (createParticleLayer layerName ps)
     = match particleGroup ps with
       | Some _ => Normal tt
       | None => Throw TypeError
       end.
Proof.
  intros Hl ps'; subst ps'.
  unfold createParticleLayer, bind, get; rewrite Hl.
  destruct ps as [cam [grp |] objs rf lay ? ? ? ? ? ? ? ? ?];
    cbv beta iota zeta delta
      [modify onGroup snd fst refs set_refs set_objects objects
       particleGroup set_particleGroup option_map];
    rewrite String.eqb_refl; repeat split; reflexivity.
Qed.

Lemma createParticleLayer_adds_layer_witness :
  refs (snd (createParticleLayer "middle" constructor)) "middleShell"%string
  = Some 0%nat.
Proof.
  exact (proj1 (proj2 (createParticleLayer_adds_layer "middle"
                         (Layers.middle (layers constructor)) constructor
                         eq_refl))).
Defined.

End Layers.

Section Geometry.

Lemma particle_length (layerName : string) (config : LayerConfig.t)
    (u1 u2 u3 : R) :
  List.length (Geometry.particle layerName config u1 u2 u3) = 3%nat.
Proof. reflexivity. Qed.

Lemma flat_map_length3 {A B} (f : A -> list B) (l : list A) :
  (forall a, List.length (f a) = 3%nat) ->
  List.length (flat_map f l) = (3 * List.length l)%nat.
Proof.
  intros Hf; induction l as [| a l IH]; [reflexivity |].
  simpl flat_map; rewrite length_app, Hf, IH; simpl List.length; lia.
Qed.

Lemma flat_map_nth3 {A B} (f : A -> list B) (l : list A) (i k : nat)
    (a : A) :
  (forall a, List.length (f a) = 3%nat) ->
  nth_error l i = Some a -> (k < 3)%nat ->
  nth_error (flat_map f l) (3 * i + k) = nth_error (f a) k.
Proof.
  intros Hf; revert i.
  induction l as [| b l IH]; intros i Hi Hk.
  - destruct i; discriminate Hi.
  - destruct i as [| i].
    + injection Hi as ->; simpl flat_map.
      rewrite nth_error_app1 by (rewrite Hf; lia); reflexivity.
    + simpl in Hi; simpl flat_map.
      rewrite nth_error_app2 by (rewrite Hf; lia).
      rewrite Hf.
      replace (3 * S i + k - 3)%nat with (3 * i + k)%nat by lia.
      apply IH; assumption.
Qed.

(** One particle lies on the flattened sphere of its radius: with [f] the
    vertical flattening factor (0.3 for the middle layer, 0.5 otherwise),
    x^2 + (y / f)^2 + z^2 = radius^2, whatever the random values. *)
Lemma particle_on_shell (layerName : string) (config : LayerConfig.t)
    (u1 u2 u3 : R) :
  let f := Geometry.verticalFlatten layerName in
  let radius := Geometry.particleRadius config u3 in
  forall x y z,
    Geometry.particle layerName config u1 u2 u3 = [x; y; z] ->
    x * x + (y / f) * (y / f) + z * z = radius * radius.
Proof.
  intros f radius x y z E.
  unfold Geometry.particle in E; fold f radius in E.
  injection E as <- <- <-.
  assert (Hf : f <> 0).
  { unfold f, Geometry.verticalFlatten.
    destruct (String.eqb layerName "middle"); lra. }
  set (phi := acos (2 * u2 - 1)).
  set (theta := u1 * PI * 2).
  pose proof (sin2_cos2 phi) as Hp; unfold Rsqr in Hp.
  pose proof (sin2_cos2 theta) as Ht; unfold Rsqr in Ht.
  replace (radius * sin phi * sin theta * f / f)
    with (radius * sin phi * sin theta) by (field; exact Hf).
  replace (radius * sin phi * cos theta * (radius * sin phi * cos theta)
           + radius * sin phi * sin theta * (radius * sin phi * sin theta)
           + radius * cos phi * (radius * cos phi))
    with (radius * radius
          * (sin phi * sin phi * (sin theta * sin theta + cos theta * cos theta)
             + cos phi * cos phi)) by ring.
  rewrite Ht, Rmult_1_r, Hp; ring.
Qed.

(** X17.  The position buffer has three entries per particle, and with random
    values in [0, 1) and a layer radius that is not negative, the i-th
    particle (entries 3i, 3i+1, 3i+2) lies on the sphere of a radius
    between 0.8 and 1.2 times the layer radius, flattened along y: x^2 +
    (y / f)^2 + z^2 = radius^2, its height z is radius (2 u - 1) for the
    second random value u, and so |z| <= radius and |y| <= f radius. *)
Theorem layer_particles_in_flattened_shell
    (layerName : string) (config : LayerConfig.t) (random : nat -> R)
    (i : nat) :
  (forall n, 0 <= random n < 1) ->
  0 <= LayerConfig.radius config ->
  (i < LayerConfig.count config)%nat ->
  let buffer := Geometry.positions layerName config random in
  let f := Geometry.verticalFlatten layerName in
  let radius := Geometry.particleRadius config (random (3 * i + 2)%nat) in
  List.length buffer = (3 * LayerConfig.count config)%nat
  /\ 0.8 * LayerConfig.radius config <= radius
     <= 1.2 * LayerConfig.radius config
  /\ exists x y z,
       nth_error buffer (3 * i) = Some x
       /\ nth_error buffer (3 * i + 1) = Some y
       /\ nth_error buffer (3 * i + 2) = Some z
       /\ x * x + (y / f) * (y / f) + z * z = radius * radius
       /\ z = radius * (2 * random (3 * i + 1)%nat - 1)
       /\ z * z <= radius * radius
       /\ y * y <= (f * radius) * (f * radius).
Proof.
  intros Hr HR Hi buffer f radius.
  assert (Hlen : forall a,
            List.length
              (Geometry.particle layerName config
                 (random (3 * a)%nat) (random (3 * a + 1)%nat)
                 (random (3 * a + 2)%nat)) = 3%nat) by (intros; reflexivity).
  split.
  { unfold buffer, Geometry.positions.
    rewrite (flat_map_length3 _ _ Hlen), length_seq; reflexivity. }
  split.
  { unfold radius, Geometry.particleRadius.
    pose proof (Hr (3 * i + 2)%nat); nra. }
  assert (Hseq : nth_error (seq 0 (LayerConfig.count config)) i = Some i).
  { rewrite nth_error_seq.
    destruct (Nat.ltb_spec i (LayerConfig.count config)); [reflexivity | lia]. }
  pose proof (flat_map_nth3 _ _ i 0 i Hlen Hseq ltac:(lia)) as E0.
  pose proof (flat_map_nth3 _ _ i 1 i Hlen Hseq ltac:(lia)) as E1.
  pose proof (flat_map_nth3 _ _ i 2 i Hlen Hseq ltac:(lia)) as E2.
  rewrite Nat.add_0_r in E0.
  fold (Geometry.positions layerName config random) in E0, E1, E2.
  fold buffer in E0, E1, E2.
  pose proof (particle_on_shell layerName config (random (3 * i)%nat)
                (random (3 * i + 1)%nat) (random (3 * i + 2)%nat)) as Hs.
  cbv zeta in Hs; fold f radius in Hs.
  unfold Geometry.particle in E0, E1, E2, Hs; fold f radius in E0, E1, E2, Hs.
  cbn [nth_error] in E0, E1, E2.
  set (phi := acos (2 * random (3 * i + 1)%nat - 1)) in *.
  set (theta := random (3 * i)%nat * PI * 2) in *.
  exists (radius * sin phi * cos theta),
         (radius * sin phi * sin theta * f),
         (radius * cos phi).
  split; [exact E0 |]. split; [exact E1 |]. split; [exact E2 |].
  specialize (Hs _ _ _ eq_refl).
  assert (Hc : cos phi = 2 * random (3 * i + 1)%nat - 1).
  { unfold phi; apply cos_acos.
    pose proof (Hr (3 * i + 1)%nat); lra. }
  pose proof (sin2_cos2 phi) as Hp; unfold Rsqr in Hp.
  pose proof (sin2_cos2 theta) as Ht; unfold Rsqr in Ht.
  split; [exact Hs |].
  split; [rewrite Hc; reflexivity |].
  split.
  - assert (cos phi * cos phi <= 1) by nra.
    assert (0 <= radius * radius) by nra.
    replace (radius * cos phi * (radius * cos phi))
      with (radius * radius * (cos phi * cos phi)) by ring.
    nra.
  - assert (Hss : sin phi * sin phi * (sin theta * sin theta) <= 1).
    { assert (0 <= sin phi * sin phi <= 1) by nra.
      assert (0 <= sin theta * sin theta <= 1) by nra.
      nra. }
    assert (0 <= (f * radius) * (f * radius)) by nra.
    replace (radius * sin phi * sin theta * f
             * (radius * sin phi * sin theta * f))
      with ((f * radius) * (f * radius)
            * (sin phi * sin phi * (sin theta * sin theta))) by ring.
    nra.
Qed.

Lemma layer_particles_in_flattened_shell_witness :
  List.length
    (Geometry.positions "middle"
       (Layers.middle (ParticleSystem.layers ParticleSystem.constructor))
       (fun _ => 0.5))
  = (3 * 3000)%nat.
Proof.
  refine (proj1 (layer_particles_in_flattened_shell "middle"
                   (Layers.middle
                      (ParticleSystem.layers ParticleSystem.constructor))
                   (fun _ => 0.5) 0 _ _ _)).
  - intros _; lra.
  - simpl; lra.
  - simpl; lia.
Defined.

End Geometry.

(** ** The listeners of the tracker *)

Section ClassLists.

Lemma contains_app (t : string) (l l' : list string) :
  DOM.contains t (l ++ l') = DOM.contains t l || DOM.contains t l'.
Proof. unfold DOM.contains; apply existsb_app. Qed.

Lemma contains_add (t u : string) (l : list string) :
  DOM.contains t (DOM.add u l) = String.eqb t u || DOM.contains t l.
Proof.
  unfold DOM.add.
  destruct (DOM.contains u l) eqn:Hu.
  - destruct (String.eqb_spec t u) as [-> | _]; [rewrite Hu |]; reflexivity.
  - rewrite contains_app; unfold DOM.contains at 2; simpl.
    rewrite orb_false_r; apply orb_comm.
Qed.

Lemma contains_remove (t u : string) (l : list string) :
  DOM.contains t (DOM.remove u l) = negb (String.eqb t u) && DOM.contains t l.
Proof.
  unfold DOM.contains, DOM.remove.
  induction l as [| a l IH]; simpl.
  - rewrite andb_false_r; reflexivity.
  - destruct (String.eqb_spec u a) as [-> | Hua]; simpl.
    + rewrite IH.
      destruct (String.eqb_spec t a); simpl; reflexivity.
    + rewrite IH.
      destruct (String.eqb_spec t a) as [-> | Hta]; simpl; [| reflexivity].
      destruct (String.eqb_spec a u) as [-> | _]; [contradiction |].
      reflexivity.
Qed.

Lemma add_idempotent (t : string) (l : list string) :
  DOM.add t (DOM.add t l) = DOM.add t l.
Proof.
  unfold DOM.add at 1.
  rewrite contains_add, String.eqb_refl; reflexivity.
Qed.

Lemma remove_idempotent (t : string) (l : list string) :
  DOM.remove t (DOM.remove t l) = DOM.remove t l.
Proof.
  unfold DOM.remove.
  induction l as [| a l IH]; simpl; [reflexivity |].
  destruct (String.eqb t a) eqn:E; simpl; [exact IH |].
  rewrite E; simpl; rewrite IH; reflexivity.
Qed.

Lemma toggle_toggleForce (u : string) (l : list string) :
  DOM.toggle u l
  = (negb (DOM.contains u l), DOM.toggleForce u (negb (DOM.contains u l)) l).
Proof.
  unfold DOM.toggle, DOM.toggleForce.
  destruct (DOM.contains u l); reflexivity.
Qed.

Lemma contains_toggleForce (t u : string) (force : bool) (l : list string) :
  DOM.contains t (DOM.toggleForce u force l)
  = (if String.eqb t u then force else DOM.contains t l).
Proof.
  unfold DOM.toggleForce.
  destruct force; rewrite ?contains_remove, ?contains_add;
    destruct (String.eqb t u); reflexivity.
Qed.

End ClassLists.

Section EmitterFacts.

Import Page.

Lemma bind_ret_unit {S : Type} (c : M S unit) (s : S) :
  bind c (fun _ => ret tt) s = c s.
Proof.
  unfold bind, ret.
  destruct (c s) as [[[] | e] s']; reflexivity.
Qed.

Lemma on_registers (event : string) (callback : Listener) (p : t) :
  Emitter.inherited event = false ->
  Emitter.on event callback p
  = (Normal tt,
     set_listeners
       (fun name =>
          if String.eqb name event
          then Some (match listeners p event with
                     | Some callbacks => callbacks
                     | None => []
                     end ++ [callback])
          else listeners p name) p).
Proof. intros H; unfold Emitter.on; rewrite H; reflexivity. Qed.

Lemma emit_runs (event : string) (payload : Payload) (p : t) :
  Emitter.inherited event = false ->
  Emitter.emit event payload p
  = match listeners p event with
    | Some callbacks => Emitter.forEach callbacks payload p
    | None => (Normal tt, p)
    end.
Proof.
  intros H; unfold Emitter.emit; rewrite H.
  unfold bind, get; destruct (listeners p event); reflexivity.
Qed.

(** X18.  Listeners are called in the order of their registration, each with the
    payload of the event, and only for the event they were registered for:
    after [on(event, c1)] and [on(event, c2)] on an event without
    listeners, [emit(event, payload)] is [c1(payload)] followed by
    [c2(payload)], a throw of [c1] keeping [c2] from being called; the
    listeners of other events are untouched, and emitting an event without
    listeners does nothing. *)
Theorem listeners_run_in_registration_order
    (event : string) (c1 c2 : Listener) (payload : Payload) (p : t) :
  Emitter.inherited event = false ->
  listeners p event = None ->
  let registration :=
    bind (Emitter.on event c1) (fun _ => Emitter.on event c2) p in
  let p' := snd registration in
  fst registration = Normal tt
  /\ listeners p' event = Some [c1; c2]
  /\ (forall other, other <> event -> listeners p' other = listeners p other)
  /\ Emitter.emit event payload p'
     = bind (Emitter.call c1 payload) (fun _ => Emitter.call c2 payload) p'
  /\ (forall other,
        Emitter.inherited other = false -> listeners p' other = None ->
        Emitter.emit other payload p' = (Normal tt, p')).
Proof.
  intros Hi Hn registration p'.
  assert (E : fst registration = Normal tt
              /\ forall name,
                   listeners p' name
                   = if String.eqb name event then Some [c1; c2]
                     else listeners p name).
  { unfold p', registration, bind.
    rewrite (on_registers event c1 p Hi), on_registers by exact Hi.
    destruct p; cbn [fst snd listeners set_listeners] in *.
    rewrite String.eqb_refl, Hn.
    split; [reflexivity |].
    intros name; destruct (String.eqb name event); reflexivity. }
  destruct E as [E0 E].
  assert (L : listeners p' event = Some [c1; c2]).
  { rewrite E, String.eqb_refl; reflexivity. }
  repeat match goal with |- _ /\ _ => split end.
  - exact E0.
  - exact L.
  - intros other Ho; rewrite E.
    apply String.eqb_neq in Ho; rewrite Ho; reflexivity.
  - rewrite emit_runs by exact Hi; rewrite L.
    cbn [Emitter.forEach]; unfold bind at 1.
    unfold bind at 2.
    destruct (Emitter.call c1 payload p') as [[[] | e] q]; [| reflexivity].
    apply bind_ret_unit.
  - intros other Ho Hl; rewrite emit_runs by exact Ho; rewrite Hl; reflexivity.
Qed.

Lemma listeners_run_in_registration_order_witness :
  listeners
    (snd (bind (Emitter.on "cameraReady" OnCameraReady)
            (fun _ => Emitter.on "cameraReady" OnCameraError)
            (load (Elements.mk None None None None None None None None None
                     None))))
    "cameraReady"%string
  = Some [OnCameraReady; OnCameraError].
Proof.
  refine (proj1 (proj2 (listeners_run_in_registration_order "cameraReady"
                          OnCameraReady OnCameraError (Ready true)
                          (load (Elements.mk None None None None None None
                                   None None None None)) _ _)));
    reflexivity.
Defined.

(** X19.  Under a name inherited from [Object.prototype] ("constructor",
    "toString", ...) both [on] and [emit] throw a TypeError and change
    nothing; the three events of the application are not such names.
    After [destroy] emitting any other event calls nobody. *)
Theorem inherited_names_and_destroy
    (event : string) (callback : Listener) (payload : Payload) (p : t) :
  (if Emitter.inherited event
   then Emitter.on event callback p = (Throw TypeError, p)
        /\ Emitter.emit event payload p = (Throw TypeError, p)
   else Emitter.emit event payload (snd (Emitter.destroy p))
        = (Normal tt, snd (Emitter.destroy p))
        /\ fst (Emitter.on event callback p) = Normal tt)
  /\ Emitter.inherited "constructor" = true
  /\ Emitter.inherited "toString" = true
  /\ Emitter.inherited "cameraReady" = false
  /\ Emitter.inherited "cameraError" = false
  /\ Emitter.inherited "handUpdate" = false.
Proof.
  split; [| repeat split; reflexivity].
  destruct (Emitter.inherited event) eqn:H.
  - unfold Emitter.on, Emitter.emit; rewrite H; split; reflexivity.
  - split.
    + rewrite emit_runs by exact H; destruct p; reflexivity.
    + rewrite on_registers by exact H; reflexivity.
Qed.

End EmitterFacts.

(** ** The user interface *)

Section InterfaceFacts.

Import Page.

(** Unfolds the monad and the controller down to the class lists and
    texts. *)
Ltac ui_red :=
  cbv beta iota zeta delta
    [UIController.updateHandStatus UIController.updateStatus
     UIController.classes UIController.buttonText
     UIController.toggleCameraFeed UIController.toggleSkeleton
     UIController.trackerToggleSkeleton UIController.hideLoading
     UIController.loadingTimeout UIController.showError UIController.init
     element onDocument bind get modify ret throw fst snd
     set_document set_app set_timers set_alerts set_cached
     set_onSkeletonToggle
     app document cached onSkeletonToggle listeners alerts timers
     isInitialized looping
     Elements.instructions Elements.handStatus Elements.statusDot
     Elements.statusText Elements.cameraFeed Elements.toggleCameraBtn
     Elements.skeletonCanvas Elements.toggleSkeletonBtn
     Elements.loadingScreen Elements.container
     Elements.set_instructions Elements.set_statusDot
     Elements.set_statusText Elements.set_cameraFeed
     Elements.set_toggleCameraBtn Elements.set_skeletonCanvas
     Elements.set_toggleSkeletonBtn Elements.set_loadingScreen
     Elements.set_container
     Button.element Button.btnText Button.set_element Button.set_btnText
     DOM.setText DOM.onClasses DOM.classList DOM.textContent
     option_map].

Lemma updateHandStatus_throws (detected : bool) (p : t) :
  element Elements.statusText p = None ->
  UIController.updateHandStatus detected p = (Throw TypeError, p).
Proof.
  intros H; unfold UIController.updateHandStatus, bind, get.
  rewrite H; reflexivity.
Qed.

Lemma updateHandStatus_keeps (detected : bool) (p : t) (e : DOM.Element) :
  element Elements.statusText p = Some e ->
  let run := UIController.updateHandStatus detected p in
  fst run = Normal tt
  /\ app (snd run) = app p
  /\ listeners (snd run) = listeners p.
Proof.
  destruct p as [a [i hs sd st cf tcb sc tsb ls ct] c o l al ti ii lo].
  unfold element; cbn [cached document Elements.statusText].
  destruct c; [| discriminate]; intros ->.
  destruct detected, sd, i, ct; ui_red;
    repeat match goal with |- _ /\ _ => split end; reflexivity.
Qed.

(** X20.  While the status text exists, [updateHandStatus] completes and the
    page shows the flag it was given: the text, the class of the dot, of
    the instructions and of the container, each where the element exists.
    Repeating the call changes nothing, so the class lists do not grow
    with the frame rate. *)
Theorem status_display_shows_detection
    (detected : bool) (p : t) (statusText : DOM.Element) :
  element Elements.statusText p = Some statusText ->
  let run := UIController.updateHandStatus detected p in
  let shown := document (snd run) in
  fst run = Normal tt
  /\ option_map DOM.textContent (Elements.statusText shown)
     = Some (if detected then "Hand Detected" else "Show Your Hand")%string
  /\ (forall e, Elements.statusDot shown = Some e ->
        DOM.contains "active" (DOM.classList e) = detected)
  /\ (forall e, Elements.instructions shown = Some e ->
        DOM.contains "hidden" (DOM.classList e) = detected)
  /\ (forall e, Elements.container shown = Some e ->
        DOM.contains "hand-detected" (DOM.classList e) = detected)
  /\ UIController.updateHandStatus detected (snd run) = (Normal tt, snd run).
Proof.
  destruct p as [a [i hs sd st cf tcb sc tsb ls ct] c o l al ti ii lo].
  unfold element; cbn [cached document Elements.statusText].
  destruct c; [| discriminate]; intros ->.
  destruct detected, sd as [sd |], i as [i |], ct as [ct |]; ui_red;
    repeat match goal with |- _ /\ _ => split end;
    try reflexivity;
    try (intros e H; try discriminate H; injection H as <-;
         cbn [DOM.classList];
         rewrite ?contains_add, ?contains_remove; reflexivity);
    rewrite ?add_idempotent, ?remove_idempotent; reflexivity.
Qed.

Lemma status_display_shows_detection_witness :
  fst (UIController.updateHandStatus true
         (set_cached true
            (load (Elements.mk None None None (Some (DOM.mk [] EmptyString))
                     None None None None None None))))
  = Normal tt.
Proof.
  refine (proj1 (status_display_shows_detection true
                   (set_cached true
                      (load (Elements.mk None None None (Some (DOM.mk [] EmptyString))
                               None None None None None None)))
                   (DOM.mk [] EmptyString) _)).
  reflexivity.
Defined.

(** X21.  A detection result reaches the particle system only through the status
    display.  With the application's listener registered and a result the
    tracker processes, the page with a status text does what [App.step]
    does on the result; without one (the element missing, or the controller
    not initialised) the listener throws a TypeError after the tracker has
    moved, and the particle system and the document are left as they
    were. *)
Theorem hand_update_needs_status_text
    (results : Results) (handData : HandData.t) (tracker : HandTracker.t)
    (p : t) :
  listeners p "handUpdate"%string = Some [OnHandUpdate] ->
  HandTracker.onResults results (App.handTracker (app p))
  = (Normal handData, tracker) ->
  let run := Site.detection results p in
  match element Elements.statusText p with
  | Some _ =>
      fst run = Normal tt
      /\ app (snd run) = App.step (app p) (App.Detection results)
  | None =>
      fst run = Throw TypeError
      /\ app (snd run) = App.mk tracker (App.particleSystem (app p))
      /\ document (snd run) = document p
  end.
Proof.
  intros Hl Hr run.
  assert (E : run
              = Emitter.onHandUpdate (Hand handData)
                  (set_app (App.mk tracker (App.particleSystem (app p))) p)).
  { unfold run, Site.detection, bind at 1, get.
    rewrite Hr; unfold bind at 1, modify.
    rewrite emit_runs by reflexivity.
    destruct p; cbn [listeners set_app] in *; rewrite Hl.
    cbn [Emitter.forEach Emitter.call]; apply bind_ret_unit. }
  set (q := set_app (App.mk tracker (App.particleSystem (app p))) p) in *.
  assert (Hq : element Elements.statusText q = element Elements.statusText p)
    by (destruct p; reflexivity).
  rewrite E; unfold Emitter.onHandUpdate, bind.
  destruct (element Elements.statusText p) as [e |] eqn:He.
  - destruct (updateHandStatus_keeps (HandData.detected handData) q e Hq)
      as (H1 & H2 & _).
    destruct (UIController.updateHandStatus (HandData.detected handData) q)
      as [[[] | x] q'] eqn:Hu; cbn [fst snd] in *; [| discriminate].
    split; [reflexivity |].
    unfold modify; cbn [snd]; unfold App.step; rewrite Hr.
    destruct q'; cbn [set_app app] in *; rewrite H2.
    destruct p; reflexivity.
  - rewrite updateHandStatus_throws by exact Hq.
    repeat match goal with |- _ /\ _ => split end;
      destruct p; reflexivity.
Qed.

Lemma hand_update_needs_status_text_witness :
  fst (Site.detection Frames.absent
         (snd (Emitter.on "handUpdate" OnHandUpdate
                 (load (Elements.mk None None None None None None None None
                          None None)))))
  = Throw TypeError.
Proof.
  refine (proj1 (hand_update_needs_status_text Frames.absent
                   {| HandData.detected := false;
                      HandData.distance := 0.5; HandData.rotation := 0 |}
                   (snd (HandTracker.onResults Frames.absent
                           HandTracker.constructor))
                   (snd (Emitter.on "handUpdate" OnHandUpdate
                           (load (Elements.mk None None None None None None
                                    None None None None)))) _ _));
    reflexivity.
Defined.

(** X22.  A click on the skeleton button, with the controller initialised by
    [App]: when the canvas exists, the tracker's flag, the class of the
    canvas, the class of the button and its text all take the negation of
    the canvas's former visibility, and the particle system is not
    touched; when the canvas is missing, the tracker's flag is set, the
    callback throws a TypeError and the button is left as it was. *)
Theorem skeleton_click_follows_canvas (p : t) :
  cached p = true -> onSkeletonToggle p = true ->
  let run := UIController.toggleSkeleton p in
  let shown := document (snd run) in
  match Elements.skeletonCanvas (document p) with
  | Some canvas =>
      let show := negb (DOM.contains "visible" (DOM.classList canvas)) in
      fst run = Normal tt
      /\ HandTracker.showSkeleton (App.handTracker (app (snd run))) = show
      /\ App.particleSystem (app (snd run)) = App.particleSystem (app p)
      /\ option_map (fun c => DOM.contains "visible" (DOM.classList c))
           (Elements.skeletonCanvas shown) = Some show
      /\ (forall b, Elements.toggleSkeletonBtn shown = Some b ->
            DOM.contains "active" (DOM.classList (Button.element b)) = show
            /\ forall text, Button.btnText b = Some text ->
                 DOM.textContent text
                 = (if show then "Hide Skeleton" else "Show Skeleton")%string)
  | None =>
      fst run = Throw TypeError
      /\ HandTracker.showSkeleton (App.handTracker (app (snd run))) = true
      /\ shown = document p
  end.
Proof.
  destruct p as [a [i hs sd st cf tcb sc tsb ls ct] c o l al ti ii lo].
  cbn [cached onSkeletonToggle document Elements.skeletonCanvas].
  intros -> ->.
  destruct sc as [canvas |].
  - destruct tsb as [[be [bt |]] |]; ui_red;
      repeat match goal with |- _ /\ _ => split end;
      try reflexivity;
      try (rewrite contains_toggleForce; reflexivity);
      intros b H; try discriminate H; injection H as <-;
      ui_red; rewrite contains_toggleForce;
      (split; [reflexivity |]);
      intros text H; try discriminate H; injection H as <-; reflexivity.
  - destruct tsb as [[be [bt |]] |]; ui_red;
      repeat match goal with |- _ /\ _ => split end; reflexivity.
Qed.

Lemma skeleton_click_follows_canvas_witness :
  fst (UIController.toggleSkeleton
         (snd (UIController.init
                 (load (Elements.mk None None None None None None None None
                          None None)))))
  = Throw TypeError.
Proof.
  refine (proj1 (skeleton_click_follows_canvas
                   (snd (UIController.init
                           (load (Elements.mk None None None None None None
                                    None None None None)))) _ _));
    reflexivity.
Defined.

(** X23.  A click on the camera button never throws.  When the feed exists its
    class "hidden" is flipped, its other classes are kept, and the button
    text names the opposite action; without the feed the text is always
    "Hide Camera". *)
Theorem camera_click_flips_hidden (p : t) :
  cached p = true ->
  let run := UIController.toggleCameraFeed p in
  let shown := document (snd run) in
  fst run = Normal tt
  /\ app (snd run) = app p
  /\ match Elements.cameraFeed (document p) with
     | Some feed =>
         let hidden := negb (DOM.contains "hidden" (DOM.classList feed)) in
         (exists feed',
            Elements.cameraFeed shown = Some feed'
            /\ DOM.contains "hidden" (DOM.classList feed') = hidden
            /\ forall token, token <> "hidden"%string ->
                 DOM.contains token (DOM.classList feed')
                 = DOM.contains token (DOM.classList feed))
         /\ (forall b text,
               Elements.toggleCameraBtn shown = Some b ->
               Button.btnText b = Some text ->
               DOM.textContent text
               = (if hidden then "Show Camera" else "Hide Camera")%string)
     | None =>
         Elements.cameraFeed shown = None
         /\ (forall b text,
               Elements.toggleCameraBtn shown = Some b ->
               Button.btnText b = Some text ->
               DOM.textContent text = "Hide Camera"%string)
     end.
Proof.
  destruct p as [a [i hs sd st cf tcb sc tsb ls ct] c o l al ti ii lo].
  cbn [cached document Elements.cameraFeed].
  intros ->.
  destruct cf as [feed |], tcb as [[be [bt |]] |]; ui_red;
    rewrite ?toggle_toggleForce; cbv beta iota;
    repeat match goal with |- _ /\ _ => split end;
    try reflexivity;
    try (intros b text H H'; try discriminate H; injection H as <-;
         try discriminate H'; injection H' as <-; reflexivity);
    (eexists; split; [reflexivity |]; ui_red; split;
     [ rewrite contains_toggleForce; reflexivity
     | intros token Ht; rewrite contains_toggleForce;
       apply String.eqb_neq in Ht; rewrite Ht; reflexivity ]).
Qed.

Lemma camera_click_flips_hidden_witness :
  fst (UIController.toggleCameraFeed
         (snd (UIController.init
                 (load (Elements.mk None None None None
                          (Some (DOM.mk ["hidden"%string] EmptyString)) None None None
                          None None)))))
  = Normal tt.
Proof.
  refine (proj1 (camera_click_flips_hidden
                   (snd (UIController.init
                           (load (Elements.mk None None None None
                                    (Some (DOM.mk ["hidden"%string] EmptyString))
                                    None None None None None)))) _));
    reflexivity.
Defined.

End InterfaceFacts.

(** ** Start-up *)

Section StartUp.

Import Page.


Lemma loadingTimeout_before_caching (p : t) :
  cached p = false ->
  document (snd (UIController.loadingTimeout p)) = document p.
Proof.
  destruct p as [a d c o l al ti ii lo].
  cbn [cached]; intros ->; reflexivity.
Qed.

(** X24.  Start-up succeeds exactly when the four external steps succeed and the
    skeleton canvas and the camera feed exist; no other element is needed.
    Whatever happens is visible: the application is initialised exactly
    when no alert was shown, at most two alerts are shown, and
    [hideLoading] has been called once, or once per alert.  The animation
    loop runs exactly when the controller has cached its elements, which
    is when the three.js set-up succeeded. *)
Theorem start_up_outcomes (env : Environment) (doc : Elements.t) :
  let p := Site.init env (load doc) in
  (isInitialized p = true
   <-> scene env = Succeeds /\ hands env = Succeeds
       /\ userMedia env = Succeeds /\ cameraUtils env = Succeeds
       /\ Elements.skeletonCanvas doc <> None
       /\ Elements.cameraFeed doc <> None)
  /\ (isInitialized p = true <-> alerts p = [])
  /\ (List.length (alerts p) <= 2)%nat
  /\ timers p = Nat.max 1 (List.length (alerts p))
  /\ looping p = cached p
  /\ (cached p = true <-> scene env = Succeeds).
Proof.
  destruct env as [sc ha um cu msg w].
  destruct doc as [i hs sd st cf tcb skc tsb ls ct].
  destruct sc, ha, um, cu, skc, cf, st; vm_compute;
    repeat match goal with |- _ /\ _ => split | |- _ <-> _ => split end;
    try reflexivity; try (repeat constructor; fail);
    try (intros H; discriminate H);
    intuition congruence.
Qed.



(** X26.  A refused camera is reported twice.  When [getUserMedia]
    rejects with a message, the [cameraError] listener shows the fixed text
    and [App]'s own [catch] then shows the message itself: two alerts in
    that order, two pending timeouts, the status text (if there is one)
    left with the second text.  The scene was initialised before and the
    animation loop keeps running. *)
Theorem camera_failure_is_reported_twice
    (env : Environment) (doc : Elements.t) (canvas : DOM.Element)
    (message : string) :
  scene env = Succeeds -> hands env = Succeeds ->
  Elements.skeletonCanvas doc = Some canvas ->
  userMedia env = Fails message ->
  let p := Site.init env (load doc) in
  alerts p
  = [ UIController.alertText "Camera access denied or unavailable";
      UIController.alertText message ]
  /\ timers p = 2%nat
  /\ isInitialized p = false
  /\ looping p = true
  /\ app p = App.run App.init (repeat App.AnimationFrame (waiting env))
  /\ (forall e, Elements.statusText (document p) = Some e ->
        DOM.textContent e = ("Error: " ++ message)%string).
Proof.
  destruct env as [sc ha um cu msg w].
  destruct doc as [i hs sd st cf tcb skc tsb ls ct].
  cbn [scene hands userMedia Elements.skeletonCanvas].
  intros -> -> -> ->.
  set (p := Site.init _ _).
  repeat match goal with |- _ /\ _ => split end;
    try (destruct st; vm_compute; reflexivity).
  destruct st as [text |]; vm_compute; intros e H; [| discriminate H].
  injection H as <-; reflexivity.
Qed.

Lemma camera_failure_is_reported_twice_witness :
  timers
    (Site.init
       {| scene := Succeeds; hands := Succeeds;
          userMedia := Fails "Permission denied"; cameraUtils := Succeeds;
          typeErrorMessage := EmptyString; waiting := 0 |}
       (load (Elements.mk None None None None None None
                (Some (DOM.mk [] EmptyString)) None None None)))
  = 2%nat.
Proof.
  refine (proj1 (proj2 (camera_failure_is_reported_twice
                   {| scene := Succeeds; hands := Succeeds;
                      userMedia := Fails "Permission denied";
                      cameraUtils := Succeeds;
                      typeErrorMessage := EmptyString; waiting := 0 |}
                   (Elements.mk None None None None None None
                      (Some (DOM.mk [] EmptyString)) None None None)
                   (DOM.mk [] EmptyString) "Permission denied"
                   _ _ _ _))); reflexivity.
Defined.

(** X27.  When the three.js set-up fails, the failure is shown in one alert and
    nothing else happens: the controller never caches its elements, so the
    document is left as it was (the status text does not show the error),
    no listener is registered, the animation loop is not started, and the
    timeout started by [hideLoading] leaves the loading screen in place. *)
Theorem scene_failure_keeps_loading_screen
    (env : Environment) (doc : Elements.t) (message : string) :
  scene env = Fails message ->
  let p := Site.init env (load doc) in
  alerts p = [UIController.alertText message]
  /\ timers p = 1%nat
  /\ isInitialized p = false
  /\ looping p = false
  /\ document p = doc
  /\ (forall event, listeners p event = None)
  /\ document (snd (UIController.loadingTimeout p)) = doc.
Proof.
  destruct env as [sc ha um cu msg w].
  cbn [scene]; intros ->.
  set (p := Site.init _ _).
  assert (E : p = set_timers 1
                    (set_alerts [UIController.alertText message] (load doc)))
    by reflexivity.
  rewrite E.
  repeat match goal with |- _ /\ _ => split end; reflexivity.
Qed.

Lemma scene_failure_keeps_loading_screen_witness :
  looping
    (Site.init
       {| scene := Fails "WebGL not supported"; hands := Succeeds;
          userMedia := Succeeds; cameraUtils := Succeeds;
          typeErrorMessage := EmptyString; waiting := 0 |}
       (load (Elements.mk None None None None None None None None
                (Some (DOM.mk [] EmptyString)) None)))
  = false.
Proof.
  refine (proj1 (proj2 (proj2 (proj2 (scene_failure_keeps_loading_screen
                   {| scene := Fails "WebGL not supported";
                      hands := Succeeds; userMedia := Succeeds;
                      cameraUtils := Succeeds;
                      typeErrorMessage := EmptyString; waiting := 0 |}
                   (Elements.mk None None None None None None None None
                      (Some (DOM.mk [] EmptyString)) None)
                   "WebGL not supported" _))))); reflexivity.
Defined.

End StartUp.

(** ** Hand control on the page *)

Section PageAuthority.

Import Page.










End PageAuthority.
